(** * fund-manager: the valuation synchronisation engine

    A shallow embedding of the JavaScript sources

    - [js/calculator.js]  (object [Calculator], and the [FundAPI] object with
      the live-estimate / settled-net-value fallback that follows it),
    - [js/fund-api.js]    (the JSONP-callback [FundAPI]),
    - [js/storage.js]     (object [Storage], the TTL cache),
    - the main page script (global [AppState], [refreshNetValues],
      [setRefreshing]),

    followed by the properties of the specification that concern them.

    Conventions of the embedding.

    - The arithmetic of [Calculator] is embedded twice.  [Calculator64]
      computes in binary64 floating point (the primitive [float], which is
      the IEEE 754 double of a JavaScript engine), operation by operation
      as the source does, with [Infinity], [NaN] and the two zeros; what is
      said about the digits a function returns is stated on it.
      [Calculator] computes the same formulas in exact rationals [Q], with
      [Math.round x] as [floor (x + 1/2)] and equalities stated with [==];
      it carries the statements that relate results to each other (sums,
      order, the totals the page shows).  The exact reading has no
      [Infinity] and no [NaN]: no statement made on it depends on the
      value of a quotient whose divisor is zero.
    - A number read from a provider payload with [parseFloat] is a
      [jsnumber]: [NaN] or a rational.  A payload field that is passed on
      without being computed with is a [jsvalue].
    - A holding field that may be [undefined] or [null] is an [option]; the
      code never tells the two apart (it tests with [||], or with
      [!== undefined && !== null]).
    - An object used as a map (the cache, the settings) is a [gmap] of its
      own properties; the properties it inherits from [Object.prototype]
      are named by [inherited], and the one of them that cannot be
      assigned, [__proto__], is treated where the code assigns or reads it.
    - [Date.now()] is an integer number of milliseconds, passed in.
    - A promise is represented by the way it settles ([outcome]); the
      asynchronous function [refreshNetValues] is cut at its only [await]
      into the part that runs when it is called and the part that runs when
      the batch has settled.
    - A call into the page that can throw (a DOM element that is missing,
      a full [localStorage]) throws or not as the [Env] says. *)

From Stdlib Require Import ZArith QArith Qround Qminmax Qpower Qfield Lqa Lia Bool.
From Stdlib Require Import Sorted Permutation.
From Stdlib Require Floats Uint63.
From stdpp Require Import gmap strings list.

Set Warnings "-inexact-float".

Open Scope Q_scope.

(* ================================================================== *)
(** * JavaScript values *)

(** The result of [parseFloat]: always a number, possibly [NaN]. *)
Inductive jsnumber : Type :=
| NaN
| Num (q : Q).

(** Truthiness of a number: [NaN] and [0] are falsy. *)
Definition truthy (v : jsnumber) : bool :=
  match v with
  | NaN => false
  | Num q => negb (Qeq_bool q 0)
  end.

(** A value that is passed on without being computed with: a field of a
    provider payload, a global a script leaves behind.  [JObject] stands
    for any object, array or function. *)
Inductive jsvalue : Type :=
| JUndefined
| JNull
| JBoolean (b : bool)
| JNumber (n : jsnumber)
| JString (s : string)
| JObject.

(** Truthiness of a value: [undefined], [null], [false], [0], [NaN] and
    the empty string are falsy. *)
Definition is_truthy (v : jsvalue) : bool :=
  match v with
  | JUndefined => false
  | JNull => false
  | JBoolean b => b
  | JNumber n => truthy n
  | JString s => negb (String.eqb s "")
  | JObject => true
  end.

(** [v || '']: [v] itself when it is truthy, whatever its type. *)
Definition or_empty (v : jsvalue) : jsvalue :=
  if is_truthy v then v else JString "".

(** The names of the properties a plain object inherits from
    [Object.prototype]. *)
Definition inherited (key : string) : bool :=
  existsb (String.eqb key)
    ["constructor"; "hasOwnProperty"; "isPrototypeOf"; "propertyIsEnumerable";
     "toLocaleString"; "toString"; "valueOf"; "__proto__";
     "__defineGetter__"; "__defineSetter__"; "__lookupGetter__";
     "__lookupSetter__"]%string.

(** [obj[key] = v] on a plain object used as a map, as [JSON.stringify]
    sees the object afterwards: the property is set, except that
    [__proto__] names the prototype when the object has no property of
    its own by that name; the assignment then leaves the properties of the
    object as they are. *)
Definition assign {V : Type} (obj : gmap string V) (key : string) (v : V)
  : gmap string V :=
  match obj !! key with
  | Some _ => <[key := v]> obj
  | None => if String.eqb key "__proto__" then obj else <[key := v]> obj
  end.

(** [v || d], where [d] is a number: [v] when it is truthy, else [d]. *)
Definition num_or (v : jsnumber) (d : Q) : Q :=
  match v with
  | Num q => if truthy v then q else d
  | NaN => d
  end.

(** [Math.round]: the nearest integer, halves going up. *)
Definition Math_round (x : Q) : Z := Qfloor (x + (1 # 2)).

(** [Math.max] on two numbers. *)
Definition Math_max (a b : Q) : Q := Qmax a b.



(* ================================================================== *)
(** * Data model *)

(** A holding, as kept in [AppState.holdings] and in the holdings store. *)
Record Holding : Type := mkHolding {
  hid : string;                   (* id *)
  code : string;
  name : string;
  shares : Q;
  costPrice : Q;
  lastNav : option Q;
  dayChange : option Q;
  estimateTime : jsvalue
}.

(** A transaction, as far as [calculateAfterTransaction] reads it. *)
Record Transaction : Type := mkTransaction {
  tx_type : string;               (* type: 'buy', 'sell', 'convert' *)
  tx_shares : Q;                  (* shares *)
  tx_amount : Q                   (* amount *)
}.

(** The object returned by [calculateProfit]. *)
Record ProfitSnapshot : Type := mkProfit {
  costAmount : Q;
  currentAmount : Q;
  profit : Q;
  profitRate : Q
}.

(** The object returned by [calculateSummary]. *)
Record Summary : Type := mkSummary {
  totalCost : Q;
  totalCurrent : Q;
  totalProfit : Q;
  totalProfitRate : Q;
  totalDayProfit : Q;
  dayProfitRate : Q;
  hasDayProfit : bool
}.

(** The object returned by [calculateAfterTransaction]. *)
Record Position : Type := mkPosition {
  pos_shares : Q;                 (* shares *)
  pos_costPrice : Q               (* costPrice *)
}.


(** An element of [historyNetValues]: a date and, when present, the net
    values of that date by instrument code. *)
Record HistoryItem : Type := mkHistoryItem {
  hi_date : string;               (* date *)
  hi_netValues : option (gmap string Q)   (* netValues *)
}.

(** An element of the array returned by [calculateProfitTrend]. *)
Record TrendEntry : Type := mkTrendEntry {
  t_date : string;                (* date *)
  t_value : Q                     (* value *)
}.

(** [h.lastNav || h.costPrice]. *)
Definition navOrCost (h : Holding) : Q :=
  match lastNav h with
  | Some q => if Qeq_bool q 0 then costPrice h else q
  | None => costPrice h
  end.

(* ================================================================== *)
(** * [Calculator] in exact arithmetic (js/calculator.js) *)

Module Calculator.

(** [round(num, decimals)], read exactly: the multiple of [10^-decimals]
    nearest to [num], a tie going up.  The engine rounds the double
    [num * factor] instead ([Calculator64.round]); the two can differ in
    the last decimal when [num] is within a rounding error of a tie. *)
Definition round (num : Q) (decimals : Z) : Q :=
  let factor := Qpower 10 decimals in
  inject_Z (Math_round (num * factor)) / factor.

(** [x > 0] as a test. *)
Definition gt0 (x : Q) : bool := negb (Qle_bool x 0).

Definition calculateProfit (holding : Holding) (currentNav : Q) : ProfitSnapshot :=
  let costAmount := shares holding * costPrice holding in
  let currentAmount := shares holding * currentNav in
  let profit := currentAmount - costAmount in
  let profitRate := if gt0 costAmount then profit / costAmount * 100 else 0 in
  {| costAmount := round costAmount 2;
     currentAmount := round currentAmount 2;
     profit := round profit 2;
     profitRate := round profitRate 2 |}.

Definition calculateDayProfit (holding : Holding) (dayChangeRate : Q) : Q :=
  let currentAmount := shares holding * navOrCost holding in
  let dayProfit := currentAmount * (dayChangeRate / 100) in
  round dayProfit 2.

(** The accumulators of the [forEach] in [calculateSummary]. *)
Record SummaryAcc : Type := mkAcc {
  acc_totalCost : Q;
  acc_totalCurrent : Q;
  acc_totalDayProfit : Q;
  acc_hasDayProfit : bool
}.

(** One iteration of the [forEach] callback. *)
Definition summaryStep (acc : SummaryAcc) (h : Holding) : SummaryAcc :=
  let profit := calculateProfit h (navOrCost h) in
  let totalCost := acc_totalCost acc + costAmount profit in
  let totalCurrent := acc_totalCurrent acc + currentAmount profit in
  match dayChange h with
  | Some d =>
      {| acc_totalCost := totalCost;
         acc_totalCurrent := totalCurrent;
         acc_totalDayProfit := acc_totalDayProfit acc + calculateDayProfit h d;
         acc_hasDayProfit := true |}
  | None =>
      {| acc_totalCost := totalCost;
         acc_totalCurrent := totalCurrent;
         acc_totalDayProfit := acc_totalDayProfit acc;
         acc_hasDayProfit := acc_hasDayProfit acc |}
  end.

Definition calculateSummary (holdings : list Holding) : Summary :=
  let acc := fold_left summaryStep holdings
               {| acc_totalCost := 0; acc_totalCurrent := 0;
                  acc_totalDayProfit := 0; acc_hasDayProfit := false |} in
  let totalCost := acc_totalCost acc in
  let totalCurrent := acc_totalCurrent acc in
  let totalDayProfit := acc_totalDayProfit acc in
  let totalProfit := totalCurrent - totalCost in
  let totalProfitRate := if gt0 totalCost then totalProfit / totalCost * 100 else 0 in
  let dayProfitRate := if gt0 totalCurrent then totalDayProfit / totalCurrent * 100 else 0 in
  {| totalCost := round totalCost 2;
     totalCurrent := round totalCurrent 2;
     totalProfit := round totalProfit 2;
     totalProfitRate := round totalProfitRate 2;
     totalDayProfit := round totalDayProfit 2;
     dayProfitRate := round dayProfitRate 2;
     hasDayProfit := acc_hasDayProfit acc |}.

(** [calculateAfterTransaction], read exactly.  A buy that brings the
    shares to 0 divides by zero, which the engine answers with [Infinity]
    or [NaN] ([Calculator64.calculateAfterTransaction]); the exact reading
    is used where the shares after the buy are not 0. *)
Definition calculateAfterTransaction (holding : Holding) (transaction : Transaction)
  : Position :=
  let '(newShares, newCostPrice) :=
    if String.eqb (tx_type transaction) "buy" then
      let oldCost := shares holding * costPrice holding in
      let newCost := tx_amount transaction in
      let totalCost := oldCost + newCost in
      let newShares := shares holding + tx_shares transaction in
      (newShares, totalCost / newShares)
    else if String.eqb (tx_type transaction) "sell" then
      (shares holding - tx_shares transaction, costPrice holding)
    else
      (shares holding, costPrice holding) in
  {| pos_shares := Math_max 0 (round newShares 2);
     pos_costPrice := round newCostPrice 4 |}.

(** [calculateRate]. *)
Definition calculateRate (profit cost : Q) : Q :=
  if Qeq_bool cost 0 then 0 else round (profit / cost * 100) 2.

(** The local [totalValue] of [calculateDistribution]. *)
Definition totalValue (holdings : list Holding) : Q :=
  fold_left (fun sum h => sum + shares h * navOrCost h) holdings 0.



(** The net value [calculateProfitTrend] takes for a holding on a date. *)
Definition trendNav (item : HistoryItem) (h : Holding) : Q :=
  match hi_netValues item with
  | Some netValues =>
      match netValues !! code h with
      | Some v => if Qeq_bool v 0 then navOrCost h else v
      | None => navOrCost h
      end
  | None => navOrCost h
  end.

(** [calculateProfitTrend]; [historyNetValues] is [None] when the argument
    is [null] or [undefined]. *)
Definition calculateProfitTrend (holdings : list Holding)
  (historyNetValues : option (list HistoryItem)) : list TrendEntry :=
  match historyNetValues with
  | None => []
  | Some [] => []
  | Some items =>
      map (fun item =>
             let totalValue :=
               fold_left (fun total h => total + shares h * trendNav item h)
                         holdings 0 in
             {| t_date := hi_date item; t_value := round totalValue 2 |})
          items
  end.

End Calculator.

(* ================================================================== *)
(** * [Calculator] in binary64 (js/calculator.js) *)

Module Calculator64.

Import Floats.
Local Open Scope float_scope.

(** The numbers of a holding that [calculateProfit] and
    [calculateAfterTransaction] read. *)
Record Holding : Type := mkHolding {
  shares : float;
  costPrice : float
}.

Record Transaction : Type := mkTransaction {
  tx_type : string;               (* type *)
  tx_shares : float;              (* shares *)
  tx_amount : float               (* amount *)
}.

Record ProfitSnapshot : Type := mkProfit {
  costAmount : float;
  currentAmount : float;
  profit : float;
  profitRate : float
}.

Record Position : Type := mkPosition {
  pos_shares : float;             (* shares *)
  pos_costPrice : float           (* costPrice *)
}.

(** [Math.round]: the integer nearest to [x], the one towards [+Infinity]
    of two that are equally near; [NaN], the infinities and the zeros are
    returned as they are, and a negative [x] that rounds to zero gives
    [-0].  A finite [x] is [m * 2^e] up to its sign: with [0 <= e] it is
    an integer already, otherwise the integer is [floor (x + 1/2)],
    computed exactly; it is below [2^53] and so is a double. *)
Definition Math_round (x : float) : float :=
  match Prim2SF x with
  | S754_finite negative m e =>
      if (0 <=? e)%Z then x
      else
        let signed := if negative then Z.neg m else Z.pos m in
        let n := ((2 * signed + 2 ^ (- e)) / 2 ^ (- e + 1))%Z in
        if (n =? 0)%Z then (if negative then -0 else 0)
        else if (n <? 0)%Z then - of_uint63 (Uint63.of_Z (- n))
        else of_uint63 (Uint63.of_Z n)
  | _ => x
  end.

(** [Math.max] on two numbers: [NaN] when one of them is, and [+0] counts
    as larger than [-0]. *)
Definition Math_max (a b : float) : float :=
  if is_nan a || is_nan b then nan
  else if a <? b then b
  else if b <? a then a
  else if get_sign a then b else a.

(** [Math.pow(base, exponent)] for a natural exponent, by repeated
    multiplication: [Math.pow(10, 2)] is 100 and [Math.pow(10, 4)] is
    10000, exactly. *)
Fixpoint Math_pow (base : float) (exponent : nat) : float :=
  match exponent with
  | O => 1
  | S n => base * Math_pow base n
  end.

(** [round(num, decimals)]. *)
Definition round (num : float) (decimals : nat) : float :=
  let factor := Math_pow 10 decimals in
  Math_round (num * factor) / factor.

Definition calculateProfit (holding : Holding) (currentNav : float)
  : ProfitSnapshot :=
  let costAmount := shares holding * costPrice holding in
  let currentAmount := shares holding * currentNav in
  let profit := currentAmount - costAmount in
  let profitRate := if 0 <? costAmount then profit / costAmount * 100 else 0 in
  {| costAmount := round costAmount 2;
     currentAmount := round currentAmount 2;
     profit := round profit 2;
     profitRate := round profitRate 2 |}.

Definition calculateAfterTransaction (holding : Holding)
  (transaction : Transaction) : Position :=
  let '(newShares, newCostPrice) :=
    if String.eqb (tx_type transaction) "buy" then
      let oldCost := shares holding * costPrice holding in
      let newCost := tx_amount transaction in
      let totalCost := oldCost + newCost in
      let newShares := shares holding + tx_shares transaction in
      (newShares, totalCost / newShares)
    else if String.eqb (tx_type transaction) "sell" then
      (shares holding - tx_shares transaction, costPrice holding)
    else
      (shares holding, costPrice holding) in
  {| pos_shares := Math_max 0 (round newShares 2);
     pos_costPrice := round newCostPrice 4 |}.

End Calculator64.

(* ================================================================== *)
(** * Promises and the script transport *)

(** The reasons with which the provider client rejects. *)
Inductive Error : Type :=
| ErrTimeout        (* the timer fired before the script answered *)
| ErrRequest        (* the script element reported an error *)
| ErrNoData         (* the detail script defined no net-value series *)
| ErrFormat.        (* the JSONP callback got no usable object *)

(** How a promise settles. *)
Inductive outcome (A : Type) : Type :=
| Fulfilled (a : A)
| Rejected (e : Error).
Arguments Fulfilled {A} a.
Arguments Rejected {A} e.

Definition is_fulfilled {A : Type} (o : outcome A) : bool :=
  match o with
  | Fulfilled _ => true
  | Rejected _ => false
  end.

(** [p.catch(err => null)]: a rejection becomes the value [null]. *)
Definition catch_null {A : Type} (p : outcome A) : outcome (option A) :=
  match p with
  | Fulfilled a => Fulfilled (Some a)
  | Rejected _ => Fulfilled None
  end.

(** [Promise.all]: fulfilled with every value when all are fulfilled,
    rejected as soon as one of them is. *)
Fixpoint Promise_all {A : Type} (ps : list (outcome A)) : outcome (list A) :=
  match ps with
  | [] => Fulfilled []
  | Rejected e :: _ => Rejected e
  | Fulfilled a :: rest =>
      match Promise_all rest with
      | Fulfilled l => Fulfilled (a :: l)
      | Rejected e => Rejected e
      end
  end.

(** [results.filter(r => r !== null)]. *)
Fixpoint filter_not_null {A : Type} (rs : list (option A)) : list A :=
  match rs with
  | [] => []
  | Some a :: rest => a :: filter_not_null rest
  | None :: rest => filter_not_null rest
  end.

(** What happens to an injected script element: after [at_ms] milliseconds
    its answer arrives (the [onload] handler, or the JSONP callback, runs and
    finds [seen]), or after [at_ms] milliseconds its [onerror] handler runs,
    or nothing ever happens. *)
Inductive ScriptEvent (D : Type) : Type :=
| Arrives (at_ms : Z) (seen : D)
| Fails (at_ms : Z)
| Silent.
Arguments Arrives {D} at_ms seen.
Arguments Fails {D} at_ms.
Arguments Silent {D}.

(** The first of the three handlers to run: the [setTimeout] timer of
    [timeout] milliseconds, [onload] and [onerror].  The promise is settled
    by that handler; a later call of [resolve] or [reject] has no effect.
    An answer that comes exactly when the timer is due counts as late. *)
Inductive Settled (D : Type) : Type :=
| Loaded (seen : D)
| Errored
| TimedOut.
Arguments Loaded {D} seen.
Arguments Errored {D}.
Arguments TimedOut {D}.

Definition race {D : Type} (timeout : Z) (ev : ScriptEvent D) : Settled D :=
  match ev with
  | Arrives t d => if (t <? timeout)%Z then Loaded d else TimedOut
  | Fails t => if (t <? timeout)%Z then Errored else TimedOut
  | Silent => TimedOut
  end.

(** The object the estimate script provides ([jsonpgz_<code>], or the
    argument of the JSONP callback).  The numeric fields hold what
    [parseFloat] makes of the raw field: [NaN] when it is missing or is not
    a number. *)
Record GzData : Type := mkGzData {
  fundcode : option string;
  gz_name : jsvalue;              (* name *)
  gsz : jsnumber;
  gszzl : jsnumber;
  dwjz : jsnumber;
  gztime : jsvalue
}.

(** One point of [Data_netWorthTrend], read through [parseFloat]. *)
Record TrendPoint : Type := mkTrendPoint {
  y : jsnumber;
  equityReturn : jsnumber
}.

(** The globals the detail script leaves behind, as [onload] finds them:
    [Data_netWorthTrend] ([None] when undefined or not an array) and
    [fS_name] ([JUndefined] when the script did not declare it).  The
    elements of the series are objects: a series that ends with [null] or
    [undefined], on which [onload] throws once the timer is cleared and
    the promise stays pending for ever, is not represented. *)
Record DetailGlobals : Type := mkDetailGlobals {
  Data_netWorthTrend : option (list TrendPoint);
  fS_name : jsvalue
}.

(** The provider, seen from the client: what each script does for each
    instrument code. *)
Record Network : Type := mkNetwork {
  estimateScript : string -> ScriptEvent (option GzData);
  detailScript : string -> ScriptEvent DetailGlobals
}.

(** The valuation of one instrument, as the client returns it. *)
Record Estimate : Type := mkEstimate {
  est_code : string;              (* code *)
  est_name : jsvalue;             (* name *)
  estimateNetWorth : jsnumber;
  dayGrowth : jsnumber;
  netWorth : jsnumber;
  time : jsvalue
}.

(** A request sent to the provider: which script, for which code, and the
    delay of the timer that guards it. *)
Inductive Request : Type :=
| ReqEstimate (fundCode : string) (timeout : Z)
| ReqDetail (fundCode : string) (timeout : Z).

(* ================================================================== *)
(** * [FundAPI] with the fallback path (second part of js/calculator.js) *)

Module FundAPI.

(** [config.timeout]. *)
Definition config_timeout : Z := 10000.

(** The delay of the timer in [fetchRealTimeEstimate]. *)
Definition realtime_timeout : Z := 3000.

(** [fetchRealTimeEstimate]: the promise never rejects; [None] is the
    [null] it resolves with when the timer fires first, when the script
    fails, or when the script loads and [window['jsonpgz_' + fundCode]] is
    not set.  A payload that is set is read field by field, whatever it
    holds. *)
Definition fetchRealTimeEstimate (net : Network) (fundCode : string)
  : option Estimate :=
  match race realtime_timeout (estimateScript net fundCode) with
  | TimedOut => None
  | Loaded (Some data) =>
      Some {| est_code := fundCode;
              est_name := or_empty (gz_name data);
              estimateNetWorth := Num (num_or (gsz data) 0);
              dayGrowth := Num (num_or (gszzl data) 0);
              netWorth := Num (num_or (dwjz data) 0);
              time := or_empty (gztime data) |}
  | Loaded None => None
  | Errored => None
  end.

(** [fetchLatestNetWorth]. *)
Definition fetchLatestNetWorth (net : Network) (fundCode : string)
  : outcome Estimate :=
  match race config_timeout (detailScript net fundCode) with
  | TimedOut => Rejected ErrTimeout
  | Loaded globals =>
      match Data_netWorthTrend globals with
      | Some trend =>
          match last trend with
          | Some latest =>
              Fulfilled {| est_code := fundCode;
                           est_name := match fS_name globals with
                                       | JUndefined => JString ""
                                       | declared => declared
                                       end;
                           estimateNetWorth := Num (num_or (y latest) 0);
                           dayGrowth := Num (num_or (equityReturn latest) 0);
                           netWorth := Num (num_or (y latest) 0);
                           time := JString "" |}
          | None => Rejected ErrNoData
          end
      | None => Rejected ErrNoData
      end
  | Errored => Rejected ErrRequest
  end.

(** [getFundEstimate]: the outcome, and the requests it sent, in order. *)
Definition getFundEstimate_traced (net : Network) (fundCode : string)
  : outcome Estimate * list Request :=
  match fetchRealTimeEstimate net fundCode with
  | Some estimateResult =>
      (Fulfilled estimateResult, [ReqEstimate fundCode realtime_timeout])
  | None =>
      (fetchLatestNetWorth net fundCode,
       [ReqEstimate fundCode realtime_timeout; ReqDetail fundCode config_timeout])
  end.

Definition getFundEstimate (net : Network) (fundCode : string) : outcome Estimate :=
  fst (getFundEstimate_traced net fundCode).

End FundAPI.

(* ================================================================== *)
(** * [FundAPI] with the JSONP callback (js/fund-api.js) *)

Module FundAPIJsonp.

Definition config_timeout : Z := 10000.

(** [getFundEstimate]: [jsonp] tells, for each code, when the generated
    callback is called and with what, or when the script fails. *)
Definition getFundEstimate (jsonp : string -> ScriptEvent (option GzData))
  (fundCode : string) : outcome Estimate :=
  match race config_timeout (jsonp fundCode) with
  | TimedOut => Rejected ErrTimeout
  | Loaded (Some data) =>
      match fundcode data with
      | Some c =>
          if String.eqb c "" then Rejected ErrFormat
          else Fulfilled {| est_code := c;
                            est_name := gz_name data;
                            estimateNetWorth := gsz data;
                            dayGrowth := gszzl data;
                            netWorth := dwjz data;
                            time := gztime data |}
      | None => Rejected ErrFormat
      end
  | Loaded None => Rejected ErrFormat
  | Errored => Rejected ErrRequest
  end.

End FundAPIJsonp.

(* ================================================================== *)
(** * [getBatchFundEstimate] (the same text in both [FundAPI] objects) *)

Section Batch.

(** [this.getFundEstimate], by the way its promise settles. *)
Variable getFundEstimate : string -> outcome Estimate.

Definition getBatchFundEstimate (fundCodes : list string)
  : outcome (list Estimate) :=
  let promises := map (fun code => catch_null (getFundEstimate code)) fundCodes in
  match Promise_all promises with
  | Fulfilled results => Fulfilled (filter_not_null results)
  | Rejected error => Rejected error
  end.

End Batch.

(* ================================================================== *)
(** * The main page script: [AppState] and [refreshNetValues] *)

(** The global [AppState]. *)
Record AppState : Type := mkAppState {
  holdings : list Holding;
  isLoading : bool;
  lastRefreshTime : Z;
  refreshInterval : Z
}.

(** The two messages [refreshNetValues] shows with [Utils.toast]. *)
Inductive Toast : Type :=
| ToastUpdated      (* after a refresh that updated a holding *)
| ToastFailed.      (* in the catch clause *)

(** Everything [refreshNetValues] reads or writes: the global state, the
    holdings item of [localStorage], the summary card, the class of the
    refresh button, the toasts shown and the codes requested so far. *)
Record World : Type := mkWorld {
  app : AppState;
  stored : option (list Holding);
  card : option Summary;
  rotating : bool;
  toasts : list Toast;
  requested : list string
}.

(** What the page may do that the embedding does not compute: the calls
    that can throw inside [refreshNetValues].  [Storage.saveHoldings]
    catches the exception of [localStorage.setItem] itself;
    [setRefreshing] throws when the page has no element [refreshBtn] at
    the time it is called. *)
Record Env : Type := mkEnv {
  renderHoldings_throws : list Holding -> bool;
  updateSummaryCard_throws : Summary -> bool;
  setItem_throws : list Holding -> bool;
  setRefreshing_throws : bool -> bool
}.

(** ** State and exceptions *)

Inductive result (A : Type) : Type :=
| Val (a : A)
| Exn.
Arguments Val {A} a.
Arguments Exn {A}.

(** A statement: it runs in a world, changes it, and returns or throws.
    What it changed before throwing stays changed. *)
Definition M (A : Type) : Type := World -> result A * World.

Definition ret {A : Type} (a : A) : M A := fun w => (Val a, w).

Definition throw {A : Type} : M A := fun w => (Exn, w).

Definition bind {A B : Type} (m : M A) (k : A -> M B) : M B :=
  fun w =>
    match m w with
    | (Val a, w1) => k a w1
    | (Exn, w1) => (Exn, w1)
    end.

Notation "'let*' x := m 'in' k" := (bind m (fun x => k))
  (at level 10, x name, m at level 100, k at level 200).
Notation "m ;; k" := (bind m (fun _ => k))
  (at level 100, k at level 200, right associativity).

(** [try { body } catch (error) { handler }]. *)
Definition try_catch {A : Type} (body handler : M A) : M A :=
  fun w =>
    match body w with
    | (Val a, w1) => (Val a, w1)
    | (Exn, w1) => handler w1
    end.

(** [try { body } finally { cleanup }]. *)
Definition try_finally {A : Type} (body : M A) (cleanup : M unit) : M A :=
  fun w =>
    match body w with
    | (r, w1) =>
        match cleanup w1 with
        | (Val _, w2) => (r, w2)
        | (Exn, w2) => (Exn, w2)
        end
    end.

Definition when (b : bool) (m : M unit) : M unit :=
  if b then m else ret tt.

Definition get_app : M AppState := fun w => (Val (app w), w).

Definition set_app (a : AppState) : M unit :=
  fun w => (Val tt, {| app := a; stored := stored w; card := card w;
                       rotating := rotating w; toasts := toasts w;
                       requested := requested w |}).

(** ** The collaborators, as far as they act on the world *)

(** [Utils.toast]. *)
Definition toast (t : Toast) : M unit :=
  fun w => (Val tt, {| app := app w; stored := stored w; card := card w;
                       rotating := rotating w; toasts := toasts w ++ [t];
                       requested := requested w |}).

(** [updateSummaryCard]. *)
Definition updateSummaryCard (env : Env) (summary : Summary) : M unit :=
  fun w =>
    if updateSummaryCard_throws env summary then (Exn, w)
    else (Val tt, {| app := app w; stored := stored w; card := Some summary;
                     rotating := rotating w; toasts := toasts w;
                     requested := requested w |}).

(** [renderHoldings]: the list itself is not represented; with no holding
    it resets the summary card. *)
Definition renderHoldings (env : Env) : M unit :=
  let* a := get_app in
  if renderHoldings_throws env (holdings a) then throw
  else
    match holdings a with
    | [] =>
        updateSummaryCard env
          {| totalCost := 0; totalCurrent := 0; totalProfit := 0;
             totalProfitRate := 0; totalDayProfit := 0; dayProfitRate := 0;
             hasDayProfit := false |}
    | _ :: _ => ret tt
    end.

(** [Storage.saveHoldings]: returns whether the item was written. *)
Definition saveHoldings (env : Env) (hs : list Holding) : M bool :=
  fun w =>
    if setItem_throws env hs then (Val false, w)
    else (Val true, {| app := app w; stored := Some hs; card := card w;
                       rotating := rotating w; toasts := toasts w;
                       requested := requested w |}).

(** [setRefreshing]: first the flag, then the class of the refresh button.
    [getElementById] is not checked for [null]: without the button the
    function throws, the flag already assigned. *)
Definition setRefreshing (env : Env) (isRefreshing : bool) : M unit :=
  fun w =>
    let flagged :=
      {| holdings := holdings (app w);
         isLoading := isRefreshing;
         lastRefreshTime := lastRefreshTime (app w);
         refreshInterval := refreshInterval (app w) |} in
    if setRefreshing_throws env isRefreshing
    then (Exn, {| app := flagged; stored := stored w; card := card w;
                  rotating := rotating w; toasts := toasts w;
                  requested := requested w |})
    else (Val tt, {| app := flagged; stored := stored w; card := card w;
                     rotating := isRefreshing; toasts := toasts w;
                     requested := requested w |}).

(** The calls [FundAPI.getFundEstimate(code)], one for each code. *)
Definition dispatch (codes : list string) : M unit :=
  fun w => (Val tt, {| app := app w; stored := stored w; card := card w;
                       rotating := rotating w; toasts := toasts w;
                       requested := requested w ++ codes |}).

(** ** The completion handler *)

(** The three assignments to the holding found. *)
Definition applyEstimate (holding : Holding) (estimate : Estimate) : Holding :=
  {| hid := hid holding;
     code := code holding;
     name := name holding;
     shares := shares holding;
     costPrice := costPrice holding;
     lastNav := Some (num_or (netWorth estimate) (navOrCost holding));
     dayChange := Some (num_or (dayGrowth estimate) 0);
     estimateTime := time estimate |}.

(** [AppState.holdings.find(h => h.code === estimate.code)] followed by the
    assignments: the first holding with that code is changed in place;
    [None] when [find] returns [undefined]. *)
Fixpoint updateFound (estimate : Estimate) (hs : list Holding)
  : option (list Holding) :=
  match hs with
  | [] => None
  | h :: rest =>
      if String.eqb (code h) (est_code estimate)
      then Some (applyEstimate h estimate :: rest)
      else match updateFound estimate rest with
           | Some rest' => Some (h :: rest')
           | None => None
           end
  end.

(** One call of the [forEach] callback, on the holdings and the local
    [updated].  A fulfilled result always carries an object, so
    [result.value] is truthy. *)
Definition mergeResult (st : list Holding * bool) (r : outcome Estimate)
  : list Holding * bool :=
  match r with
  | Fulfilled estimate =>
      match updateFound estimate (fst st) with
      | Some hs' => (hs', true)
      | None => st
      end
  | Rejected _ => st
  end.

Definition mergeResults (results : list (outcome Estimate)) (hs : list Holding)
  : list Holding * bool :=
  fold_left mergeResult results (hs, false).

(** ** [refreshNetValues] *)

(** What a call that has started a batch keeps for its continuation: the
    locals [now] and [codes]. *)
Record Pending : Type := mkPending {
  p_now : Z;
  p_codes : list string
}.

(** The local [shouldFetch]. *)
Definition shouldFetch (a : AppState) (now : Z) : bool :=
  (lastRefreshTime a =? 0)%Z || (refreshInterval a <=? now - lastRefreshTime a)%Z.

Definition set_holdings (hs : list Holding) : M unit :=
  let* a := get_app in
  set_app {| holdings := hs; isLoading := isLoading a;
             lastRefreshTime := lastRefreshTime a;
             refreshInterval := refreshInterval a |}.

Definition set_lastRefreshTime (t : Z) : M unit :=
  let* a := get_app in
  set_app {| holdings := holdings a; isLoading := isLoading a;
             lastRefreshTime := t;
             refreshInterval := refreshInterval a |}.

(** [refreshNetValues], from the call to the [await]: [Date.now()] gives
    [now].  It returns [None] when the function has returned, and the
    pending batch when it waits for [Promise.allSettled].
    [setRefreshing(true)] stands before the [try]: what it throws leaves
    the function.  Nothing throws between [try] and the [await]; on the
    early return with no code the [finally] clause runs here, otherwise it
    runs at the end of [refreshNetValues_settled]. *)
Definition refreshNetValues_call (env : Env) (now : Z) : M (option Pending) :=
  let* a := get_app in
  if isLoading a then ret None
  else
    let summary := Calculator.calculateSummary (holdings a) in
    updateSummaryCard env summary ;;
    if negb (shouldFetch a now) then ret None
    else
      setRefreshing env true ;;
      let codes := map code (holdings a) in
      match codes with
      | [] => setRefreshing env false ;; ret None
      | _ :: _ =>
          dispatch codes ;;
          ret (Some {| p_now := now; p_codes := codes |})
      end.

(** [refreshNetValues], from the [await] on: [results] is the array
    [Promise.allSettled] is fulfilled with. *)
Definition refreshNetValues_settled (env : Env) (p : Pending)
  (results : list (outcome Estimate)) : M unit :=
  try_finally
    (try_catch
       (let* a := get_app in
        let merged := mergeResults results (holdings a) in
        let updated := snd merged in
        set_holdings (fst merged) ;;
        when updated
          (saveHoldings env (fst merged) ;;
           set_lastRefreshTime (p_now p)) ;;
        renderHoldings env ;;
        let* a' := get_app in
        updateSummaryCard env (Calculator.calculateSummary (holdings a')) ;;
        when updated (toast ToastUpdated))
       (toast ToastFailed))
    (setRefreshing env false).

(** A whole run of [refreshNetValues] with nothing in between: [fetch]
    tells how [FundAPI.getFundEstimate(code)] settles for each code. *)
Definition refreshNetValues (env : Env) (fetch : string -> outcome Estimate)
  (now : Z) : M unit :=
  let* pending := refreshNetValues_call env now in
  match pending with
  | None => ret tt
  | Some p => refreshNetValues_settled env p (map fetch (p_codes p))
  end.

(** ** The scheduler as a transition system *)

(** The page and the batches that wait for their results. *)
Record Sched : Type := mkSched {
  world : World;
  inflight : list Pending
}.

(** [Trigger now]: something calls [refreshNetValues] (page load, the
    refresh button, pull-down, the page becoming visible).
    [Settle results]: the oldest waiting batch has settled. *)
Inductive Event : Type :=
| Trigger (now : Z)
| Settle (results : list (outcome Estimate)).

Definition step (env : Env) (s : Sched) (ev : Event) : Sched :=
  match ev with
  | Trigger now =>
      match refreshNetValues_call env now (world s) with
      | (Val (Some p), w) => {| world := w; inflight := inflight s ++ [p] |}
      | (_, w) => {| world := w; inflight := inflight s |}
      end
  | Settle results =>
      match inflight s with
      | [] => s
      | p :: rest =>
          {| world := snd (refreshNetValues_settled env p results (world s));
             inflight := rest |}
      end
  end.

Definition run (env : Env) (evs : list Event) (s : Sched) : Sched :=
  fold_left (step env) evs s.

(* ================================================================== *)
(** * [Storage]: the cache (js/storage.js) *)

Module Storage.

Section Cache.

(** The cached data: anything JSON can carry. *)
Variable D : Type.

Record CacheItem : Type := mkCacheItem {
  data : D;
  updateTime : Z;
  expireTime : Q
}.

(** The item [KEYS.CACHE] of [localStorage]: missing, a string [JSON.parse]
    rejects, or the serialised cache object. *)
Inductive Slot : Type :=
| NoItem
| Unparsable
| Parsed (cache : gmap string CacheItem).

(** [JSON.parse(localStorage.getItem(this.KEYS.CACHE) || '{}')]; [None]
    when it throws. *)
Definition parse (slot : Slot) : option (gmap string CacheItem) :=
  match slot with
  | NoItem => Some ∅
  | Unparsable => None
  | Parsed cache => Some cache
  end.

(** What [getCache] returns: [item.data], [null], or the whole cache. *)
Inductive CacheResult : Type :=
| Data (d : D)
| Null
| Whole (cache : gmap string CacheItem).

(** [getCache].  When the cache has no property [key] of its own,
    [cache[key]] is [undefined] or a member of [Object.prototype]; such a
    member has no [expireTime], so [null] is returned for both. *)
Definition getCache (slot : Slot) (now : Z) (key : string) : CacheResult :=
  match parse slot with
  | Some cache =>
      if negb (String.eqb key "") then
        match cache !! key with
        | Some item =>
            if negb (Qle_bool (expireTime item) (inject_Z now))
            then Data (data item)
            else Null
        | None => Null
        end
      else Whole cache
  | None => Null
  end.

(** [setCache]: the value returned and the item afterwards.
    [expireMinutes] is [None] when the argument is left out;
    [setItem_throws] tells whether [localStorage.setItem] throws. *)
Definition setCache (setItem_throws : bool) (slot : Slot) (now : Z)
  (key : string) (d : D) (expireMinutes : option Q) : bool * Slot :=
  let expireMinutes := default 5 expireMinutes in
  match parse slot with
  | Some cache =>
      let cache' :=
        assign cache key
          {| data := d;
             updateTime := now;
             expireTime := inject_Z now + expireMinutes * 60 * 1000 |} in
      if setItem_throws then (false, slot) else (true, Parsed cache')
  | None => (false, slot)
  end.

(** [clearExpiredCache]. *)
Definition clearExpiredCache (setItem_throws : bool) (slot : Slot) (now : Z)
  : Slot :=
  match parse slot with
  | Some cache =>
      let kept :=
        filter (fun kv => Qle_bool (inject_Z now) (expireTime (snd kv)) = true)
          cache in
      let hasExpired := negb (Nat.eqb (size kept) (size cache)) in
      if hasExpired && negb setItem_throws then Parsed kept else slot
  | None => slot
  end.

End Cache.

Arguments data {D} c.
Arguments updateTime {D} c.
Arguments expireTime {D} c.
Arguments NoItem {D}.
Arguments Unparsable {D}.
Arguments Parsed {D} cache.
Arguments Data {D} d.
Arguments Null {D}.
Arguments Whole {D} cache.
Arguments parse {D} slot.
Arguments getCache {D} slot now key.
Arguments setCache {D} setItem_throws slot now key d expireMinutes.
Arguments clearExpiredCache {D} setItem_throws slot now.

(** ** Holdings, transactions, settings *)

(** An item of [localStorage] that holds JSON: missing, a string
    [JSON.parse] rejects, or the value it parses to. *)
Inductive Item (A : Type) : Type :=
| Missing
| Garbled
| Json (a : A).
Arguments Missing {A}.
Arguments Garbled {A}.
Arguments Json {A} a.

(** [KEYS]. *)
Inductive StorageKey : Type :=
| HOLDINGS
| TRANSACTIONS
| CACHE
| SETTINGS.

(** A holding as the store keeps it: the fields the page reads, and the
    two [addHolding] and [updateHolding] maintain. *)
Record StoredHolding : Type := mkStoredHolding {
  sh_holding : Holding;
  sh_addDate : option string;     (* addDate *)
  sh_lastUpdate : option Z        (* lastUpdate *)
}.

(** A transaction as the store keeps it. *)
Record StoredTransaction : Type := mkStoredTransaction {
  st_transaction : Transaction;
  st_id : option string;          (* id *)
  st_date : option string;        (* date *)
  st_createTime : option Z        (* createTime *)
}.

(** The [data] argument of [updateHolding]: for each field, [None] when
    the object does not have it. *)
Record HoldingPatch : Type := mkHoldingPatch {
  pt_id : option string;
  pt_code : option string;
  pt_name : option string;
  pt_shares : option Q;
  pt_costPrice : option Q;
  pt_lastNav : option (option Q);
  pt_dayChange : option (option Q);
  pt_estimateTime : option jsvalue;
  pt_addDate : option (option string)
}.

(** [getHoldings] and [getTransactions]: the array, or [[]] when the item
    is missing or does not parse. *)
Definition getItems {A : Type} (item : Item (list A)) : list A :=
  match item with
  | Json l => l
  | Missing => []
  | Garbled => []
  end.

Definition getHoldings (item : Item (list StoredHolding)) : list StoredHolding :=
  getItems item.

Definition getTransactions (item : Item (list StoredTransaction))
  : list StoredTransaction :=
  getItems item.

(** [saveHoldings]: the value returned and the item afterwards. *)
Definition saveHoldings (setItem_throws : bool)
  (item : Item (list StoredHolding)) (holdings : list StoredHolding)
  : bool * Item (list StoredHolding) :=
  if setItem_throws then (false, item) else (true, Json holdings).

(** [holding.id = ...]. *)
Definition with_id (newId : string) (h : Holding) : Holding :=
  {| hid := newId; code := code h; name := name h; shares := shares h;
     costPrice := costPrice h; lastNav := lastNav h;
     dayChange := dayChange h; estimateTime := estimateTime h |}.

(** [addHolding]: [newId] is what [generateId()] returns, [today] the date
    part of [new Date().toISOString()], [now] is [Date.now()].  It throws
    when the code is already held; the value [saveHoldings] returns is not
    looked at. *)
Definition addHolding (setItem_throws : bool) (newId today : string) (now : Z)
  (item : Item (list StoredHolding)) (holding : StoredHolding)
  : result StoredHolding * Item (list StoredHolding) :=
  let holdings := getHoldings item in
  match find (fun h => String.eqb (code (sh_holding h))
                                  (code (sh_holding holding))) holdings with
  | Some existing => (Exn, item)
  | None =>
      let holding' :=
        {| sh_holding := with_id newId (sh_holding holding);
           sh_addDate := Some today;
           sh_lastUpdate := Some now |} in
      (Val holding',
       snd (saveHoldings setItem_throws item (holdings ++ [holding'])))
  end.

(** [findIndex]: the index of the first element that passes, [None] for
    [-1]. *)
Fixpoint findIndex {A : Type} (test : A -> bool) (l : list A) : option nat :=
  match l with
  | [] => None
  | x :: rest =>
      if test x then Some O
      else match findIndex test rest with
           | Some i => Some (S i)
           | None => None
           end
  end.

(** [{...holding, ...data, lastUpdate: now}]. *)
Definition patched (old : StoredHolding) (data : HoldingPatch) (now : Z)
  : StoredHolding :=
  {| sh_holding :=
       {| hid := default (hid (sh_holding old)) (pt_id data);
          code := default (code (sh_holding old)) (pt_code data);
          name := default (name (sh_holding old)) (pt_name data);
          shares := default (shares (sh_holding old)) (pt_shares data);
          costPrice := default (costPrice (sh_holding old)) (pt_costPrice data);
          lastNav := default (lastNav (sh_holding old)) (pt_lastNav data);
          dayChange := default (dayChange (sh_holding old)) (pt_dayChange data);
          estimateTime :=
            default (estimateTime (sh_holding old)) (pt_estimateTime data) |};
     sh_addDate := default (sh_addDate old) (pt_addDate data);
     sh_lastUpdate := Some now |}.

(** [updateHolding]: it throws when no holding has the id. *)
Definition updateHolding (setItem_throws : bool) (now : Z)
  (item : Item (list StoredHolding)) (id : string) (data : HoldingPatch)
  : result StoredHolding * Item (list StoredHolding) :=
  let holdings := getHoldings item in
  match findIndex (fun h => String.eqb (hid (sh_holding h)) id) holdings with
  | None => (Exn, item)
  | Some index =>
      match holdings !! index with
      | Some old =>
          let holdings' := <[index := patched old data now]> holdings in
          (Val (patched old data now),
           snd (saveHoldings setItem_throws item holdings'))
      | None => (Exn, item)
      end
  end.

(** [deleteHolding]: the error thrown when nothing was removed is caught
    and turned into [false]. *)
Definition deleteHolding (setItem_throws : bool)
  (item : Item (list StoredHolding)) (id : string)
  : bool * Item (list StoredHolding) :=
  let holdings := getHoldings item in
  let filtered :=
    List.filter (fun h => negb (String.eqb (hid (sh_holding h)) id)) holdings in
  if Nat.eqb (length filtered) (length holdings) then (false, item)
  else (true, snd (saveHoldings setItem_throws item filtered)).

(** [addTransaction]: an exception of [localStorage.setItem] is thrown
    on. *)
Definition addTransaction (setItem_throws : bool) (newId today : string)
  (now : Z) (item : Item (list StoredTransaction))
  (transaction : StoredTransaction)
  : result StoredTransaction * Item (list StoredTransaction) :=
  let transactions := getTransactions item in
  let transaction' :=
    {| st_transaction := st_transaction transaction;
       st_id := Some newId;
       st_date := Some (match st_date transaction with
                        | Some d => if String.eqb d "" then today else d
                        | None => today
                        end);
       st_createTime := Some now |} in
  if setItem_throws then (Exn, item)
  else (Val transaction', Json (transaction' :: transactions)).

(** [deleteTransaction]. *)
Definition deleteTransaction (setItem_throws : bool)
  (item : Item (list StoredTransaction)) (id : string)
  : bool * Item (list StoredTransaction) :=
  let transactions := getTransactions item in
  let filtered :=
    List.filter (fun t => negb (bool_decide (st_id t = Some id))) transactions in
  if Nat.eqb (length filtered) (length transactions) then (false, item)
  else if setItem_throws then (false, item)
  else (true, Json filtered).

Section Settings.

(** The values of the settings. *)
Variable V : Type.

(** What [getSetting] returns: a value of the settings, a member of
    [Object.prototype], [undefined], or the [null] of the catch clause. *)
Inductive SettingResult : Type :=
| SettingValue (v : V)
| SettingInherited
| SettingUndefined
| SettingNull.

(** [JSON.parse(localStorage.getItem(this.KEYS.SETTINGS) || '{}')]; [None]
    when it throws. *)
Definition parseSettings (item : Item (gmap string V)) : option (gmap string V) :=
  match item with
  | Missing => Some ∅
  | Garbled => None
  | Json settings => Some settings
  end.

Definition getSetting (item : Item (gmap string V)) (key : string)
  : SettingResult :=
  match parseSettings item with
  | Some settings =>
      match settings !! key with
      | Some v => SettingValue v
      | None => if inherited key then SettingInherited else SettingUndefined
      end
  | None => SettingNull
  end.

Definition setSetting (setItem_throws : bool) (item : Item (gmap string V))
  (key : string) (value : V) : bool * Item (gmap string V) :=
  match parseSettings item with
  | Some settings =>
      if setItem_throws then (false, item)
      else (true, Json (assign settings key value))
  | None => (false, item)
  end.

(** The three items [exportData] reads and [importData] writes. *)
Record LocalStorage : Type := mkLocalStorage {
  ls_holdings : Item (list StoredHolding);
  ls_transactions : Item (list StoredTransaction);
  ls_settings : Item (gmap string V)
}.

(** The object [exportData] serialises. *)
Record ExportData : Type := mkExportData {
  ex_holdings : list StoredHolding;
  ex_transactions : list StoredTransaction;
  ex_settings : gmap string V;
  ex_exportDate : string;
  ex_version : string
}.

(** [exportData]: [None] is the [null] it returns when the settings do not
    parse; [isoNow] is [new Date().toISOString()]. *)
Definition exportData (isoNow : string) (ls : LocalStorage) : option ExportData :=
  match parseSettings (ls_settings ls) with
  | Some settings =>
      Some {| ex_holdings := getHoldings (ls_holdings ls);
              ex_transactions := getTransactions (ls_transactions ls);
              ex_settings := settings;
              ex_exportDate := isoNow;
              ex_version := "1.0" |}
  | None => None
  end.

(** What [JSON.parse] makes of the argument of [importData], as far as
    [importData] reads it: each field is [None] when it is missing or
    falsy. *)
Record ImportData : Type := mkImportData {
  im_version : option string;
  im_holdings : option (list StoredHolding);
  im_transactions : option (list StoredTransaction);
  im_settings : option (gmap string V)
}.

(** What [JSON.parse] makes of the string [exportData] returned. *)
Definition reparsed (e : ExportData) : ImportData :=
  {| im_version := Some (ex_version e);
     im_holdings := Some (ex_holdings e);
     im_transactions := Some (ex_transactions e);
     im_settings := Some (ex_settings e) |}.

(** [importData]: [parsedJson] is [None] when [JSON.parse] throws or gives
    no object;
    [setItem_throws] tells for which items [localStorage.setItem] throws. *)
Definition importData (setItem_throws : StorageKey -> bool)
  (parsedJson : option ImportData) (ls : LocalStorage) : bool * LocalStorage :=
  match parsedJson with
  | None => (false, ls)
  | Some data =>
      match im_version data with
      | None => (false, ls)
      | Some version =>
          if String.eqb version "" then (false, ls)
          else
            let ls1 :=
              match im_holdings data with
              | Some holdings =>
                  {| ls_holdings :=
                       snd (saveHoldings (setItem_throws HOLDINGS)
                              (ls_holdings ls) holdings);
                     ls_transactions := ls_transactions ls;
                     ls_settings := ls_settings ls |}
              | None => ls
              end in
            match im_transactions data with
            | Some transactions =>
                if setItem_throws TRANSACTIONS then (false, ls1)
                else
                  let ls2 := {| ls_holdings := ls_holdings ls1;
                                ls_transactions := Json transactions;
                                ls_settings := ls_settings ls1 |} in
                  match im_settings data with
                  | Some settings =>
                      if setItem_throws SETTINGS then (false, ls2)
                      else (true, {| ls_holdings := ls_holdings ls2;
                                     ls_transactions := ls_transactions ls2;
                                     ls_settings := Json settings |})
                  | None => (true, ls2)
                  end
            | None =>
                match im_settings data with
                | Some settings =>
                    if setItem_throws SETTINGS then (false, ls1)
                    else (true, {| ls_holdings := ls_holdings ls1;
                                   ls_transactions := ls_transactions ls1;
                                   ls_settings := Json settings |})
                | None => (true, ls1)
                end
            end
      end
  end.

End Settings.

Arguments SettingValue {V} v.
Arguments SettingInherited {V}.
Arguments SettingUndefined {V}.
Arguments SettingNull {V}.
Arguments parseSettings {V} item.
Arguments getSetting {V} item key.
Arguments setSetting {V} setItem_throws item key value.
Arguments ls_holdings {V} l.
Arguments ls_transactions {V} l.
Arguments ls_settings {V} l.
Arguments ex_holdings {V} e.
Arguments ex_transactions {V} e.
Arguments ex_settings {V} e.
Arguments ex_exportDate {V} e.
Arguments ex_version {V} e.
Arguments exportData {V} isoNow ls.
Arguments im_version {V} i.
Arguments im_holdings {V} i.
Arguments im_transactions {V} i.
Arguments im_settings {V} i.
Arguments reparsed {V} e.
Arguments importData {V} setItem_throws parsedJson ls.

End Storage.

(* ================================================================== *)
(** * [Utils] (first part of the main page script) *)

Module Utils.

(** One call, at time [now], of the function [throttle(fn, interval)]
    returns, whose closure holds [last]: whether [fn] runs, and [last]
    afterwards. *)
Definition throttled_call (interval last now : Z) : bool * Z :=
  if (interval <=? now - last)%Z then (true, now) else (false, last).

(** The times at which [fn] runs when the function is called at the times
    [calls], one after the other. *)
Fixpoint throttled_runs (interval last : Z) (calls : list Z) : list Z :=
  match calls with
  | [] => []
  | now :: rest =>
      if fst (throttled_call interval last now)
      then now :: throttled_runs interval
                    (snd (throttled_call interval last now)) rest
      else throttled_runs interval
             (snd (throttled_call interval last now)) rest
  end.

(** [throttle(fn, interval)]: [last] starts at 0. *)
Definition throttle (interval : Z) (calls : list Z) : list Z :=
  throttled_runs interval 0 calls.

(** What [formatRelativeTime] returns: the text for "just now", the number
    it puts before the text for minutes, hours or days, or what
    [formatDate] makes of the date. *)
Inductive RelativeTime : Type :=
| JustNow
| MinutesAgo (minutes : Z)
| HoursAgo (hours : Z)
| DaysAgo (days : Z)
| FormattedDate.

(** [formatRelativeTime]: [date] and [now] are the times, in milliseconds,
    of [new Date(date)] and [new Date()]. *)
Definition formatRelativeTime (date now : Z) : RelativeTime :=
  let diff := (now - date)%Z in
  let seconds := (diff / 1000)%Z in
  let minutes := (seconds / 60)%Z in
  let hours := (minutes / 60)%Z in
  let days := (hours / 24)%Z in
  if (seconds <? 60)%Z then JustNow
  else if (minutes <? 60)%Z then MinutesAgo minutes
  else if (hours <? 24)%Z then HoursAgo hours
  else if (days <? 7)%Z then DaysAgo days
  else FormattedDate.

End Utils.

(* ================================================================== *)
(** * The data of the specification's examples *)

(** A holding with the given numbers and no valuation yet. *)
Definition holding_of (c : string) (sh cp : Q) : Holding :=
  {| hid := ("id_" ++ c)%string; code := c; name := c;
     shares := sh; costPrice := cp;
     lastNav := None; dayChange := None; estimateTime := JUndefined |}.

(** The holding [{shares: 100, costPrice: 10.00}]. *)
Definition holding_100_at_10 : Holding := holding_of "000001" 100 10.

(** The buy [{shares: 50, amount: 600.00}]. *)
Definition buy_50_for_600 : Transaction :=
  {| tx_type := "buy"; tx_shares := 50; tx_amount := 600 |}.

(** [x] has at most [d] decimals. *)
Definition has_decimals (d : Z) (x : Q) : Prop :=
  exists n : Z, x == inject_Z n / Qpower 10 d.

(** The payload of the estimate script for instrument 000001. *)
Definition gz_000001 : GzData :=
  {| fundcode := Some "000001"%string; gz_name := JString "Fund A";
     gsz := Num 1.2345; gszzl := Num 0.52; dwjz := Num 1.2281;
     gztime := JString "2024-01-05 15:00" |}.

(** A provider that answers the estimate script of 000001 after 120 ms,
    answers the detail script of 000003 after 800 ms with one settled value
    and no growth figure, and never answers anything else. *)
Definition net_A_ok_B_timeout : Network :=
  {| estimateScript := fun c =>
       if String.eqb c "000001" then Arrives 120 (Some gz_000001) else Silent;
     detailScript := fun c =>
       if String.eqb c "000003"
       then Arrives 800 {| Data_netWorthTrend :=
                             Some [ {| y := Num 2.5; equityReturn := NaN |} ];
                           fS_name := JString "Fund C" |}
       else Silent |}.

(** A payload of the estimate script with no field that can be used, and
    a provider that answers the estimate script with it after 100 ms,
    whatever the code, while its detail script would answer after 800 ms
    with a settled value of 2.5. *)
Definition gz_malformed : GzData :=
  {| fundcode := None; gz_name := JUndefined;
     gsz := NaN; gszzl := NaN; dwjz := NaN; gztime := JUndefined |}.

Definition net_malformed_live : Network :=
  {| estimateScript := fun _ => Arrives 100 (Some gz_malformed);
     detailScript := fun _ =>
       Arrives 800 {| Data_netWorthTrend :=
                        Some [ {| y := Num 2.5; equityReturn := Num 0.4 |} ];
                      fS_name := JString "Fund D" |} |}.

(** What [getFundEstimate] makes of [gz_000001]. *)
Definition est_000001 : Estimate :=
  {| est_code := "000001"; est_name := JString "Fund A";
     estimateNetWorth := Num 1.2345; dayGrowth := Num 0.52;
     netWorth := Num 1.2281; time := JString "2024-01-05 15:00" |}.

(** The words of the properties. *)

(** The estimates of the codes whose fetch is fulfilled, in the order of
    the codes. *)
Fixpoint successes (fetch : string -> outcome Estimate) (codes : list string)
  : list Estimate :=
  match codes with
  | [] => []
  | c :: rest =>
      match fetch c with
      | Fulfilled e => e :: successes fetch rest
      | Rejected _ => successes fetch rest
      end
  end.

(** The live-estimate path yields no data: the script is silent or answers
    after the timer, it fails, or it loads without defining the data. *)
Inductive NoLiveData : ScriptEvent (option GzData) -> Prop :=
| no_live_silent : NoLiveData Silent
| no_live_late (t : Z) (d : option GzData) :
    (FundAPI.realtime_timeout <= t)%Z -> NoLiveData (Arrives t d)
| no_live_error (t : Z) : NoLiveData (Fails t)
| no_live_absent (t : Z) : NoLiveData (Arrives t None).

(** The script does not answer before a timer of [timeout] ms fires. *)
Inductive TimesOut {D : Type} (timeout : Z) : ScriptEvent D -> Prop :=
| times_out_silent : TimesOut timeout Silent
| times_out_late (t : Z) (d : D) : (timeout <= t)%Z -> TimesOut timeout (Arrives t d)
| times_out_late_error (t : Z) : (timeout <= t)%Z -> TimesOut timeout (Fails t).

(** The detail script loads in time and leaves no net-value series. *)
Inductive NoSettledData (timeout : Z) : ScriptEvent DetailGlobals -> Prop :=
| no_settled_data (t : Z) (g : DetailGlobals) :
    (t < timeout)%Z ->
    Data_netWorthTrend g = None \/ Data_netWorthTrend g = Some [] ->
    NoSettledData timeout (Arrives t g).

(** What a refresh makes of a holding: the three assignments when the
    fetch of its code succeeded, nothing when it failed. *)
Definition refreshed (fetch : string -> outcome Estimate) (h : Holding) : Holding :=
  match fetch (code h) with
  | Fulfilled e => applyEstimate h e
  | Rejected _ => h
  end.

(** A refresh left the holding [h] as it was, or refreshed it. *)
Definition touched (fetch : string -> outcome Estimate) (h h' : Holding) : Prop :=
  h' = h \/ h' = refreshed fetch h.

(** The fetch of the holding's code succeeded. *)
Definition succeeded (fetch : string -> outcome Estimate) (h : Holding) : bool :=
  is_fulfilled (fetch (code h)).

(** [c] is one of [cs]. *)
Definition mem (c : string) (cs : list string) : bool :=
  existsb (String.eqb c) cs.

(** The scheduler is idle: the flag is down and no batch waits. *)
Definition Idle (s : Sched) : Prop :=
  isLoading (app (world s)) = false /\ inflight s = [].

(** The scheduler is refreshing: the flag is up and one batch waits. *)
Definition Refreshing (s : Sched) : Prop :=
  isLoading (app (world s)) = true /\ exists p, inflight s = [p].


(** Two holdings, of instruments 000001 and 000002, never refreshed. *)
Definition holdings_A_B : list Holding :=
  [holding_of "000001" 100 10; holding_of "000002" 200 1.5].

(** One holding of instrument 000003, never refreshed. *)
Definition holdings_C : list Holding := [holding_of "000003" 40 2].

(** A freshly loaded page with the given holdings. *)
Definition page_with (hs : list Holding) : World :=
  {| app := {| holdings := hs; isLoading := false;
               lastRefreshTime := 0; refreshInterval := 300000 |};
     stored := Some hs; card := None; rotating := false;
     toasts := []; requested := [] |}.

(** The same page while a refresh is in flight. *)
Definition page_loading (hs : list Holding) : World :=
  {| app := {| holdings := hs; isLoading := true;
               lastRefreshTime := 0; refreshInterval := 300000 |};
     stored := Some hs; card := None; rotating := true;
     toasts := []; requested := map code hs |}.

(** A page on which nothing throws, and one on which rendering the list
    always throws. *)
Definition env_quiet : Env :=
  {| renderHoldings_throws := fun _ => false;
     updateSummaryCard_throws := fun _ => false;
     setItem_throws := fun _ => false;
     setRefreshing_throws := fun _ => false |}.


(** A page without the element [refreshBtn]; nothing else throws. *)
Definition env_no_button : Env :=
  {| renderHoldings_throws := fun _ => false;
     updateSummaryCard_throws := fun _ => false;
     setItem_throws := fun _ => false;
     setRefreshing_throws := fun _ => true |}.


(** The day change of no holding is known. *)
Definition no_day_change (hs : list Holding) : Prop :=
  forall h, In h hs -> dayChange h = None.

(** The settled-net-value request fails with the error [err]: no answer
    before the timer, a failed script, or no net-value series. *)
Inductive SettledFails : Error -> ScriptEvent DetailGlobals -> Prop :=
| settled_times_out (ev : ScriptEvent DetailGlobals) :
    TimesOut FundAPI.config_timeout ev -> SettledFails ErrTimeout ev
| settled_script_fails (t : Z) :
    (t < FundAPI.config_timeout)%Z -> SettledFails ErrRequest (Fails t)
| settled_no_data (ev : ScriptEvent DetailGlobals) :
    NoSettledData FundAPI.config_timeout ev -> SettledFails ErrNoData ev.

(** Every number of the valuation is a number, not [NaN]; its name is
    not [undefined]; its time is a value [|| ''] lets through: the empty
    string, or a truthy value. *)
Definition WellFormedEstimate (e : Estimate) : Prop :=
  (exists q, estimateNetWorth e = Num q) /\
  (exists q, dayGrowth e = Num q) /\
  (exists q, netWorth e = Num q) /\
  est_name e <> JUndefined /\
  (time e = JString "" \/ is_truthy (time e) = true).

(** A cache operation: a [setCache] or a [clearExpiredCache], with the
    time it runs at and whether [localStorage.setItem] throws in it. *)
Inductive CacheOp (D : Type) : Type :=
| OpSet (setItem_throws : bool) (now : Z) (key : string) (d : D)
        (expireMinutes : option Q)
| OpSweep (setItem_throws : bool) (now : Z).
Arguments OpSet {D} setItem_throws now key d expireMinutes.
Arguments OpSweep {D} setItem_throws now.

Definition runCacheOp {D : Type} (slot : Storage.Slot D) (op : CacheOp D)
  : Storage.Slot D :=
  match op with
  | OpSet throws now key d m => snd (Storage.setCache throws slot now key d m)
  | OpSweep throws now => Storage.clearExpiredCache throws slot now
  end.

(** The codes of the stored holdings. *)
Definition storedCodes (l : list Storage.StoredHolding) : list string :=
  map (fun h => code (Storage.sh_holding h)) l.

(** The fields of a holding a refresh does not assign. *)
Definition kept_fields (h : Holding) : string * string * string * Q * Q :=
  (hid h, code h, name h, shares h, costPrice h).

(** The summary [renderHoldings] shows when there is no holding. *)
Definition emptySummary : Summary :=
  {| totalCost := 0; totalCurrent := 0; totalProfit := 0;
     totalProfitRate := 0; totalDayProfit := 0; dayProfitRate := 0;
     hasDayProfit := false |}.

(** Something throws in the completion handler once the holdings [hs] are
    merged: [renderHoldings], or the [updateSummaryCard] after it. *)
Definition display_throws (env : Env) (hs : list Holding) : bool :=
  renderHoldings_throws env hs
  || match hs with
     | [] => updateSummaryCard_throws env emptySummary
     | _ :: _ => false
     end
  || updateSummaryCard_throws env (Calculator.calculateSummary hs).

(** The words of the statements on binary64. *)
Section Words64.

Import Floats.
Local Open Scope float_scope.

(** A number as the specification of binary64 has it is not [NaN] and has
    the sign [negative]. *)
Definition sf_sign (negative : bool) (f : spec_float) : Prop :=
  match f with
  | S754_zero s | S754_infinity s | S754_finite s _ _ => s = negative
  | S754_nan => False
  end.

(** The number is not [NaN] and has the sign [negative]; [0] and [-0]
    have different signs. *)
Definition has_sign (negative : bool) (x : float) : Prop :=
  sf_sign negative (Prim2SF x).

(** [isFinite(x)]. *)
Definition isFinite (x : float) : bool :=
  match Prim2SF x with
  | S754_zero _ | S754_finite _ _ _ => true
  | S754_infinity _ | S754_nan => false
  end.

(** [x] is a number of [d] decimals: [round(x, d)] returns it. *)
Definition is_rounded (d : nat) (x : float) : Prop :=
  Calculator64.round x d = x.

(** The holding [{shares: 100, costPrice: 10.00}] and the buy
    [{shares: 50, amount: 600.00}], in binary64. *)
Definition holding64_100_at_10 : Calculator64.Holding :=
  {| Calculator64.shares := 100; Calculator64.costPrice := 10 |}.

Definition buy64_50_for_600 : Calculator64.Transaction :=
  {| Calculator64.tx_type := "buy"; Calculator64.tx_shares := 50;
     Calculator64.tx_amount := 600 |}.

End Words64.

(** Proof steps for the statements of the page script. *)

(** Unfold the statements of [refreshNetValues] down to the world they
    produce. *)
Ltac run_statements :=
  cbv beta iota zeta delta
    [refreshNetValues refreshNetValues_call refreshNetValues_settled
     try_finally try_catch bind when set_holdings set_lastRefreshTime
     saveHoldings renderHoldings updateSummaryCard toast setRefreshing
     dispatch get_app set_app ret throw].

(** Follow every path the page allows: each call that may throw does or
    does not. *)
Ltac every_path :=
  repeat (cbn [fst snd app stored card rotating toasts requested
               holdings isLoading lastRefreshTime refreshInterval
               andb negb];
          match goal with
          | |- context [renderHoldings_throws ?e ?x] =>
              destruct (renderHoldings_throws e x)
          | |- context [updateSummaryCard_throws ?e ?x] =>
              destruct (updateSummaryCard_throws e x)
          | |- context [setItem_throws ?e ?x] =>
              destruct (setItem_throws e x)
          | |- context [setRefreshing_throws ?e ?x] =>
              destruct (setRefreshing_throws e x)
          end);
  cbn [fst snd app stored card rotating toasts requested
       holdings isLoading lastRefreshTime refreshInterval andb negb].

(** The same, taking the calls in the order in which they run. *)
Ltac every_path_in_order :=
  repeat (cbn [fst snd app stored card rotating toasts requested
               holdings isLoading lastRefreshTime refreshInterval
               andb negb orb];
          match goal with
          | |- context [setItem_throws ?e ?x] =>
              destruct (setItem_throws e x)
          | |- context [renderHoldings_throws ?e ?x] =>
              destruct (renderHoldings_throws e x)
          | |- context [updateSummaryCard_throws ?e ?x] =>
              destruct (updateSummaryCard_throws e x)
          | |- context [setRefreshing_throws ?e ?x] =>
              destruct (setRefreshing_throws e x)
          end);
  cbn [fst snd app stored card rotating toasts requested
       holdings isLoading lastRefreshTime refreshInterval andb negb orb].

(* ================================================================== *)
(** * Properties of [Calculator] in exact arithmetic *)

Section CalculatorFacts.

Import Calculator.

Lemma round_comp (x x' : Q) (d : Z) : x == x' -> round x d == round x' d.
Proof.
  intros E. unfold round, Math_round. cbv zeta.
  assert (F : Qfloor (x * 10 ^ d + (1 # 2)) = Qfloor (x' * 10 ^ d + (1 # 2))).
  { apply Qfloor_comp. rewrite E. reflexivity. }
  rewrite F. reflexivity.
Qed.

Lemma factor_pos (d : Z) : 0 < 10 ^ d.
Proof. apply Qpower_0_lt. reflexivity. Qed.

Lemma Math_round_Z (n : Z) : Math_round (inject_Z n) = n.
Proof.
  unfold Math_round.
  assert (L : (n <= Qfloor (inject_Z n + (1 # 2)))%Z).
  { rewrite <- (Qfloor_Z n) at 1. apply Qfloor_resp_le.
    rewrite <- (Qplus_0_r (inject_Z n)) at 1. apply Qplus_le_r. discriminate. }
  assert (U : (Qfloor (inject_Z n + (1 # 2)) < n + 1)%Z).
  { rewrite Zlt_Qlt.
    apply Qle_lt_trans with (inject_Z n + (1 # 2)); [apply Qfloor_le|].
    rewrite inject_Z_plus. apply Qplus_lt_r. reflexivity. }
  lia.
Qed.

Lemma round_fixes_decimals (x : Q) (d : Z) : has_decimals d x -> round x d == x.
Proof.
  intros [n Hn]. rewrite (round_comp _ _ d Hn), Hn.
  unfold round. cbv zeta.
  pose proof (factor_pos d) as Hf.
  assert (E : inject_Z n / 10 ^ d * 10 ^ d == inject_Z n).
  { field. intros Z0. rewrite Z0 in Hf. discriminate. }
  unfold Math_round. rewrite (Qfloor_comp _ _ (Qplus_comp _ _ E _ _ (Qeq_refl _))).
  fold (Math_round (inject_Z n)). rewrite Math_round_Z. reflexivity.
Qed.

Lemma gt0_true (x : Q) : 0 < x -> gt0 x = true.
Proof.
  intros H. unfold gt0. destruct (Qle_bool x 0) eqn:E; [|reflexivity].
  apply Qle_bool_iff in E. exfalso. exact (Qlt_not_le _ _ H E).
Qed.

Lemma gt0_false (x : Q) : x <= 0 -> gt0 x = false.
Proof.
  intros H. unfold gt0. apply Qle_bool_iff in H. rewrite H. reflexivity.
Qed.

End CalculatorFacts.

(* ================================================================== *)
(** * Properties of [Calculator64] *)

Section Calculator64Facts.

Import Floats.
Import Calculator64.
Local Open Scope float_scope.

(** ** [Math.round] and [round] on the edges *)

(** Ties go towards [+Infinity], also below zero; the largest double below
    one half rounds to 0; what rounds to zero from below is [-0]; doubles
    from [2^52] on are integers already; [NaN] and [Infinity] come back. *)
Lemma Math_round_edges :
  Math_round 2.5 = 3 /\ Math_round (-2.5) = -2 /\
  Math_round 0.5 = 1 /\ Math_round (-0.5) = -0 /\
  Math_round 0.49999999999999994 = 0 /\
  Math_round (-0.2) = -0 /\
  Math_round 4503599627370497 = 4503599627370497 /\
  Math_round nan = nan /\ Math_round infinity = infinity.
Proof. repeat split; vm_compute; reflexivity. Qed.

(** The double nearest to 1.005 lies below it and rounds to 1; the double
    nearest to 2.675 lies below it too, yet its product with 100 is the
    double 267.5, and it rounds to 2.68. *)
Lemma round_near_ties :
  round 1.005 2 = 1 /\ round 2.675 2 = 2.68 /\ 2.675 * 100 = 267.5 /\
  round 1.00005 4 = 1.0001 /\ round 10.666666666666666 4 = 10.6667.
Proof. repeat split; vm_compute; reflexivity. Qed.

(** ** Signs through the operations of binary64 *)

Lemma iter_shr_1_nonneg (p : positive) (mrs : shr_record) :
  (0 <= shr_m mrs)%Z -> (0 <= shr_m (iter_pos shr_1 p mrs))%Z.
Proof.
  revert mrs. induction p as [p IH | p IH |]; intros mrs H; simpl.
  - apply IH, IH. destruct mrs as [[|[q|q|]|q] r s]; simpl in *; lia.
  - apply IH, IH, H.
  - destruct mrs as [[|[q|q|]|q] r s]; simpl in *; lia.
Qed.

Lemma shr_fexp_nonneg (m e : Z) (l : location) :
  (0 <= m)%Z -> (0 <= shr_m (fst (shr_fexp prec emax m e l)))%Z.
Proof.
  intros H. unfold shr_fexp, shr.
  assert (Hm : shr_m (shr_record_of_loc m l) = m) by (destruct l as [|[]]; reflexivity).
  destruct (fexp prec emax (Zdigits2 m + e) - e)%Z; simpl; try (rewrite Hm; exact H).
  apply iter_shr_1_nonneg. rewrite Hm. exact H.
Qed.

Lemma round_nearest_even_nonneg (m : Z) (l : location) :
  (0 <= m)%Z -> (0 <= round_nearest_even m l)%Z.
Proof.
  intros H. destruct l as [|[]]; simpl; try lia.
  destruct (Z.even m); lia.
Qed.

(** Rounding a mantissa to the format keeps the sign and gives no [NaN]. *)
Lemma binary_round_aux_sign (sx : bool) (mx ex : Z) (lx : location) :
  (0 <= mx)%Z -> sf_sign sx (binary_round_aux prec emax sx mx ex lx).
Proof.
  intros H. unfold binary_round_aux.
  pose proof (shr_fexp_nonneg mx ex lx H) as H1.
  destruct (shr_fexp prec emax mx ex lx) as [mrs' e'] eqn:E1. simpl in H1.
  pose proof (shr_fexp_nonneg _ e' loc_Exact
                (round_nearest_even_nonneg _ (loc_of_shr_record mrs') H1)) as H2.
  destruct (shr_fexp prec emax _ e' loc_Exact) as [mrs'' e''] eqn:E2. simpl in H2.
  destruct (shr_m mrs'') as [|m|m]; [exact eq_refl | | lia].
  destruct (e'' <=? emax - prec)%Z; exact eq_refl.
Qed.

Lemma binary_round_sign (sx : bool) (mx : positive) (ex : Z) :
  sf_sign sx (binary_round prec emax sx mx ex).
Proof.
  unfold binary_round.
  destruct (shl_align mx ex _) as [mz ez].
  apply binary_round_aux_sign. lia.
Qed.

Lemma of_uint63_sign (n : Uint63.int) : has_sign false (of_uint63 n).
Proof.
  unfold has_sign. rewrite of_uint63_spec. unfold binary_normalize.
  pose proof (Uint63.to_Z_bounded n) as B.
  destruct (Uint63.to_Z n) as [|m|m]; [exact eq_refl | | lia].
  apply binary_round_sign.
Qed.

Lemma opp_sign (s : bool) (x : float) : has_sign s x -> has_sign (negb s) (- x).
Proof.
  unfold has_sign. rewrite opp_spec.
  destruct (Prim2SF x) as [sx|sx| |sx m e]; simpl; try (intros <-; reflexivity).
  intros [].
Qed.

(** [Math.round] keeps the sign of a number, and gives [NaN] for [NaN]
    only. *)
Lemma Math_round_sign (s : bool) (x : float) :
  has_sign s x -> has_sign s (Math_round x).
Proof.
  unfold has_sign at 1. intros H. unfold Math_round.
  destruct (Prim2SF x) as [sx|sx| |sx m e] eqn:E;
    try (unfold has_sign; rewrite E; exact H).
  simpl in H. subst sx.
  destruct (0 <=? e)%Z eqn:He; [unfold has_sign; rewrite E; exact eq_refl|].
  apply Z.leb_gt in He. cbv zeta.
  assert (P : (0 < 2 ^ (- e + 1))%Z) by (apply Z.pow_pos_nonneg; lia).
  assert (Q : (2 ^ (- e + 1) = 2 * 2 ^ (- e))%Z).
  { rewrite Z.pow_add_r by lia. lia. }
  destruct (_ =? 0)%Z eqn:Hz; [destruct s; exact eq_refl|].
  apply Z.eqb_neq in Hz.
  destruct (_ <? 0)%Z eqn:Hn.
  - apply Z.ltb_lt in Hn. destruct s.
    + apply (opp_sign false). apply of_uint63_sign.
    + exfalso.
      assert (0 <= (2 * Z.pos m + 2 ^ (- e)) / 2 ^ (- e + 1))%Z; [|lia].
      apply Z.div_pos; lia.
  - apply Z.ltb_ge in Hn. destruct s.
    + exfalso.
      assert ((2 * Z.neg m + 2 ^ (- e)) / 2 ^ (- e + 1) < 1)%Z; [|lia].
      apply Z.div_lt_upper_bound; lia.
    + apply of_uint63_sign.
Qed.

Lemma SFmul_finite_sign (s : bool) (X : spec_float) (m : positive) (e : Z) :
  sf_sign s X -> sf_sign s (SFmul prec emax X (S754_finite false m e)).
Proof.
  destruct X as [sx|sx| |sx mx ex]; simpl; intros H; try contradiction;
    subst s; try (destruct sx; exact eq_refl).
  rewrite xorb_false_r.
  apply binary_round_aux_sign. lia.
Qed.

Lemma SFdiv_finite_sign (s : bool) (X : spec_float) (m : positive) (e : Z) :
  sf_sign s X -> sf_sign s (SFdiv prec emax X (S754_finite false m e)).
Proof.
  destruct X as [sx|sx| |sx mx ex]; simpl; intros H; try contradiction;
    subst s; try (destruct sx; exact eq_refl).
  unfold SFdiv_core_binary.
  set (m' := match _ with Z.pos _ => _ | Z0 => Z.pos mx | Z.neg _ => 0%Z end).
  assert (Hm' : (0 <= m')%Z).
  { subst m'. destruct (_ - _ - _)%Z; try lia.
    apply Z.shiftl_nonneg. lia. }
  pose proof (Z_div_mod m' (Z.pos m) ltac:(lia)) as Hd.
  destruct (Z.div_eucl m' (Z.pos m)) as [q r].
  rewrite xorb_false_r.
  apply binary_round_aux_sign. nia.
Qed.

(** The factors [round] is called with are finite and positive. *)
Lemma factor_finite (d : nat) :
  d = 2%nat \/ d = 4%nat ->
  exists m e, Prim2SF (Math_pow 10 d) = S754_finite false m e.
Proof. intros [-> | ->]; vm_compute; eauto. Qed.

(** [round], to 2 or to 4 decimals, keeps the sign of a number and gives
    [NaN] for [NaN] only. *)
Lemma round_sign (s : bool) (x : float) (d : nat) :
  d = 2%nat \/ d = 4%nat -> has_sign s x -> has_sign s (round x d).
Proof.
  intros Hd H. unfold round. cbv zeta.
  destruct (factor_finite d Hd) as (m & e & Hf).
  unfold has_sign. rewrite div_spec, Hf. apply SFdiv_finite_sign.
  apply Math_round_sign.
  unfold has_sign. rewrite mul_spec, Hf. apply SFmul_finite_sign. exact H.
Qed.

Lemma is_nan_false (x : float) : Prim2SF x <> S754_nan -> is_nan x = false.
Proof.
  intros H. destruct (is_nan x) eqn:E; [|reflexivity].
  exfalso. apply H. unfold Prim2SF. rewrite E. reflexivity.
Qed.

Lemma Prim2SF_0 : Prim2SF 0 = S754_zero false.
Proof. reflexivity. Qed.

(** [Math.max(0, r)] is [r] for every [r] that is not negative. *)
Lemma Math_max_0_nonneg (r : float) : has_sign false r -> Math_max 0 r = r.
Proof.
  unfold has_sign. intros H. unfold Math_max.
  rewrite (is_nan_false r) by (intros E; rewrite E in H; exact H).
  change (is_nan 0) with false. cbn [orb].
  rewrite !ltb_spec, Prim2SF_0.
  destruct (Prim2SF r) as [s|s| |s m e] eqn:E; simpl in H; try contradiction; subst s;
    try reflexivity.
  cbn. apply Prim2SF_inj. rewrite E. reflexivity.
Qed.

(** [Math.max(0, y)] is below 0 for no [y], [NaN] and the infinities
    included. *)
Lemma Math_max_0_not_below (y : float) : (Math_max 0 y <? 0) = false.
Proof.
  unfold Math_max. change (is_nan 0) with false. cbn [orb].
  destruct (is_nan y); [reflexivity|].
  destruct (0 <? y) eqn:E1.
  - rewrite ltb_spec in *. rewrite Prim2SF_0 in *.
    destruct (Prim2SF y) as [s|[]| |[] m e]; try discriminate; reflexivity.
  - destruct (y <? 0); reflexivity.
Qed.

Lemma SFadd_nonneg_pos (X Y : spec_float) :
  SFleb (S754_zero false) X = true -> SFltb (S754_zero false) Y = true ->
  sf_sign false (SFadd prec emax X Y).
Proof.
  destruct X as [sx|[]| |[] mx ex]; try discriminate;
    destruct Y as [sy|[]| |[] my ey]; try discriminate; intros _ _;
    try exact eq_refl.
  unfold SFadd, cond_Zopp.
  destruct (shl_align mx ex _) as [a ?], (shl_align my ey _) as [b ?]; simpl.
  apply binary_round_sign.
Qed.

(** A number that equals 0 is not above 0. *)
Lemma eqb_0_not_above (x : float) : (x =? 0) = true -> (0 <? x) = false.
Proof.
  rewrite eqb_spec, ltb_spec, Prim2SF_0.
  destruct (Prim2SF x) as [s|[]| |[] m e]; try discriminate; reflexivity.
Qed.

(** Dividing by zero gives no finite number. *)
Lemma div_by_zero_not_finite (t z : float) :
  (z =? 0) = true -> isFinite (t / z) = false.
Proof.
  rewrite eqb_spec, Prim2SF_0. unfold isFinite. rewrite div_spec.
  destruct (Prim2SF z) as [s|[]| |[] m e]; try discriminate. intros _.
  destruct (Prim2SF t) as [st|st| |st mt et]; reflexivity.
Qed.

Lemma Math_round_not_finite (x : float) :
  isFinite x = false -> isFinite (Math_round x) = false.
Proof.
  unfold isFinite, Math_round.
  destruct (Prim2SF x) as [s|s| |s m e] eqn:E; try discriminate; rewrite E;
    intros _; reflexivity.
Qed.

(** [round], to 2 or to 4 decimals, of [NaN] or of an infinity is not a
    finite number. *)
Lemma round_not_finite (x : float) (d : nat) :
  d = 2%nat \/ d = 4%nat -> isFinite x = false -> isFinite (round x d) = false.
Proof.
  intros Hd H. unfold round. cbv zeta.
  destruct (factor_finite d Hd) as (m & e & Hf).
  assert (H1 : isFinite (x * Math_pow 10 d) = false).
  { revert H. unfold isFinite. rewrite mul_spec, Hf.
    destruct (Prim2SF x) as [s|s| |s mx ex]; try discriminate; reflexivity. }
  apply Math_round_not_finite in H1.
  revert H1. unfold isFinite. rewrite div_spec, Hf.
  destruct (Prim2SF (Math_round _)) as [s|s| |s mx ex]; try discriminate;
    reflexivity.
Qed.


Lemma not_nan_has_sign (x : float) :
  is_nan x = false -> exists s, has_sign s x.
Proof.
  intros H. unfold has_sign, Prim2SF. rewrite H.
  destruct (is_zero x); [eexists; reflexivity|].
  destruct (is_infinity x); [eexists; reflexivity|].
  destruct (Z.frexp x) as [r e].
  destruct (shr_fexp _ _ _ _ _) as [mrs e'].
  destruct (shr_m mrs); eexists; reflexivity.
Qed.

Lemma has_sign_not_nan (s : bool) (x : float) : has_sign s x -> is_nan x = false.
Proof.
  unfold has_sign. intros H. apply is_nan_false. intros E. rewrite E in H. exact H.
Qed.

Lemma digits2_pos_bounds (m : positive) :
  (2 ^ (Z.pos (digits2_pos m) - 1) <= Z.pos m < 2 ^ Z.pos (digits2_pos m))%Z.
Proof.
  induction m as [p IH | p IH |]; cbn [digits2_pos].
  - rewrite Pos2Z.inj_succ.
    replace (Z.succ (Z.pos (digits2_pos p)) - 1)%Z
      with (Z.succ (Z.pos (digits2_pos p) - 1))%Z by lia.
    rewrite !Z.pow_succ_r by lia. lia.
  - rewrite Pos2Z.inj_succ.
    replace (Z.succ (Z.pos (digits2_pos p)) - 1)%Z
      with (Z.succ (Z.pos (digits2_pos p) - 1))%Z by lia.
    rewrite !Z.pow_succ_r by lia. lia.
  - cbn. lia.
Qed.

Lemma iter_xO_value (m d : positive) :
  Z.pos (Pos.iter xO m d) = (Z.pos m * 2 ^ Z.pos d)%Z.
Proof.
  induction d as [|d IH] using Pos.peano_ind.
  - cbn. lia.
  - rewrite Pos.iter_succ, Pos2Z.inj_succ, Z.pow_succ_r by lia.
    rewrite Pos2Z.inj_xO, IH. lia.
Qed.

(** The mantissa of a number, scaled to the smaller of two exponents. *)
Lemma shl_align_value (m : positive) (e e' : Z) :
  (e' <= e)%Z ->
  Z.pos (fst (shl_align m e e')) = (Z.pos m * 2 ^ (e - e'))%Z.
Proof.
  intros H. unfold shl_align.
  destruct (e' - e)%Z as [|d|d] eqn:E; cbn [fst]; try lia.
  - replace (e - e')%Z with 0%Z by lia. lia.
  - rewrite iter_xO_value. replace (e - e')%Z with (Z.pos d) by lia. reflexivity.
Qed.

(** Of two positive numbers in canonical form, the one with the smaller
    exponent, or with the same exponent and the smaller mantissa, has the
    smaller mantissa once both are scaled to the same exponent. *)
Lemma canonical_lt (m1 m2 : positive) (e1 e2 : Z) :
  bounded prec emax m1 e1 = true -> bounded prec emax m2 e2 = true ->
  match (e1 ?= e2)%Z with
  | Eq => Pos.compare_cont Eq m1 m2
  | Lt => Lt
  | Gt => Gt
  end = Lt ->
  (Z.pos (fst (shl_align m1 e1 (Z.min e1 e2)))
   < Z.pos (fst (shl_align m2 e2 (Z.min e1 e2))))%Z.
Proof.
  intros B1 B2 H.
  rewrite !shl_align_value by lia.
  apply andb_true_iff in B1 as [C1 _]. apply andb_true_iff in B2 as [C2 _].
  unfold canonical_mantissa, fexp, SpecFloat.emin in C1, C2.
  apply Z.eqb_eq in C1, C2.
  pose proof (digits2_pos_bounds m1) as D1.
  pose proof (digits2_pos_bounds m2) as D2.
  destruct (e1 ?= e2)%Z eqn:E; try discriminate.
  - apply Z.compare_eq in E. subst e2.
    rewrite Z.min_id, Z.sub_diag, Z.pow_0_r, !Z.mul_1_r.
    change (Pos.compare_cont Eq m1 m2) with (m1 ?= m2)%positive in H.
    apply Pos.compare_lt_iff in H. exact H.
  - change (e1 < e2)%Z in E.
    rewrite Z.min_l by lia. rewrite Z.sub_diag, Z.pow_0_r, Z.mul_1_r.
    assert (Hd1 : (Z.pos (digits2_pos m1) <= prec)%Z) by lia.
    assert (Hd2 : Z.pos (digits2_pos m2) = prec) by lia.
    rewrite Hd2 in D2.
    assert (Z.pos m1 < 2 ^ prec)%Z.
    { apply Z.lt_le_trans with (2 ^ Z.pos (digits2_pos m1))%Z; [lia|].
      apply Z.pow_le_mono_r; lia. }
    assert (2 ^ prec = 2 * 2 ^ (prec - 1))%Z by reflexivity.
    assert (2 * 1 <= 2 ^ (e2 - e1))%Z.
    { change (2 * 1)%Z with (2 ^ 1)%Z. apply Z.pow_le_mono_r; lia. }
    nia.
Qed.

(** [a - b] is negative when [a < b]. *)
Lemma sub_negative (a b : float) : (a <? b) = true -> has_sign true (a - b).
Proof.
  rewrite ltb_spec. unfold has_sign. rewrite sub_spec.
  pose proof (Prim2SF_valid a) as Va. pose proof (Prim2SF_valid b) as Vb.
  destruct (Prim2SF a) as [sa|sa| |sa ma ea], (Prim2SF b) as [sb|sb| |sb mb eb];
    try discriminate; unfold SFltb, SFcompare;
    try (destruct sa; try discriminate; try destruct sb; try discriminate;
         intros _; exact eq_refl).
  cbn [valid_binary] in Va, Vb.
  unfold SF64sub, SFsub.
  assert (is_Lt : forall c : comparison,
            match c with Lt => true | _ => false end = true -> c = Lt).
  { intros []; intros E; try discriminate E; reflexivity. }
  destruct sa, sb; try discriminate; cbn [cond_Zopp].
  - (* both negative *)
    intros H. apply is_Lt in H.
    assert (L : match (eb ?= ea)%Z with
                | Eq => Pos.compare_cont Eq mb ma
                | Lt => Lt
                | Gt => Gt
                end = Lt).
    { rewrite Z.compare_antisym.
      destruct (ea ?= eb)%Z eqn:E; cbn [CompOpp]; try discriminate; try reflexivity.
      change (PosDef.Pos.compare_cont Eq ma mb) with (ma ?= mb)%positive in H.
      change (Pos.compare_cont Eq mb ma) with (mb ?= ma)%positive.
      rewrite Pos.compare_antisym. exact H. }
    pose proof (canonical_lt mb ma eb ea Vb Va L) as Hlt.
    rewrite (Z.min_comm eb ea) in Hlt.
    destruct (_ - _)%Z eqn:E; try lia.
    cbn [binary_normalize]. apply binary_round_sign.
  - intros _.
    destruct (_ - _)%Z eqn:E; try lia.
    cbn [binary_normalize]. apply binary_round_sign.
  - intros H. apply is_Lt in H.
    pose proof (canonical_lt ma mb ea eb Va Vb H) as Hlt.
    destruct (_ - _)%Z eqn:E; try lia.
    cbn [binary_normalize]. apply binary_round_sign.
Qed.

(** [Math.max(0, r)] is 0 for every [r] that is negative, [-0]
    included. *)
Lemma Math_max_0_negative (r : float) : has_sign true r -> Math_max 0 r = 0.
Proof.
  unfold has_sign. intros H. unfold Math_max.
  rewrite (is_nan_false r) by (intros E; rewrite E in H; exact H).
  change (is_nan 0) with false. cbn [orb].
  rewrite !ltb_spec, Prim2SF_0.
  destruct (Prim2SF r) as [s|s| |s m e] eqn:E; simpl in H; try contradiction; subst s;
    reflexivity.
Qed.

(** An oversized sale leaves exactly 0 shares. *)
Lemma oversized_sale (held sold : float) :
  (held <? sold) = true -> Math_max 0 (round (held - sold) 2) = 0.
Proof.
  intros H. apply Math_max_0_negative, round_sign; [left; reflexivity|].
  apply sub_negative. exact H.
Qed.

(** ** [calculateProfit] and [calculateAfterTransaction] *)

(** C6. In the arithmetic of the engine, [calculateProfit] returns
    [round(shares * costPrice, 2)], [round(shares * currentNav, 2)] and
    [round] of the difference of the two products, each computed from the
    products before they are rounded, and the profit rate
    [round(profit / costAmount * 100, 2)] when the cost amount is above 0;
    when the cost amount equals 0 (or is negative, or [NaN]) the rate is
    exactly 0 and nothing is divided.  For 100 shares bought at 10.00 and
    valued at 12.50 the four numbers are 1000, 1250, 250 and 25; for 1
    share bought at 2.675 and valued at 3 they are 2.68, 3, 0.33 and
    12.15; for 3 shares bought at 1.1 and valued at 1.2 they are 3.3, 3.6,
    0.3 and 9.09; with no share they are all 0. *)
Theorem calculateProfit_formulas :
  (forall (holding : Holding) (currentNav : float),
     let cost := shares holding * costPrice holding in
     let current := shares holding * currentNav in
     let r := calculateProfit holding currentNav in
     costAmount r = round cost 2 /\
     currentAmount r = round current 2 /\
     profit r = round (current - cost) 2 /\
     ((0 <? cost) = true ->
      profitRate r = round ((current - cost) / cost * 100) 2) /\
     ((cost =? 0) = true -> profitRate r = 0) /\
     ((0 <? cost) = false -> profitRate r = 0)) /\
  calculateProfit holding64_100_at_10 12.5
  = {| costAmount := 1000; currentAmount := 1250;
       profit := 250; profitRate := 25 |} /\
  calculateProfit {| shares := 1; costPrice := 2.675 |} 3
  = {| costAmount := 2.68; currentAmount := 3;
       profit := 0.33; profitRate := 12.15 |} /\
  calculateProfit {| shares := 3; costPrice := 1.1 |} 1.2
  = {| costAmount := 3.3; currentAmount := 3.6;
       profit := 0.3; profitRate := 9.09 |} /\
  calculateProfit {| shares := 0; costPrice := 10 |} 12.5
  = {| costAmount := 0; currentAmount := 0; profit := 0; profitRate := 0 |}.
Proof.
  split; [|repeat split; vm_compute; reflexivity].
  intros holding currentNav cost current r. subst r.
  unfold calculateProfit. cbn [costAmount currentAmount profit profitRate].
  fold cost. fold current.
  split; [reflexivity|]. split; [reflexivity|]. split; [reflexivity|].
  split; [|split].
  - intros ->. reflexivity.
  - intros H. rewrite (eqb_0_not_above _ H). reflexivity.
  - intros ->. reflexivity.
Qed.

Lemma calculateProfit_formulas_witness :
  (0 <? shares holding64_100_at_10 * costPrice holding64_100_at_10) = true /\
  profitRate (calculateProfit holding64_100_at_10 12.5)
  = round ((shares holding64_100_at_10 * 12.5
            - shares holding64_100_at_10 * costPrice holding64_100_at_10)
           / (shares holding64_100_at_10 * costPrice holding64_100_at_10)
           * 100) 2 /\
  profitRate (calculateProfit {| shares := 0; costPrice := 10 |} 12.5) = 0.
Proof.
  split; [reflexivity|]. split.
  - apply (proj1 calculateProfit_formulas holding64_100_at_10 12.5).
    reflexivity.
  - apply (proj1 calculateProfit_formulas {| shares := 0; costPrice := 10 |} 12.5).
    reflexivity.
Defined.

(** C7. In the arithmetic of the engine, a valid buy (a holding with no
    negative shares, a positive number of shares bought) gives the shares
    [round(oldShares + bought, 2)] and the cost price
    [round((oldShares * oldCostPrice + amount) / (oldShares + bought), 4)].
    Buying 50 shares for 600.00 on top of 100 shares at 10.00 gives 150
    shares at 10.6667; buying 2.675 shares for 1 with nothing held gives
    2.68 shares at 0.3738; buying 1 share for 1 on top of 1 share at
    1.0001 gives 2 shares at 1. *)
Theorem buy_rebases_cost_price :
  (forall (holding : Holding) (transaction : Transaction),
     tx_type transaction = "buy"%string ->
     (0 <=? shares holding) = true ->
     (0 <? tx_shares transaction) = true ->
     let r := calculateAfterTransaction holding transaction in
     pos_shares r = round (shares holding + tx_shares transaction) 2 /\
     pos_costPrice r
     = round ((shares holding * costPrice holding + tx_amount transaction)
              / (shares holding + tx_shares transaction)) 4) /\
  calculateAfterTransaction holding64_100_at_10 buy64_50_for_600
  = {| pos_shares := 150; pos_costPrice := 10.6667 |} /\
  calculateAfterTransaction {| shares := 0; costPrice := 0 |}
    {| tx_type := "buy"; tx_shares := 2.675; tx_amount := 1 |}
  = {| pos_shares := 2.68; pos_costPrice := 0.3738 |} /\
  calculateAfterTransaction {| shares := 1; costPrice := 1.0001 |}
    {| tx_type := "buy"; tx_shares := 1; tx_amount := 1 |}
  = {| pos_shares := 2; pos_costPrice := 1 |}.
Proof.
  split; [|repeat split; vm_compute; reflexivity].
  intros holding transaction Hbuy Hold Hnew r. subst r.
  unfold calculateAfterTransaction. rewrite Hbuy.
  cbn [String.eqb Ascii.eqb Bool.eqb pos_shares pos_costPrice].
  split; [|reflexivity].
  apply Math_max_0_nonneg, round_sign; [left; reflexivity|].
  unfold has_sign. rewrite add_spec.
  rewrite leb_spec in Hold. rewrite ltb_spec in Hnew.
  apply SFadd_nonneg_pos; assumption.
Qed.

Lemma buy_rebases_cost_price_witness :
  pos_shares (calculateAfterTransaction holding64_100_at_10 buy64_50_for_600)
  = round (shares holding64_100_at_10 + tx_shares buy64_50_for_600) 2 /\
  pos_costPrice (calculateAfterTransaction holding64_100_at_10 buy64_50_for_600)
  = round ((shares holding64_100_at_10 * costPrice holding64_100_at_10
            + tx_amount buy64_50_for_600)
           / (shares holding64_100_at_10 + tx_shares buy64_50_for_600)) 4.
Proof.
  apply (proj1 buy_rebases_cost_price holding64_100_at_10 buy64_50_for_600);
    reflexivity.
Defined.

(** C8. In the arithmetic of the engine, a sell leaves the shares
    [max(0, round(oldShares - sold, 2))], which is [max(0, oldShares -
    sold)] when that difference is a number of 2 decimals.  The shares are
    below 0 after no sell, whatever the numbers, and exactly 0 after a
    sell of more shares than are held.  The cost price returned is
    [round(oldCostPrice, 4)], whatever is sold: the cost price itself when
    that is a number of 4 decimals.  Selling 250 of 100 shares at 10.00
    leaves 0 shares at 10; selling 50 of 150 shares at 10.6667 leaves 100
    shares at 10.6667; selling 5 of 10.456 shares at 1.5 leaves 5.46
    shares at 1.5. *)
Theorem sell_reduces_shares_only :
  (forall (holding : Holding) (transaction : Transaction),
     tx_type transaction = "sell"%string ->
     let r := calculateAfterTransaction holding transaction in
     pos_shares r
     = Math_max 0 (round (shares holding - tx_shares transaction) 2) /\
     (pos_shares r <? 0) = false /\
     ((shares holding <? tx_shares transaction) = true -> pos_shares r = 0) /\
     (is_rounded 2 (shares holding - tx_shares transaction) ->
      pos_shares r = Math_max 0 (shares holding - tx_shares transaction)) /\
     pos_costPrice r = round (costPrice holding) 4 /\
     (is_rounded 4 (costPrice holding) -> pos_costPrice r = costPrice holding)) /\
  calculateAfterTransaction holding64_100_at_10
    {| tx_type := "sell"; tx_shares := 250; tx_amount := 2500 |}
  = {| pos_shares := 0; pos_costPrice := 10 |} /\
  calculateAfterTransaction {| shares := 150; costPrice := 10.6667 |}
    {| tx_type := "sell"; tx_shares := 50; tx_amount := 600 |}
  = {| pos_shares := 100; pos_costPrice := 10.6667 |} /\
  calculateAfterTransaction {| shares := 10.456; costPrice := 1.5 |}
    {| tx_type := "sell"; tx_shares := 5; tx_amount := 7.5 |}
  = {| pos_shares := 5.46; pos_costPrice := 1.5 |}.
Proof.
  split; [|repeat split; vm_compute; reflexivity].
  intros holding transaction Hsell r. subst r.
  unfold calculateAfterTransaction. rewrite Hsell.
  cbn [String.eqb Ascii.eqb Bool.eqb pos_shares pos_costPrice].
  split; [reflexivity|]. split; [apply Math_max_0_not_below|].
  split; [apply oversized_sale|].
  split; [intros ->; reflexivity|]. split; [reflexivity|].
  intros H. exact H.
Qed.

Lemma sell_reduces_shares_only_witness :
  let r := calculateAfterTransaction holding64_100_at_10
             {| tx_type := "sell"; tx_shares := 250; tx_amount := 2500 |} in
  pos_shares r = 0 /\ pos_costPrice r = 10.
Proof.
  destruct (proj1 sell_reduces_shares_only holding64_100_at_10
              {| tx_type := "sell"; tx_shares := 250; tx_amount := 2500 |}
              eq_refl) as (_ & _ & H1 & _ & _ & H2).
  split; [apply H1; reflexivity|]. apply H2. vm_compute. reflexivity.
Defined.

End Calculator64Facts.

(* ================================================================== *)
(** * Properties of the provider client *)

Section ClientFacts.

Lemma Promise_all_catch_null {A : Type} (ps : list (outcome A)) :
  exists rs, Promise_all (map catch_null ps) = Fulfilled rs /\
             rs = map (fun p => match p with
                                | Fulfilled a => Some a
                                | Rejected _ => None
                                end) ps.
Proof.
  induction ps as [|p ps [rs [IH ->]]].
  - exists []. split; reflexivity.
  - destruct p as [a|e]; cbn [map catch_null Promise_all]; rewrite IH;
      eexists; split; reflexivity.
Qed.

Lemma getBatchFundEstimate_successes (fetch : string -> outcome Estimate)
  (codes : list string) :
  getBatchFundEstimate fetch codes = Fulfilled (successes fetch codes).
Proof.
  unfold getBatchFundEstimate.
  rewrite <- (map_map fetch catch_null).
  destruct (Promise_all_catch_null (map fetch codes)) as [rs [-> ->]].
  f_equal. induction codes as [|c codes IH]; [reflexivity|].
  cbn [map successes filter_not_null]. destruct (fetch c); cbn; rewrite IH; reflexivity.
Qed.

(** C1, as the specification states it, fails: of the two codes requested,
    the one whose fetch times out has no entry in the result at all, neither
    a valuation nor an error. *)
Lemma batch_result_omits_failed_code :
  getBatchFundEstimate (FundAPI.getFundEstimate net_A_ok_B_timeout)
    ["000001"; "000002"]%string = Fulfilled [est_000001] /\
  ~ (forall c, In c ["000001"; "000002"]%string ->
               In c (map est_code [est_000001])).
Proof.
  split.
  - reflexivity.
  - intros H. specialize (H "000002"%string (or_intror (or_introl eq_refl))).
    cbn in H. destruct H as [H|[]]. discriminate H.
Qed.

(** C1, amended. For every list of codes and whatever way each fetch
    settles, the batch fetch is fulfilled, never rejected: each failure is
    caught where the fetches fan out and replaced by [null], and the result
    is the array of the valuations of the codes whose fetch succeeded, in
    the order requested, with no entry for a code whose fetch failed. *)
Theorem batch_never_fails_and_keeps_successes
  (getFundEstimate : string -> outcome Estimate) (fundCodes : list string) :
  getBatchFundEstimate getFundEstimate fundCodes
    = Fulfilled (successes getFundEstimate fundCodes) /\
  (forall c e, In c fundCodes -> getFundEstimate c = Fulfilled e ->
               In e (successes getFundEstimate fundCodes)) /\
  (forall e, In e (successes getFundEstimate fundCodes) ->
             exists c, In c fundCodes /\ getFundEstimate c = Fulfilled e) /\
  (length (successes getFundEstimate fundCodes) <= length fundCodes)%nat.
Proof.
  split; [apply getBatchFundEstimate_successes|].
  induction fundCodes as [|c0 cs (IH1 & IH2 & IH3)].
  - cbn. split; [|split]; [tauto | intros e [] | lia].
  - cbn [successes]. split; [|split].
    + intros c e [->|Hin] Hc.
      * rewrite Hc. left. reflexivity.
      * destruct (getFundEstimate c0); [right|]; eapply IH1; eassumption.
    + intros e He. destruct (getFundEstimate c0) as [e0|err] eqn:E0.
      * destruct He as [<-|He].
        -- exists c0. split; [left; reflexivity | exact E0].
        -- destruct (IH2 e He) as (c & Hc & Hf). exists c. split; [right|]; assumption.
      * destruct (IH2 e He) as (c & Hc & Hf). exists c. split; [right|]; assumption.
    + destruct (getFundEstimate c0); cbn [length]; lia.
Qed.

Lemma batch_never_fails_and_keeps_successes_witness :
  In est_000001
    (successes (FundAPI.getFundEstimate net_A_ok_B_timeout)
       ["000001"; "000002"]%string).
Proof.
  apply (proj1 (proj2 (batch_never_fails_and_keeps_successes
                         (FundAPI.getFundEstimate net_A_ok_B_timeout)
                         ["000001"; "000002"]%string)) "000001"%string).
  - left. reflexivity.
  - reflexivity.
Defined.

(** The batch over the JSONP client is fulfilled as well. *)
Corollary jsonp_batch_is_fulfilled (jsonp : string -> ScriptEvent (option GzData))
  (fundCodes : list string) :
  is_fulfilled (getBatchFundEstimate (FundAPIJsonp.getFundEstimate jsonp) fundCodes)
  = true.
Proof. rewrite getBatchFundEstimate_successes. reflexivity. Qed.

Lemma race_times_out {D : Type} (timeout : Z) (ev : ScriptEvent D) :
  TimesOut timeout ev -> race timeout ev = TimedOut.
Proof.
  intros [|t d Ht|t Ht]; cbn [race]; [reflexivity| |];
    apply Z.ltb_ge in Ht; rewrite Ht; reflexivity.
Qed.

Lemma fetchRealTimeEstimate_no_data (net : Network) (fundCode : string) :
  NoLiveData (estimateScript net fundCode) ->
  FundAPI.fetchRealTimeEstimate net fundCode = None.
Proof.
  unfold FundAPI.fetchRealTimeEstimate.
  intros [|t d Ht|t|t]; cbn [race].
  - reflexivity.
  - apply Z.ltb_ge in Ht. rewrite Ht. reflexivity.
  - destruct (t <? FundAPI.realtime_timeout)%Z; reflexivity.
  - destruct (t <? FundAPI.realtime_timeout)%Z; reflexivity.
Qed.

Lemma fetchRealTimeEstimate_None (net : Network) (fundCode : string) :
  FundAPI.fetchRealTimeEstimate net fundCode = None ->
  NoLiveData (estimateScript net fundCode).
Proof.
  unfold FundAPI.fetchRealTimeEstimate.
  destruct (estimateScript net fundCode) as [t d|t|]; cbn [race].
  - destruct (t <? FundAPI.realtime_timeout)%Z eqn:Ht.
    + destruct d; [discriminate|]. intros _. apply no_live_absent.
    + intros _. apply no_live_late. apply Z.ltb_ge. exact Ht.
  - intros _. apply no_live_error.
  - intros _. apply no_live_silent.
Qed.

(** The code of a valuation is the code it was asked for. *)
Lemma getFundEstimate_code (net : Network) (c : string) (e : Estimate) :
  FundAPI.getFundEstimate net c = Fulfilled e -> est_code e = c.
Proof.
  unfold FundAPI.getFundEstimate, FundAPI.getFundEstimate_traced.
  destruct (FundAPI.fetchRealTimeEstimate net c) as [r|] eqn:Hlive; cbn [fst].
  - intros [= <-]. revert Hlive. unfold FundAPI.fetchRealTimeEstimate.
    destruct (race _ _) as [[d|]| |]; intros [= <-] || discriminate. reflexivity.
  - unfold FundAPI.fetchLatestNetWorth.
    destruct (race _ _) as [g| |]; try discriminate.
    destruct (Data_netWorthTrend g) as [trend|]; try discriminate.
    destruct (last trend); try discriminate.
    intros [= <-]. reflexivity.
Qed.

(** C5, as the specification states it, fails for a malformed payload: a
    live payload that arrives in time with no usable field is not followed
    by the settled-net-value request, although that request would have
    given a net value of 2.5; the call is fulfilled with the valuation
    read from the payload, every number 0. *)
Lemma malformed_live_payload_is_no_fallback :
  FundAPI.getFundEstimate_traced net_malformed_live "000004"
  = (Fulfilled {| est_code := "000004"; est_name := JString "";
                  estimateNetWorth := Num 0; dayGrowth := Num 0;
                  netWorth := Num 0; time := JString "" |},
     [ReqEstimate "000004" 3000]) /\
  FundAPI.fetchLatestNetWorth net_malformed_live "000004"
  = Fulfilled {| est_code := "000004"; est_name := JString "Fund D";
                 estimateNetWorth := Num 2.5; dayGrowth := Num 0.4;
                 netWorth := Num 2.5; time := JString "" |}.
Proof. split; reflexivity. Qed.

(** C5, amended. [getFundEstimate] first sends the live-estimate request,
    guarded by a timer of 3000 ms.  It sends the settled-net-value
    request, guarded by a timer of 10000 ms, exactly when the live path
    yields no payload (no answer within the 3000 ms, a failed script, or a
    script that defines no data), and then settles as that request does:
    fulfilled with the latest point of the net-value series when the
    detail script loads in time with a series that is not empty (net worth
    and estimate the value of the point, day growth its return, a number
    that does not parse counting as 0), rejected when the script does not
    answer within the 10000 ms, fails, or leaves no series.  A live payload
    that arrives in time is the result, whatever it holds, and nothing
    else is requested: a missing or malformed number is read as 0, a
    missing name or time as the empty string. *)
Theorem getFundEstimate_live_then_settled (net : Network) (fundCode : string) :
  (exists more,
     snd (FundAPI.getFundEstimate_traced net fundCode)
       = ReqEstimate fundCode 3000 :: more) /\
  (In (ReqDetail fundCode 10000) (snd (FundAPI.getFundEstimate_traced net fundCode))
   <-> NoLiveData (estimateScript net fundCode)) /\
  (NoLiveData (estimateScript net fundCode) ->
     FundAPI.getFundEstimate_traced net fundCode
       = (FundAPI.fetchLatestNetWorth net fundCode,
          [ReqEstimate fundCode 3000; ReqDetail fundCode 10000]) /\
     (forall t g trend latest,
        detailScript net fundCode = Arrives t g ->
        (t < 10000)%Z ->
        Data_netWorthTrend g = Some trend ->
        last trend = Some latest ->
        FundAPI.getFundEstimate net fundCode
        = Fulfilled {| est_code := fundCode;
                       est_name := match fS_name g with
                                   | JUndefined => JString ""
                                   | declared => declared
                                   end;
                       estimateNetWorth := Num (num_or (y latest) 0);
                       dayGrowth := Num (num_or (equityReturn latest) 0);
                       netWorth := Num (num_or (y latest) 0);
                       time := JString "" |}) /\
     (TimesOut 10000 (detailScript net fundCode) ->
        FundAPI.getFundEstimate net fundCode = Rejected ErrTimeout) /\
     (forall t, detailScript net fundCode = Fails t -> (t < 10000)%Z ->
        FundAPI.getFundEstimate net fundCode = Rejected ErrRequest) /\
     (NoSettledData 10000 (detailScript net fundCode) ->
        FundAPI.getFundEstimate net fundCode = Rejected ErrNoData)) /\
  (forall t data, estimateScript net fundCode = Arrives t (Some data) ->
     (t < 3000)%Z ->
     FundAPI.getFundEstimate_traced net fundCode
     = (Fulfilled {| est_code := fundCode;
                     est_name := or_empty (gz_name data);
                     estimateNetWorth := Num (num_or (gsz data) 0);
                     dayGrowth := Num (num_or (gszzl data) 0);
                     netWorth := Num (num_or (dwjz data) 0);
                     time := or_empty (gztime data) |},
        [ReqEstimate fundCode 3000])).
Proof.
  assert (T : NoLiveData (estimateScript net fundCode) ->
              FundAPI.getFundEstimate_traced net fundCode
              = (FundAPI.fetchLatestNetWorth net fundCode,
                 [ReqEstimate fundCode 3000; ReqDetail fundCode 10000])).
  { intros Hlive. unfold FundAPI.getFundEstimate_traced.
    rewrite (fetchRealTimeEstimate_no_data _ _ Hlive). reflexivity. }
  split; [|split; [|split]].
  - unfold FundAPI.getFundEstimate_traced.
    destruct (FundAPI.fetchRealTimeEstimate net fundCode); cbn [snd];
      eexists; reflexivity.
  - split.
    + unfold FundAPI.getFundEstimate_traced.
      destruct (FundAPI.fetchRealTimeEstimate net fundCode) eqn:Hlive; cbn [snd].
      * intros [H|[]]. discriminate H.
      * intros _. apply fetchRealTimeEstimate_None. exact Hlive.
    + intros Hlive. rewrite (T Hlive). cbn [snd]. right. left. reflexivity.
  - intros Hlive. split; [exact (T Hlive)|].
    unfold FundAPI.getFundEstimate. rewrite (T Hlive). cbn [fst].
    unfold FundAPI.fetchLatestNetWorth.
    change FundAPI.config_timeout with 10000%Z.
    split; [|split; [|split]].
    + intros t g trend latest Hev Ht Hg Hl. rewrite Hev. cbn [race].
      apply Z.ltb_lt in Ht. rewrite Ht, Hg, Hl. reflexivity.
    + intros Hto. rewrite (race_times_out _ _ Hto). reflexivity.
    + intros t Hev Ht. rewrite Hev. cbn [race].
      apply Z.ltb_lt in Ht. rewrite Ht. reflexivity.
    + intros [t g Ht Hg]. cbn [race].
      apply Z.ltb_lt in Ht. rewrite Ht.
      destruct Hg as [-> | ->]; reflexivity.
  - intros t data Hev Ht.
    unfold FundAPI.getFundEstimate_traced, FundAPI.fetchRealTimeEstimate.
    rewrite Hev. cbn [race]. change FundAPI.realtime_timeout with 3000%Z.
    apply Z.ltb_lt in Ht. rewrite Ht. reflexivity.
Qed.

Lemma getFundEstimate_live_then_settled_witness :
  FundAPI.getFundEstimate net_A_ok_B_timeout "000002" = Rejected ErrTimeout /\
  FundAPI.getFundEstimate net_A_ok_B_timeout "000003"
  = Fulfilled {| est_code := "000003"; est_name := JString "Fund C";
                 estimateNetWorth := Num 2.5; dayGrowth := Num 0;
                 netWorth := Num 2.5; time := JString "" |} /\
  FundAPI.getFundEstimate_traced net_A_ok_B_timeout "000001"
  = (Fulfilled est_000001, [ReqEstimate "000001" 3000]).
Proof.
  split; [|split].
  - assert (L : NoLiveData (estimateScript net_A_ok_B_timeout "000002")).
    { apply no_live_silent. }
    assert (S : TimesOut 10000 (detailScript net_A_ok_B_timeout "000002")).
    { apply times_out_silent. }
    destruct (proj1 (proj2 (proj2
                (getFundEstimate_live_then_settled net_A_ok_B_timeout "000002")))
                L) as (_ & _ & H & _).
    exact (H S).
  - assert (L : NoLiveData (estimateScript net_A_ok_B_timeout "000003")).
    { apply no_live_silent. }
    destruct (proj1 (proj2 (proj2
                (getFundEstimate_live_then_settled net_A_ok_B_timeout "000003")))
                L) as (_ & H & _).
    apply (H 800%Z
             {| Data_netWorthTrend :=
                  Some [ {| y := Num 2.5; equityReturn := NaN |} ];
                fS_name := JString "Fund C" |}
             [ {| y := Num 2.5; equityReturn := NaN |} ]
             {| y := Num 2.5; equityReturn := NaN |});
      reflexivity.
  - apply (proj2 (proj2 (proj2
             (getFundEstimate_live_then_settled net_A_ok_B_timeout "000001")))
             120%Z gz_000001); reflexivity.
Defined.

End ClientFacts.

(* ================================================================== *)
(** * Properties of the refresh scheduler *)

Section MergeFacts.

Variable fetch : string -> outcome Estimate.

(** The code of a valuation is the code it was asked for. *)
Hypothesis fetch_code : forall c e, fetch c = Fulfilled e -> est_code e = c.

Lemma applyEstimate_code (h : Holding) (e : Estimate) :
  code (applyEstimate h e) = code h.
Proof. reflexivity. Qed.

Lemma updateFound_absent (e : Estimate) (hs : list Holding) :
  ~ In (est_code e) (map code hs) -> updateFound e hs = None.
Proof.
  induction hs as [|h rest IH]; intros Hn; [reflexivity|].
  cbn [updateFound]. destruct (String.eqb (code h) (est_code e)) eqn:E.
  - apply String.eqb_eq in E. exfalso. apply Hn. left. exact E.
  - rewrite IH; [reflexivity|]. intros Hin. apply Hn. right. exact Hin.
Qed.

Lemma updateFound_unique (e : Estimate) (hs : list Holding) :
  In (est_code e) (map code hs) ->
  NoDup (map code hs) ->
  updateFound e hs
    = Some (map (fun h => if String.eqb (code h) (est_code e)
                          then applyEstimate h e else h) hs).
Proof.
  induction hs as [|h rest IH]; intros Hin Hnd; [destruct Hin|].
  cbn [map] in Hnd. inversion Hnd as [|c cs Hnotin Hnd' Heq]; subst.
  rewrite list_elem_of_In in Hnotin.
  cbn [updateFound map]. destruct (String.eqb (code h) (est_code e)) eqn:E.
  - f_equal. f_equal. apply String.eqb_eq in E.
    clear IH Hin Hnd Hnd'. induction rest as [|h' rest IH]; [reflexivity|].
    cbn [map]. destruct (String.eqb (code h') (est_code e)) eqn:E'.
    + apply String.eqb_eq in E'. exfalso. apply Hnotin. left. congruence.
    + f_equal. apply IH. intros Hin. apply Hnotin. right. exact Hin.
  - destruct Hin as [Hin|Hin].
    + apply String.eqb_neq in E. congruence.
    + rewrite (IH Hin Hnd'). reflexivity.
Qed.

Lemma mem_In (c : string) (cs : list string) : mem c cs = true <-> In c cs.
Proof.
  unfold mem. rewrite existsb_exists. split.
  - intros (x & Hx & E). apply String.eqb_eq in E. subst. exact Hx.
  - intros H. exists c. split; [exact H | apply String.eqb_refl].
Qed.

Lemma merge_fold (cs : list string) :
  forall (hs : list Holding) (b : bool),
    NoDup cs ->
    (forall c, In c cs -> In c (map code hs)) ->
    NoDup (map code hs) ->
    fold_left mergeResult (map fetch cs) (hs, b)
      = (map (fun h => if mem (code h) cs then refreshed fetch h else h) hs,
         b || existsb (fun c => is_fulfilled (fetch c)) cs).
Proof.
  induction cs as [|c cs IH]; intros hs b Hcs Hincl Hnd.
  - cbn. rewrite orb_false_r. f_equal. symmetry. apply map_id.
  - inversion Hcs as [|c' cs' Hc Hcs' Heq]; subst.
    rewrite list_elem_of_In in Hc.
    cbn [map fold_left existsb].
    destruct (fetch c) as [e|err] eqn:Hf; cbn [mergeResult fst is_fulfilled].
    + pose proof (fetch_code _ _ Hf) as Hcode.
      rewrite updateFound_unique;
        [|rewrite Hcode; apply Hincl; left; reflexivity | exact Hnd].
      assert (Hcodes :
        map code (map (fun h => if String.eqb (code h) (est_code e)
                                then applyEstimate h e else h) hs)
        = map code hs).
      { rewrite map_map. apply map_ext. intros h.
        destruct (String.eqb (code h) (est_code e)); reflexivity. }
      rewrite IH; [| exact Hcs'
                   | intros x Hx; rewrite Hcodes; apply Hincl; right; exact Hx
                   | rewrite Hcodes; exact Hnd].
      rewrite orb_true_r. cbn [orb]. f_equal.
      rewrite map_map. apply map_ext. intros h.
      rewrite Hcode. unfold mem at 2. cbn [existsb]. fold (mem (code h) cs).
      destruct (String.eqb (code h) c) eqn:E; cbn [orb].
      * apply String.eqb_eq in E. rewrite applyEstimate_code.
        destruct (mem (code h) cs) eqn:M.
        -- apply mem_In in M. rewrite E in M. contradiction.
        -- unfold refreshed. rewrite E, Hf. reflexivity.
      * reflexivity.
    + rewrite IH; [| exact Hcs'
                   | intros x Hx; apply Hincl; right; exact Hx
                   | exact Hnd].
      cbn [orb]. f_equal. apply map_ext. intros h.
      unfold mem at 2. cbn [existsb]. fold (mem (code h) cs).
      destruct (String.eqb (code h) c) eqn:E; cbn [orb]; [|reflexivity].
      apply String.eqb_eq in E.
      assert (R : refreshed fetch h = h).
      { unfold refreshed. rewrite E, Hf. reflexivity. }
      rewrite R. destruct (mem (code h) cs); reflexivity.
Qed.

(** Applying the same valuation twice is applying it once. *)
Lemma applyEstimate_twice (h : Holding) (e : Estimate) :
  applyEstimate (applyEstimate h e) e = applyEstimate h e.
Proof.
  unfold applyEstimate. cbn [hid code name shares costPrice]. f_equal. f_equal.
  destruct (netWorth e) as [|q]; cbn [num_or truthy].
  - unfold navOrCost at 1. cbn [lastNav costPrice].
    destruct (Qeq_bool (navOrCost h) 0) eqn:E; [|reflexivity].
    revert E. unfold navOrCost.
    destruct (lastNav h) as [l|]; [|reflexivity].
    destruct (Qeq_bool l 0) eqn:El; [reflexivity|].
    intros E. rewrite E in El. discriminate.
  - destruct (Qeq_bool q 0); cbn [negb]; [|reflexivity].
    unfold navOrCost at 1. cbn [lastNav costPrice].
    destruct (Qeq_bool (navOrCost h) 0) eqn:E; [|reflexivity].
    revert E. unfold navOrCost.
    destruct (lastNav h) as [l|]; [|reflexivity].
    destruct (Qeq_bool l 0) eqn:El; [reflexivity|].
    intros E. rewrite E in El. discriminate.
Qed.

Lemma touched_code (h h' : Holding) : touched fetch h h' -> code h' = code h.
Proof.
  intros [-> | ->]; [reflexivity|].
  unfold refreshed. destruct (fetch (code h)); reflexivity.
Qed.

(** Whatever the codes of the holdings, a valuation that finds its holding
    leaves every holding untouched or refreshed. *)
Lemma updateFound_touched (e : Estimate) (c : string) (hs0 hs : list Holding) :
  fetch c = Fulfilled e ->
  Forall2 (touched fetch) hs0 hs ->
  In c (map code hs0) ->
  exists hs1, updateFound e hs = Some hs1 /\ Forall2 (touched fetch) hs0 hs1.
Proof.
  intros Hf HR. pose proof (fetch_code _ _ Hf) as Hcode.
  induction HR as [|h0 h rest0 rest Hh HR IH]; intros Hin; [destruct Hin|].
  cbn [updateFound]. rewrite Hcode.
  pose proof (touched_code _ _ Hh) as Hc.
  destruct (String.eqb (code h) c) eqn:E.
  - eexists. split; [reflexivity|]. constructor; [|exact HR].
    apply String.eqb_eq in E. right.
    assert (R0 : refreshed fetch h0 = applyEstimate h0 e).
    { unfold refreshed. rewrite <- Hc, E, Hf. reflexivity. }
    rewrite R0. destruct Hh as [-> | ->]; [reflexivity|].
    rewrite R0. apply applyEstimate_twice.
  - destruct Hin as [Hin|Hin].
    + apply String.eqb_neq in E. congruence.
    + destruct (IH Hin) as (hs1 & Hu & HR1).
      rewrite Hu.
      eexists. split; [reflexivity|]. constructor; assumption.
Qed.

Lemma merge_fold_touched (cs : list string) :
  forall (hs0 hs : list Holding) (b : bool),
    Forall2 (touched fetch) hs0 hs ->
    (forall c, In c cs -> In c (map code hs0)) ->
    Forall2 (touched fetch) hs0
      (fst (fold_left mergeResult (map fetch cs) (hs, b))) /\
    snd (fold_left mergeResult (map fetch cs) (hs, b))
      = b || existsb (fun c => is_fulfilled (fetch c)) cs.
Proof.
  induction cs as [|c cs IH]; intros hs0 hs b HR Hincl.
  - cbn. rewrite orb_false_r. split; [exact HR | reflexivity].
  - cbn [map fold_left existsb].
    destruct (fetch c) as [e|err] eqn:Hf; cbn [mergeResult fst is_fulfilled].
    + destruct (updateFound_touched e c hs0 hs Hf HR) as (hs1 & Hu & HR1).
      { apply Hincl. left. reflexivity. }
      rewrite Hu.
      destruct (IH hs0 hs1 true HR1) as [I1 I2].
      { intros x Hx. apply Hincl. right. exact Hx. }
      split; [exact I1|]. rewrite I2. rewrite orb_true_r. reflexivity.
    + apply IH; [exact HR|]. intros x Hx. apply Hincl. right. exact Hx.
Qed.

(** Whatever the codes of the holdings, merging the results of the holdings'
    own codes leaves every holding untouched or refreshed; [updated] tells
    whether some fetch succeeded. *)
Lemma mergeResults_touched (hs : list Holding) :
  Forall2 (touched fetch) hs
    (fst (mergeResults (map fetch (map code hs)) hs)) /\
  snd (mergeResults (map fetch (map code hs)) hs) = existsb (succeeded fetch) hs.
Proof.
  unfold mergeResults.
  destruct (merge_fold_touched (map code hs) hs hs false) as [H1 H2].
  - clear. induction hs; constructor; [left; reflexivity | assumption].
  - tauto.
  - split; [exact H1|]. rewrite H2. cbn [orb].
    clear. induction hs as [|h rest IH]; [reflexivity|].
    cbn [map existsb]. rewrite IH. reflexivity.
Qed.

(** With distinct codes, merging the results of the holdings' own codes
    refreshes every holding whose fetch succeeded and leaves the others as
    they were; [updated] tells whether some fetch succeeded. *)
Lemma mergeResults_refreshed (hs : list Holding) :
  NoDup (map code hs) ->
  mergeResults (map fetch (map code hs)) hs
    = (map (refreshed fetch) hs, existsb (succeeded fetch) hs).
Proof.
  intros Hnd. unfold mergeResults.
  rewrite merge_fold; [| exact Hnd | tauto | exact Hnd].
  cbn [orb]. f_equal.
  - apply map_ext_in. intros h Hh.
    assert (M : mem (code h) (map code hs) = true).
    { apply mem_In. apply in_map. exact Hh. }
    rewrite M. reflexivity.
  - clear Hnd. induction hs as [|h rest IH]; [reflexivity|].
    cbn [map existsb]. rewrite IH. reflexivity.
Qed.

End MergeFacts.

Section SchedulerFacts.

(** The global state when the completion handler has run, whatever throws
    on the way: the merged holdings, the flag down, the refresh time set to
    the [now] of the call when a holding was updated. *)
Lemma settled_app (env : Env) (p : Pending) (results : list (outcome Estimate))
  (w : World) :
  app (snd (refreshNetValues_settled env p results w))
    = {| holdings := fst (mergeResults results (holdings (app w)));
         isLoading := false;
         lastRefreshTime :=
           if snd (mergeResults results (holdings (app w)))
           then p_now p else lastRefreshTime (app w);
         refreshInterval := refreshInterval (app w) |}.
Proof.
  run_statements.
  destruct (mergeResults results (holdings (app w))) as [hs updated].
  destruct updated, hs; every_path; reflexivity.
Qed.

(** What the holdings item of the store holds afterwards. *)
Lemma settled_stored (env : Env) (p : Pending) (results : list (outcome Estimate))
  (w : World) :
  stored (snd (refreshNetValues_settled env p results w))
    = if snd (mergeResults results (holdings (app w)))
         && negb (setItem_throws env (fst (mergeResults results (holdings (app w)))))
      then Some (fst (mergeResults results (holdings (app w))))
      else stored w.
Proof.
  run_statements.
  destruct (mergeResults results (holdings (app w))) as [hs updated].
  destruct updated, hs; every_path; reflexivity.
Qed.

(** A call made while a refresh is in flight returns at once and touches
    nothing. *)
Lemma call_while_loading (env : Env) (now : Z) (w : World) :
  isLoading (app w) = true -> refreshNetValues_call env now w = (Val None, w).
Proof.
  intros H. run_statements. rewrite H. reflexivity.
Qed.

(** A call made while no refresh is in flight: when it starts a batch, the
    batch is for the codes of the holdings and the flag is up; when it
    returns without one, the flag is down; when it throws, the flag is
    down unless it was [setRefreshing(true)] that threw. *)
Lemma call_when_idle (env : Env) (now : Z) (w : World) :
  isLoading (app w) = false ->
  match refreshNetValues_call env now w with
  | (Val (Some p), w1) =>
      isLoading (app w1) = true /\
      holdings (app w1) = holdings (app w) /\
      p = {| p_now := now; p_codes := map code (holdings (app w)) |}
  | (Val None, w1) => isLoading (app w1) = false
  | (Exn, w1) =>
      setRefreshing_throws env true = false -> isLoading (app w1) = false
  end.
Proof.
  intros H. run_statements. rewrite H.
  destruct (updateSummaryCard_throws env _); [intros _; exact H|].
  destruct (shouldFetch (app w) now); cbn [negb]; [|exact H].
  destruct (setRefreshing_throws env true); [intros E; discriminate E|].
  cbn [app holdings].
  destruct (holdings (app w)) as [|h rest]; cbn [map app isLoading holdings].
  - destruct (setRefreshing_throws env false); cbn [app isLoading];
      [intros _|]; reflexivity.
  - repeat split.
Qed.

(** Where the refresh button exists, every step keeps the scheduler in one
    of its two states. *)
Lemma step_two_states (env : Env) (s : Sched) (ev : Event) :
  setRefreshing_throws env true = false ->
  Idle s \/ Refreshing s -> Idle (step env s ev) \/ Refreshing (step env s ev).
Proof.
  intros Hbtn [[Hflag Hnone] | [Hflag [p Hone]]]; destruct ev as [now | results];
    cbn [step].
  - pose proof (call_when_idle env now (world s) Hflag) as H.
    destruct (refreshNetValues_call env now (world s)) as [[[q|]|] w1].
    + right. destruct H as (H1 & _ & _). split; [exact H1|].
      exists q. cbn [inflight]. rewrite Hnone. reflexivity.
    + left. split; [exact H | exact Hnone].
    + left. split; [exact (H Hbtn) | exact Hnone].
  - rewrite Hnone. left. split; assumption.
  - rewrite (call_while_loading env now (world s) Hflag).
    right. split; [exact Hflag | exists p; exact Hone].
  - rewrite Hone. left. split; [|reflexivity].
    cbn [world]. rewrite settled_app. reflexivity.
Qed.

Lemma run_two_states (env : Env) (evs : list Event) :
  setRefreshing_throws env true = false ->
  forall s, Idle s \/ Refreshing s ->
            Idle (run env evs s) \/ Refreshing (run env evs s).
Proof.
  intros Hbtn.
  induction evs as [|ev evs IH]; intros s Hs; [exact Hs|].
  cbn [run fold_left]. apply IH. apply step_two_states; assumption.
Qed.

(** On any page, a batch waits only while the flag is up, and never more
    than one. *)
Lemma step_one_batch (env : Env) (s : Sched) (ev : Event) :
  inflight s = [] \/ Refreshing s ->
  inflight (step env s ev) = [] \/ Refreshing (step env s ev).
Proof.
  intros [Hnone | [Hflag [p Hone]]]; destruct ev as [now | results]; cbn [step].
  - destruct (isLoading (app (world s))) eqn:Hflag.
    + rewrite (call_while_loading env now (world s) Hflag). left. exact Hnone.
    + pose proof (call_when_idle env now (world s) Hflag) as H.
      destruct (refreshNetValues_call env now (world s)) as [[[q|]|] w1].
      * right. destruct H as (H1 & _ & _). split; [exact H1|].
        exists q. cbn [inflight]. rewrite Hnone. reflexivity.
      * left. exact Hnone.
      * left. exact Hnone.
  - rewrite Hnone. left. exact Hnone.
  - rewrite (call_while_loading env now (world s) Hflag).
    right. split; [exact Hflag | exists p; exact Hone].
  - rewrite Hone. left. reflexivity.
Qed.

Lemma run_one_batch (env : Env) (evs : list Event) :
  forall s, inflight s = [] \/ Refreshing s ->
            inflight (run env evs s) = [] \/ Refreshing (run env evs s).
Proof.
  induction evs as [|ev evs IH]; intros s Hs; [exact Hs|].
  cbn [run fold_left]. apply IH. apply step_one_batch. exact Hs.
Qed.

(** C2. When the batch for the holdings' codes has settled, the completion
    handler leaves each holding either as it was or as [refreshed] makes it.
    A holding whose fetch failed keeps every field; a holding that is
    refreshed gets a new last valuation, day change and observation time
    from a fetch that succeeded and keeps its other fields; when the codes
    are distinct, every holding whose fetch succeeded is refreshed.  The
    time of the last refresh becomes the [now] of the call when at least
    one fetch succeeded and stays what it was when none did.  This holds
    whatever throws after the merge. *)
Theorem refresh_updates_only_succeeded (env : Env) (net : Network) (now : Z)
  (w : World) :
  let fetch := FundAPI.getFundEstimate net in
  let hs := holdings (app w) in
  let p := {| p_now := now; p_codes := map code hs |} in
  let w' := snd (refreshNetValues_settled env p (map fetch (p_codes p)) w) in
  Forall2 (touched fetch) hs (holdings (app w')) /\
  (forall h err, fetch (code h) = Rejected err -> refreshed fetch h = h) /\
  (forall h e, fetch (code h) = Fulfilled e ->
     refreshed fetch h =
       {| hid := hid h; code := code h; name := name h;
          shares := shares h; costPrice := costPrice h;
          lastNav := Some (num_or (netWorth e) (navOrCost h));
          dayChange := Some (num_or (dayGrowth e) 0);
          estimateTime := time e |}) /\
  (NoDup (map code hs) -> holdings (app w') = map (refreshed fetch) hs) /\
  (existsb (succeeded fetch) hs = true -> lastRefreshTime (app w') = now) /\
  (existsb (succeeded fetch) hs = false ->
     lastRefreshTime (app w') = lastRefreshTime (app w)).
Proof.
  intros fetch hs p w'. subst w'. rewrite settled_app.
  cbn [p_codes p p_now holdings lastRefreshTime].
  fold hs. unfold fetch.
  destruct (mergeResults_touched _ (getFundEstimate_code net) hs) as [Ht Hu].
  rewrite Hu.
  split; [exact Ht|]. split; [|split; [|split; [|split]]].
  - intros h err Hf. unfold refreshed. rewrite Hf. reflexivity.
  - intros h e Hf. unfold refreshed. rewrite Hf. reflexivity.
  - intros Hnd.
    rewrite (mergeResults_refreshed _ (getFundEstimate_code net) hs Hnd).
    reflexivity.
  - intros ->. reflexivity.
  - intros ->. reflexivity.
Qed.

Lemma refresh_updates_only_succeeded_witness :
  let w' :=
    snd (refreshNetValues_settled env_quiet
           {| p_now := 1700000000000%Z; p_codes := map code holdings_A_B |}
           (map (FundAPI.getFundEstimate net_A_ok_B_timeout)
              (map code holdings_A_B))
           (page_loading holdings_A_B)) in
  holdings (app w')
    = [ {| hid := "id_000001"; code := "000001"; name := "000001";
           shares := 100; costPrice := 10;
           lastNav := Some 1.2281; dayChange := Some 0.52;
           estimateTime := JString "2024-01-05 15:00" |};
        holding_of "000002" 200 1.5 ] /\
  lastRefreshTime (app w') = 1700000000000%Z.
Proof.
  assert (Hnd : NoDup (map code (holdings (app (page_loading holdings_A_B))))).
  { apply (bool_decide_unpack _). vm_compute. reflexivity. }
  destruct (refresh_updates_only_succeeded env_quiet net_A_ok_B_timeout
              1700000000000%Z (page_loading holdings_A_B))
    as (_ & _ & _ & H1 & H4 & _).
  split.
  - exact (H1 Hnd).
  - apply H4. reflexivity.
Defined.

(** C3. A call of [refreshNetValues] made while a refresh is in flight
    returns at once: it sends no request, nothing is queued, and the whole
    page state (holdings, last refresh time, loading flag included) is what
    it was.  So, from an idle scheduler and through any sequence of triggers
    and settlements, two batches are never in flight together: a batch
    waits only while the flag is up, and it is the only one.  On a page
    where [setRefreshing(true)] does not throw, the scheduler is always
    idle or refreshing one batch. *)
Theorem refresh_in_flight_excludes_refresh :
  (forall (env : Env) (fetch : string -> outcome Estimate) (now : Z) (w : World),
     isLoading (app w) = true ->
     refreshNetValues_call env now w = (Val None, w) /\
     refreshNetValues env fetch now w = (Val tt, w)) /\
  (forall (env : Env) (now : Z) (s : Sched),
     Refreshing s -> step env s (Trigger now) = s) /\
  (forall (env : Env) (evs : list Event) (s : Sched),
     Idle s ->
     (setRefreshing_throws env true = false ->
      Idle (run env evs s) \/ Refreshing (run env evs s)) /\
     (inflight (run env evs s) = [] \/ Refreshing (run env evs s)) /\
     (length (inflight (run env evs s)) <= 1)%nat).
Proof.
  split; [|split].
  - intros env fetch now w H. split.
    + apply call_while_loading. exact H.
    + unfold refreshNetValues, bind.
      rewrite (call_while_loading env now w H). reflexivity.
  - intros env now s [Hflag _]. cbn [step].
    rewrite (call_while_loading env now (world s) Hflag).
    destruct s. reflexivity.
  - intros env evs s Hidle.
    pose proof (run_one_batch env evs s (or_introl (proj2 Hidle))) as H.
    split; [|split; [exact H|]].
    + intros Hbtn. exact (run_two_states env evs Hbtn s (or_introl Hidle)).
    + destruct H as [-> | [_ [p ->]]]; cbn [length]; lia.
Qed.

Lemma refresh_in_flight_excludes_refresh_witness :
  refreshNetValues env_quiet (FundAPI.getFundEstimate net_A_ok_B_timeout)
    1700000000000%Z (page_loading holdings_A_B)
  = (Val tt, page_loading holdings_A_B) /\
  (length (inflight
     (run env_quiet
        [Trigger 1700000000000%Z; Trigger 1700000000500%Z; Trigger 1700000001000%Z]
        {| world := page_with holdings_A_B; inflight := [] |})) <= 1)%nat.
Proof.
  split.
  - apply (proj1 refresh_in_flight_excludes_refresh env_quiet
             (FundAPI.getFundEstimate net_A_ok_B_timeout) 1700000000000%Z
             (page_loading holdings_A_B)).
    reflexivity.
  - apply (proj2 (proj2 refresh_in_flight_excludes_refresh) env_quiet).
    split; reflexivity.
Defined.




Lemma summary_flag_fold (hs : list Holding) :
  forall acc,
    Calculator.acc_hasDayProfit (fold_left Calculator.summaryStep hs acc)
    = Calculator.acc_hasDayProfit acc
      || existsb (fun h => bool_decide (is_Some (dayChange h))) hs.
Proof.
  induction hs as [|h rest IH]; intros acc; cbn [fold_left existsb].
  - rewrite orb_false_r. reflexivity.
  - rewrite IH. unfold Calculator.summaryStep.
    destruct (dayChange h) as [d|]; cbn [Calculator.acc_hasDayProfit].
    + rewrite bool_decide_true by (eexists; reflexivity).
      rewrite orb_true_r. reflexivity.
    + rewrite bool_decide_false by (intros [x Hx]; discriminate Hx).
      reflexivity.
Qed.

(** [hasDayProfit] tells whether some holding has a day change. *)
Lemma hasDayProfit_exists (hs : list Holding) :
  hasDayProfit (Calculator.calculateSummary hs)
  = existsb (fun h => bool_decide (is_Some (dayChange h))) hs.
Proof.
  unfold Calculator.calculateSummary. cbn [hasDayProfit].
  rewrite summary_flag_fold. reflexivity.
Qed.

(** C10. After the completion handler has merged a batch in which the fetch
    of a holding's code succeeded (codes distinct, each valuation carrying
    the code it was asked for), that holding is in the list with a day
    change that is present and is a number: the day growth of the valuation
    when that is a non-zero number, and 0 when it is [NaN] or zero.  The
    summary of the holdings then has [hasDayProfit] true, whether or not the
    provider had a growth figure. *)
Theorem refreshed_holding_has_day_change (env : Env)
  (fetch : string -> outcome Estimate) (now : Z) (w : World)
  (h : Holding) (e : Estimate) :
  let hs := holdings (app w) in
  let p := {| p_now := now; p_codes := map code hs |} in
  let w' := snd (refreshNetValues_settled env p (map fetch (p_codes p)) w) in
  (forall c e', fetch c = Fulfilled e' -> est_code e' = c) ->
  NoDup (map code hs) ->
  In h hs ->
  fetch (code h) = Fulfilled e ->
  In (applyEstimate h e) (holdings (app w')) /\
  (exists q, dayChange (applyEstimate h e) = Some q /\
             q = num_or (dayGrowth e) 0 /\
             (truthy (dayGrowth e) = false -> q = 0) /\
             (forall g, dayGrowth e = Num g -> ~ g == 0 -> q = g)) /\
  hasDayProfit (Calculator.calculateSummary (holdings (app w'))) = true.
Proof.
  intros hs p w' Hcode Hnd Hin Hf.
  assert (Hhs : holdings (app w') = map (refreshed fetch) hs).
  { subst w'. rewrite settled_app. cbn [holdings p_codes p].
    fold hs. rewrite (mergeResults_refreshed fetch Hcode hs Hnd). reflexivity. }
  assert (Hmem : In (applyEstimate h e) (holdings (app w'))).
  { rewrite Hhs. apply in_map_iff. exists h. split; [|exact Hin].
    unfold refreshed. rewrite Hf. reflexivity. }
  split; [exact Hmem|]. split.
  - exists (num_or (dayGrowth e) 0). split; [reflexivity|]. split; [reflexivity|].
    split.
    + intros Hfalsy. unfold num_or. destruct (dayGrowth e) as [|g]; [reflexivity|].
      rewrite Hfalsy. reflexivity.
    + intros g Hg Hnz. rewrite Hg. cbn [num_or truthy].
      destruct (Qeq_bool g 0) eqn:E; [|reflexivity].
      apply Qeq_bool_eq in E. contradiction.
  - rewrite hasDayProfit_exists. apply existsb_exists.
    exists (applyEstimate h e). split; [exact Hmem|].
    apply bool_decide_eq_true. eexists. reflexivity.
Qed.

Lemma refreshed_holding_has_day_change_witness :
  let w' :=
    snd (refreshNetValues_settled env_quiet
           {| p_now := 1700000000000%Z; p_codes := map code holdings_C |}
           (map (FundAPI.getFundEstimate net_A_ok_B_timeout)
              (map code holdings_C))
           (page_loading holdings_C)) in
  FundAPI.getFundEstimate net_A_ok_B_timeout "000003"
    = Fulfilled {| est_code := "000003"; est_name := JString "Fund C";
                   estimateNetWorth := Num 2.5; dayGrowth := Num 0;
                   netWorth := Num 2.5; time := JString "" |} /\
  (exists h', In h' (holdings (app w')) /\ dayChange h' = Some 0) /\
  hasDayProfit (Calculator.calculateSummary (holdings (app w'))) = true.
Proof.
  assert (Hnd : NoDup (map code (holdings (app (page_loading holdings_C))))).
  { apply (bool_decide_unpack _). vm_compute. reflexivity. }
  destruct (refreshed_holding_has_day_change env_quiet
              (FundAPI.getFundEstimate net_A_ok_B_timeout) 1700000000000%Z
              (page_loading holdings_C) (holding_of "000003" 40 2)
              {| est_code := "000003"; est_name := JString "Fund C";
                 estimateNetWorth := Num 2.5; dayGrowth := Num 0;
                 netWorth := Num 2.5; time := JString "" |}
              (getFundEstimate_code net_A_ok_B_timeout) Hnd
              (or_introl eq_refl) eq_refl)
    as (Hin & _ & Hflag).
  split; [reflexivity|]. split.
  - eexists. split; [exact Hin | reflexivity].
  - exact Hflag.
Defined.

End SchedulerFacts.

(* ================================================================== *)
(** * Properties of the cache *)

Section CacheFacts.

Import Storage.

Context {D : Type}.

(** An assignment to a key other than [__proto__] sets the property. *)
Lemma assign_lookup_eq {V : Type} (obj : gmap string V) (key : string) (v : V) :
  key <> "__proto__"%string -> assign obj key v !! key = Some v.
Proof.
  intros Hkey. unfold assign.
  destruct (obj !! key); [apply lookup_insert_eq|].
  apply String.eqb_neq in Hkey. rewrite Hkey. apply lookup_insert_eq.
Qed.

(** An assignment leaves every other property as it is. *)
Lemma assign_lookup_ne {V : Type} (obj : gmap string V) (key other : string)
  (v : V) :
  other <> key -> assign obj key v !! other = obj !! other.
Proof.
  intros Hne. unfold assign.
  destruct (obj !! key); [apply lookup_insert_ne; congruence|].
  destruct (String.eqb key "__proto__"); [reflexivity|].
  apply lookup_insert_ne. congruence.
Qed.

(** An assignment to [__proto__] adds no property to an object that has
    none by that name. *)
Lemma assign_proto {V : Type} (obj : gmap string V) (v : V) :
  obj !! "__proto__"%string = None -> assign obj "__proto__" v = obj.
Proof. intros H. unfold assign. rewrite H. reflexivity. Qed.


(** The key [__proto__] is written without being stored: on a cache with no
    property of that name [setCache] returns [true] when the item can be
    written, the cache it writes is the cache it read, and [getCache]
    returns [null] for the key at every time. *)
Lemma setCache_proto_stores_nothing (cache : gmap string (CacheItem D))
  (t : Z) (d : D) (expireMinutes : option Q) (now : Z) :
  cache !! "__proto__"%string = None ->
  setCache false (Parsed cache) t "__proto__" d expireMinutes
  = (true, Parsed cache) /\
  getCache (Parsed cache) now "__proto__" = Null.
Proof.
  intros H. unfold setCache, getCache. cbn [parse].
  rewrite assign_proto by exact H. rewrite H. split; reflexivity.
Qed.


End CacheFacts.


(* ================================================================== *)
(** * Further properties of [Calculator] *)

Section CalculatorMoreFacts.

Import Calculator.


Lemma has_decimals_0 (d : Z) : has_decimals d 0.
Proof. exists 0%Z. unfold Qdiv. rewrite Qmult_0_l. reflexivity. Qed.





Lemma round_0 (d : Z) : round 0 d == 0.
Proof. apply round_fixes_decimals, has_decimals_0. Qed.





Lemma summary_fold_no_day (hs : list Holding) :
  no_day_change hs ->
  forall acc,
    acc_totalDayProfit (fold_left summaryStep hs acc) = acc_totalDayProfit acc.
Proof.
  induction hs as [|h rest IH]; intros Hno acc; [reflexivity|].
  cbn [fold_left]. rewrite IH.
  - unfold summaryStep. rewrite (Hno h (or_introl eq_refl)). reflexivity.
  - intros h' Hh'. apply Hno. right. exact Hh'.
Qed.


(** X4. [calculateSummary] sets [hasDayProfit] exactly when some holding
    has a day change; when none has, the total day profit and the day
    profit rate it returns are 0. *)
Theorem summary_day_profit_flag (holdings : list Holding) :
  let s := calculateSummary holdings in
  (hasDayProfit s = true <-> exists h, In h holdings /\ dayChange h <> None) /\
  (no_day_change holdings ->
     hasDayProfit s = false /\ totalDayProfit s == 0 /\ dayProfitRate s == 0).
Proof.
  intros s. subst s. split.
  - rewrite hasDayProfit_exists, existsb_exists. split.
    + intros (h & Hin & Hd). exists h. split; [exact Hin|].
      apply bool_decide_eq_true in Hd. destruct Hd as [d Hd]. congruence.
    + intros (h & Hin & Hd). exists h. split; [exact Hin|].
      apply bool_decide_eq_true. destruct (dayChange h) as [d|]; [|contradiction].
      eexists. reflexivity.
  - intros Hno. split; [|split].
    + rewrite hasDayProfit_exists.
      destruct (existsb _ holdings) eqn:E; [|reflexivity].
      apply existsb_exists in E. destruct E as (h & Hin & Hd).
      apply bool_decide_eq_true in Hd. destruct Hd as [d Hd].
      rewrite (Hno h Hin) in Hd. discriminate.
    + unfold calculateSummary. cbn [totalDayProfit].
      rewrite (summary_fold_no_day holdings Hno). cbn [acc_totalDayProfit].
      apply round_0.
    + unfold calculateSummary. cbn [dayProfitRate].
      rewrite (summary_fold_no_day holdings Hno). cbn [acc_totalDayProfit].
      destruct (gt0 _); [|apply round_0].
      apply Qeq_trans with (round 0 2); [|apply round_0].
      apply round_comp.
      unfold Qdiv. rewrite Qmult_0_l, Qmult_0_l. reflexivity.
Qed.

Lemma summary_day_profit_flag_witness :
  hasDayProfit (calculateSummary holdings_A_B) = false /\
  totalDayProfit (calculateSummary holdings_A_B) == 0.
Proof.
  assert (Hno : no_day_change holdings_A_B).
  { intros h [<-|[<-|[]]]; reflexivity. }
  destruct (proj2 (summary_day_profit_flag holdings_A_B) Hno) as (H1 & H2 & _).
  split; assumption.
Defined.



(** X7. For a cost that is not negative, [calculateRate] gives the rate
    [calculateProfit] gives: 0 for a cost of 0, the rounded percentage
    otherwise. *)
Theorem calculateRate_agrees_with_calculateProfit (holding : Holding)
  (currentNav : Q) :
  let cost := shares holding * costPrice holding in
  let current := shares holding * currentNav in
  0 <= cost ->
  calculateRate (current - cost) cost
  == profitRate (calculateProfit holding currentNav).
Proof.
  intros cost current Hcost. unfold calculateRate, calculateProfit.
  cbn [profitRate]. fold cost. fold current.
  destruct (Qeq_bool cost 0) eqn:E.
  - apply Qeq_bool_eq in E. rewrite gt0_false by (rewrite E; apply Qle_refl).
    symmetry. apply round_0.
  - rewrite gt0_true; [reflexivity|].
    apply Qeq_bool_neq in E. apply Qnot_le_lt. intros Hle.
    apply E. apply Qle_antisym; assumption.
Qed.

Lemma calculateRate_agrees_with_calculateProfit_witness :
  calculateRate (100 * 12.5 - 100 * 10) (100 * 10)
  == profitRate (calculateProfit holding_100_at_10 12.5).
Proof.
  apply (calculateRate_agrees_with_calculateProfit holding_100_at_10 12.5).
  discriminate.
Defined.










(** [calculateProfitTrend] returns no point when there is no history or
    an empty one; otherwise it returns one point for each history item, with
    the dates of the items in their order.  On a date that has no net
    values, and for a holding whose net value on the date is missing or 0,
    the valuation of the holding itself counts. *)
Theorem profit_trend_follows_history (holdings : list Holding) :
  calculateProfitTrend holdings None = [] /\
  calculateProfitTrend holdings (Some []) = [] /\
  (forall items,
     map t_date (calculateProfitTrend holdings (Some items)) = map hi_date items) /\
  (forall items item,
     In item items -> hi_netValues item = None ->
     In {| t_date := hi_date item; t_value := round (totalValue holdings) 2 |}
        (calculateProfitTrend holdings (Some items))) /\
  (forall item h netValues,
     hi_netValues item = Some netValues ->
     netValues !! code h = None \/ netValues !! code h = Some 0 ->
     trendNav item h = navOrCost h).
Proof.
  split; [reflexivity|]. split; [reflexivity|]. split; [|split].
  - intros [|item items]; [reflexivity|].
    unfold calculateProfitTrend. rewrite map_map. reflexivity.
  - intros items item Hin Hnone.
    destruct items as [|i0 items]; [destruct Hin|].
    unfold calculateProfitTrend. apply in_map_iff. exists item.
    split; [|exact Hin]. f_equal. f_equal. unfold totalValue.
    f_equal. unfold trendNav. rewrite Hnone. reflexivity.
  - intros item h netValues Hnv [Hk|Hk]; unfold trendNav; rewrite Hnv, Hk;
      reflexivity.
Qed.

Lemma profit_trend_follows_history_witness :
  In {| t_date := "2024-01-05"; t_value := round (totalValue holdings_A_B) 2 |}
     (calculateProfitTrend holdings_A_B
        (Some [ {| hi_date := "2024-01-05"; hi_netValues := None |} ])).
Proof.
  apply (proj1 (proj2 (proj2 (proj2 (profit_trend_follows_history holdings_A_B))))
           [ {| hi_date := "2024-01-05"; hi_netValues := None |} ]
           {| hi_date := "2024-01-05"; hi_netValues := None |}).
  - left. reflexivity.
  - reflexivity.
Defined.

End CalculatorMoreFacts.

(* ================================================================== *)
(** * Further properties of [Calculator64] *)

Section Calculator64MoreFacts.

Import Floats.
Import Calculator64.
Local Open Scope float_scope.

(** X1. [round], to 2 or to 4 decimals, keeps the sign of the number it is
    given: a positive amount never comes back negative, and a negative
    amount too small to show comes back as [-0], not as 0.  It returns
    [NaN] for [NaN] only, and what is not finite stays so. *)
Theorem round_keeps_sign (num : float) (decimals : nat) :
  decimals = 2%nat \/ decimals = 4%nat ->
  (forall negative,
     has_sign negative num -> has_sign negative (round num decimals)) /\
  (is_nan (round num decimals) = true -> is_nan num = true) /\
  (isFinite num = false -> isFinite (round num decimals) = false).
Proof.
  intros Hd. split; [|split].
  - intros negative. apply round_sign. exact Hd.
  - intros H. destruct (is_nan num) eqn:E; [reflexivity|].
    destruct (not_nan_has_sign num E) as [s Hs].
    rewrite (has_sign_not_nan s _ (round_sign s num decimals Hd Hs)) in H.
    discriminate H.
  - apply round_not_finite. exact Hd.
Qed.

Lemma round_keeps_sign_witness :
  has_sign true (round (-0.001) 2) /\ round (-0.001) 2 = -0.
Proof.
  split.
  - apply (proj1 (round_keeps_sign (-0.001) 2 (or_introl eq_refl)) true).
    vm_compute. reflexivity.
  - vm_compute. reflexivity.
Defined.

(** X5. Whatever the type of the transaction and whatever the numbers,
    [NaN] and the infinities included, the shares [calculateAfterTransaction]
    returns are not below 0.  A transaction that is no buy returns the
    cost price rounded to 4 decimals, and one that is neither a buy nor a
    sell returns the shares rounded to 2 decimals (and 0 for negative
    ones).  A buy that brings the shares to 0 divides by zero: the cost
    price it returns is [Infinity] or [NaN], not a finite number. *)
Theorem position_is_always_well_formed (holding : Holding)
  (transaction : Transaction) :
  let r := calculateAfterTransaction holding transaction in
  (pos_shares r <? 0) = false /\
  (tx_type transaction <> "buy"%string ->
   pos_costPrice r = round (costPrice holding) 4) /\
  (tx_type transaction <> "buy"%string ->
   tx_type transaction <> "sell"%string ->
   pos_shares r = Math_max 0 (round (shares holding) 2)) /\
  (tx_type transaction = "buy"%string ->
   (shares holding + tx_shares transaction =? 0) = true ->
   isFinite (pos_costPrice r) = false).
Proof.
  intros r. subst r. unfold calculateAfterTransaction.
  destruct (String.eqb (tx_type transaction) "buy") eqn:Hb;
    [|destruct (String.eqb (tx_type transaction) "sell") eqn:Hs];
    cbn [pos_shares pos_costPrice].
  - apply String.eqb_eq in Hb.
    split; [apply Math_max_0_not_below|].
    split; [intros H; contradiction|]. split; [intros H; contradiction|].
    intros _ Hz. apply round_not_finite; [right; reflexivity|].
    apply div_by_zero_not_finite. exact Hz.
  - apply String.eqb_eq in Hs. apply String.eqb_neq in Hb.
    split; [apply Math_max_0_not_below|].
    split; [reflexivity|]. split; [intros _ H; contradiction|].
    intros H. contradiction.
  - apply String.eqb_neq in Hs. apply String.eqb_neq in Hb.
    split; [apply Math_max_0_not_below|].
    split; [reflexivity|]. split; [reflexivity|].
    intros H. contradiction.
Qed.

Lemma position_is_always_well_formed_witness :
  calculateAfterTransaction {| shares := 5; costPrice := 2 |}
    {| tx_type := "buy"; tx_shares := -5; tx_amount := 10 |}
  = {| pos_shares := 0; pos_costPrice := infinity |} /\
  isFinite (pos_costPrice
              (calculateAfterTransaction {| shares := 5; costPrice := 2 |}
                 {| tx_type := "buy"; tx_shares := -5; tx_amount := 10 |}))
  = false.
Proof.
  split; [vm_compute; reflexivity|].
  apply (position_is_always_well_formed {| shares := 5; costPrice := 2 |}
           {| tx_type := "buy"; tx_shares := -5; tx_amount := 10 |});
    reflexivity.
Defined.


End Calculator64MoreFacts.

(* ================================================================== *)
(** * Further properties of the provider client *)

Section ClientMoreFacts.

Lemma fetchLatestNetWorth_rejected (net : Network) (fundCode : string)
  (err : Error) :
  FundAPI.fetchLatestNetWorth net fundCode = Rejected err <->
  SettledFails err (detailScript net fundCode).
Proof.
  unfold FundAPI.fetchLatestNetWorth. split.
  - destruct (detailScript net fundCode) as [t g|t|]; cbn [race].
    + destruct (t <? FundAPI.config_timeout)%Z eqn:Ht.
      * apply Z.ltb_lt in Ht.
        destruct (Data_netWorthTrend g) as [trend|] eqn:Hg.
        -- destruct (last trend) eqn:Hl; [discriminate|].
           intros [= <-]. apply settled_no_data.
           apply (no_settled_data _ _ _ Ht). right. rewrite Hg.
           destruct trend as [|x trend]; [reflexivity|].
           apply last_None in Hl. discriminate Hl.
        -- intros [= <-]. apply settled_no_data.
           apply (no_settled_data _ _ _ Ht). left. exact Hg.
      * apply Z.ltb_ge in Ht. intros [= <-].
        apply settled_times_out. apply times_out_late. exact Ht.
    + destruct (t <? FundAPI.config_timeout)%Z eqn:Ht.
      * apply Z.ltb_lt in Ht. intros [= <-]. apply settled_script_fails. exact Ht.
      * apply Z.ltb_ge in Ht. intros [= <-].
        apply settled_times_out. apply times_out_late_error. exact Ht.
    + intros [= <-]. apply settled_times_out. apply times_out_silent.
  - intros [ev Hto | t Ht | ev Hnd].
    + rewrite (race_times_out _ _ Hto). reflexivity.
    + cbn [race]. apply Z.ltb_lt in Ht. rewrite Ht. reflexivity.
    + destruct Hnd as [t g Ht Hg]. cbn [race].
      apply Z.ltb_lt in Ht. rewrite Ht.
      destruct Hg as [-> | ->]; reflexivity.
Qed.

(** X9. [getFundEstimate] is rejected exactly when the live-estimate path
    yields no data and the settled-net-value request fails, and then with
    the error of that request: a timeout, a failed script, or no net-value
    series.  It is never rejected for the format of a payload. *)
Theorem getFundEstimate_rejected_iff (net : Network) (fundCode : string)
  (err : Error) :
  (FundAPI.getFundEstimate net fundCode = Rejected err <->
   NoLiveData (estimateScript net fundCode) /\
   SettledFails err (detailScript net fundCode)) /\
  FundAPI.getFundEstimate net fundCode <> Rejected ErrFormat.
Proof.
  assert (Main : forall e,
    FundAPI.getFundEstimate net fundCode = Rejected e <->
    NoLiveData (estimateScript net fundCode) /\
    SettledFails e (detailScript net fundCode)).
  { intros e. unfold FundAPI.getFundEstimate, FundAPI.getFundEstimate_traced.
    destruct (FundAPI.fetchRealTimeEstimate net fundCode) as [r|] eqn:Hlive;
      cbn [fst].
    - split; [discriminate|]. intros [Hno _].
      rewrite (fetchRealTimeEstimate_no_data _ _ Hno) in Hlive. discriminate.
    - rewrite fetchLatestNetWorth_rejected. split.
      + intros H. split; [apply fetchRealTimeEstimate_None; exact Hlive | exact H].
      + intros [_ H]. exact H. }
  split; [apply Main|].
  intros H. apply Main in H. destruct H as [_ H]. inversion H.
Qed.

(** [v || ''] is the empty string or a truthy value, and never
    [undefined]. *)
Lemma or_empty_cases (v : jsvalue) :
  or_empty v = JString "" \/ is_truthy (or_empty v) = true.
Proof.
  unfold or_empty. destruct (is_truthy v) eqn:E; [right; exact E | left; reflexivity].
Qed.

Lemma or_empty_defined (v : jsvalue) : or_empty v <> JUndefined.
Proof.
  destruct (or_empty_cases v) as [E|E]; rewrite E || intros E';
    [discriminate | rewrite E' in E; discriminate E].
Qed.

Lemma getFundEstimate_fulfilled_is_well_formed_aux (net : Network)
  (fundCode : string) (e : Estimate) :
  FundAPI.getFundEstimate net fundCode = Fulfilled e ->
  est_code e = fundCode /\ WellFormedEstimate e.
Proof.
  intros H. split; [exact (getFundEstimate_code net fundCode e H)|].
  revert H. unfold FundAPI.getFundEstimate, FundAPI.getFundEstimate_traced.
  destruct (FundAPI.fetchRealTimeEstimate net fundCode) as [r|] eqn:Hlive;
    cbn [fst].
  - intros [= <-]. revert Hlive. unfold FundAPI.fetchRealTimeEstimate.
    destruct (race _ _) as [[d|]| |]; intros [= <-] || discriminate.
    unfold WellFormedEstimate.
    cbn [estimateNetWorth dayGrowth netWorth est_name time].
    split; [eexists; reflexivity|]. split; [eexists; reflexivity|].
    split; [eexists; reflexivity|].
    split; [apply or_empty_defined | apply or_empty_cases].
  - unfold FundAPI.fetchLatestNetWorth.
    destruct (race _ _) as [g| |]; try discriminate.
    destruct (Data_netWorthTrend g) as [trend|]; try discriminate.
    destruct (last trend); try discriminate.
    intros [= <-]. unfold WellFormedEstimate.
    cbn [estimateNetWorth dayGrowth netWorth est_name time].
    split; [eexists; reflexivity|]. split; [eexists; reflexivity|].
    split; [eexists; reflexivity|].
    split; [destruct (fS_name g); discriminate | left; reflexivity].
Qed.

Lemma getFundEstimate_rejected_iff_witness :
  FundAPI.getFundEstimate net_A_ok_B_timeout "000002" = Rejected ErrTimeout.
Proof.
  apply (proj1 (getFundEstimate_rejected_iff net_A_ok_B_timeout "000002"
                  ErrTimeout)).
  split.
  - apply no_live_silent.
  - apply settled_times_out. apply times_out_silent.
Defined.

(** X10. A valuation [getFundEstimate] is fulfilled with carries the code
    it was asked for and is well formed on both paths: its net worth,
    estimate and day growth are numbers (a field of the payload that does
    not parse counts as 0), its name is never [undefined], and its time is
    the empty string or a truthy value of the payload.  Neither has to be
    a string: a truthy name or time of any type is passed on as it is, and
    so is a [fS_name] that is [null]. *)
Theorem getFundEstimate_fulfilled_is_well_formed :
  (forall (net : Network) (fundCode : string) (e : Estimate),
     FundAPI.getFundEstimate net fundCode = Fulfilled e ->
     est_code e = fundCode /\ WellFormedEstimate e) /\
  (forall (net : Network) (fundCode : string) (t : Z) (data : GzData),
     estimateScript net fundCode = Arrives t (Some data) ->
     (t < FundAPI.realtime_timeout)%Z ->
     is_truthy (gz_name data) = true ->
     is_truthy (gztime data) = true ->
     exists e, FundAPI.getFundEstimate net fundCode = Fulfilled e /\
               est_name e = gz_name data /\ time e = gztime data) /\
  (forall (net : Network) (fundCode : string) (t : Z) (g : DetailGlobals)
          (e : Estimate),
     NoLiveData (estimateScript net fundCode) ->
     detailScript net fundCode = Arrives t g ->
     fS_name g = JNull ->
     FundAPI.getFundEstimate net fundCode = Fulfilled e ->
     est_name e = JNull).
Proof.
  split; [exact getFundEstimate_fulfilled_is_well_formed_aux|]. split.
  - intros net fundCode t data Hev Ht Hn Htime.
    unfold FundAPI.getFundEstimate, FundAPI.getFundEstimate_traced,
      FundAPI.fetchRealTimeEstimate.
    rewrite Hev. cbn [race]. apply Z.ltb_lt in Ht. rewrite Ht. cbn [fst].
    eexists. split; [reflexivity|].
    cbn [est_name time]. unfold or_empty. rewrite Hn, Htime. split; reflexivity.
  - intros net fundCode t g e Hno Hev Hnull.
    unfold FundAPI.getFundEstimate, FundAPI.getFundEstimate_traced.
    rewrite (fetchRealTimeEstimate_no_data _ _ Hno). cbn [fst].
    unfold FundAPI.fetchLatestNetWorth. rewrite Hev. cbn [race].
    destruct (t <? FundAPI.config_timeout)%Z; [|discriminate].
    destruct (Data_netWorthTrend g) as [trend|]; [|discriminate].
    destruct (last trend); [|discriminate].
    rewrite Hnull. intros [= <-]. reflexivity.
Qed.

Lemma getFundEstimate_fulfilled_is_well_formed_witness :
  est_code est_000001 = "000001"%string /\ WellFormedEstimate est_000001.
Proof.
  apply (proj1 getFundEstimate_fulfilled_is_well_formed
           net_A_ok_B_timeout "000001").
  reflexivity.
Defined.



End ClientMoreFacts.

(* ================================================================== *)
(** * Further properties of the cache *)

Section CacheMoreFacts.

Import Storage.

Context {D : Type}.

(** X12. Writing the entry of one key leaves the answer of [getCache] for
    every other (non-empty) key as it was, at every time, whether the write
    succeeds or fails. *)
Theorem setCache_leaves_other_keys (setItem_throws : bool) (slot : Slot D)
  (t : Z) (key : string) (d : D) (expireMinutes : option Q)
  (now : Z) (other : string) :
  other <> key ->
  other <> ""%string ->
  getCache (snd (setCache setItem_throws slot t key d expireMinutes)) now other
  = getCache slot now other.
Proof.
  intros Hne Hk. apply String.eqb_neq in Hk.
  unfold setCache.
  destruct (parse slot) as [cache|] eqn:Hp; [|reflexivity].
  destruct setItem_throws; [reflexivity|]. cbn [snd].
  unfold getCache. rewrite Hp. cbn [parse]. rewrite Hk. cbn [negb].
  rewrite assign_lookup_ne by exact Hne. reflexivity.
Qed.

Lemma runCacheOp_unparsable (op : CacheOp D) :
  runCacheOp Unparsable op = Unparsable.
Proof. destruct op; reflexivity. Qed.

(** X13. A cache item that does not parse stays so: [setCache] returns
    [false] and writes nothing, a sweep writes nothing, and after any
    sequence of the two [getCache] returns [null] for every key. *)
Theorem unparsable_cache_never_recovers (ops : list (CacheOp D)) :
  fold_left runCacheOp ops Unparsable = Unparsable /\
  (forall now key, getCache (fold_left runCacheOp ops Unparsable) now key = Null) /\
  (forall throws now key d m,
     setCache throws (fold_left runCacheOp ops Unparsable) now key d m
     = (false, Unparsable)).
Proof.
  assert (E : fold_left runCacheOp ops (@Unparsable D) = Unparsable).
  { induction ops as [|op ops IH]; [reflexivity|].
    cbn [fold_left]. rewrite runCacheOp_unparsable. exact IH. }
  rewrite E. split; [reflexivity|]. split; reflexivity.
Qed.

Lemma sweep_lookup (cache : gmap string (CacheItem D)) (now : Z) (key : string) :
  filter (fun kv : string * CacheItem D =>
            Qle_bool (inject_Z now) (expireTime (snd kv)) = true) cache !! key
  = match cache !! key with
    | Some item =>
        if Qle_bool (inject_Z now) (expireTime item) then Some item else None
    | None => None
    end.
Proof.
  destruct (cache !! key) as [item|] eqn:Hc.
  - destruct (Qle_bool (inject_Z now) (expireTime item)) eqn:E.
    + apply map_lookup_filter_Some. split; [exact Hc | exact E].
    + apply map_lookup_filter_None. right. intros x Hx.
      rewrite Hc in Hx. injection Hx as <-. cbn [snd]. rewrite E. discriminate.
  - apply map_lookup_filter_None. left. exact Hc.
Qed.

(** X14. After [clearExpiredCache] (when the store can be written) the
    cache holds exactly the entries whose expiry time is not before the
    time of the sweep, each as it was; nothing else is removed and nothing
    is added.  When the store cannot be written the item is left as it
    is. *)
Theorem sweep_keeps_exactly_the_unexpired (slot : Slot D) (now : Z)
  (cache : gmap string (CacheItem D)) :
  parse slot = Some cache ->
  (exists cache',
     parse (clearExpiredCache false slot now) = Some cache' /\
     forall key,
       cache' !! key
       = match cache !! key with
         | Some item =>
             if Qle_bool (inject_Z now) (expireTime item)
             then Some item else None
         | None => None
         end) /\
  clearExpiredCache true slot now = slot.
Proof.
  intros Hp. split.
  - unfold clearExpiredCache. rewrite Hp.
    set (kept := filter _ cache).
    destruct (Nat.eqb (size kept) (size cache)) eqn:E; cbn [negb andb].
    + exists cache. split; [exact Hp|].
      assert (K : kept = cache).
      { apply map_subseteq_size_eq; [apply map_filter_subseteq|].
        apply Nat.eqb_eq in E. lia. }
      intros key. rewrite <- K at 1. apply sweep_lookup.
    + exists kept. split; [reflexivity|]. intros key. apply sweep_lookup.
  - unfold clearExpiredCache. rewrite Hp.
    rewrite andb_false_r. reflexivity.
Qed.

End CacheMoreFacts.

Lemma setCache_leaves_other_keys_witness :
  Storage.getCache
    (snd (Storage.setCache false
            (snd (Storage.setCache false Storage.NoItem 1700000000000%Z
                    "000001" est_000001 None))
            1700000000500%Z "000003" est_000001 None))
    1700000001000%Z "000001"
  = Storage.Data est_000001.
Proof.
  rewrite (setCache_leaves_other_keys false _ 1700000000500%Z "000003"
             est_000001 None 1700000001000%Z "000001");
    [reflexivity | discriminate | discriminate].
Defined.

Lemma sweep_keeps_exactly_the_unexpired_witness :
  Storage.clearExpiredCache true
    (snd (Storage.setCache false Storage.NoItem 1700000000000%Z
            "000001" est_000001 None))
    1700000900000%Z
  = snd (Storage.setCache false Storage.NoItem 1700000000000%Z
           "000001" est_000001 None).
Proof.
  apply (proj2 (sweep_keeps_exactly_the_unexpired
                  (snd (Storage.setCache false Storage.NoItem 1700000000000%Z
                          "000001" est_000001 None))
                  1700000900000%Z _ eq_refl)).
Defined.

(* ================================================================== *)
(** * Properties of the holdings and transactions stores *)

Section StoreFacts.

Import Storage.

Lemma filter_all_pass {A : Type} (f : A -> bool) (l : list A) :
  (forall x, In x l -> f x = true) -> List.filter f l = l.
Proof.
  induction l as [|x rest IH]; intros H; [reflexivity|].
  cbn [List.filter]. rewrite (H x (or_introl eq_refl)).
  f_equal. apply IH. intros y Hy. apply H. right. exact Hy.
Qed.

Lemma filter_same_length {A : Type} (f : A -> bool) (l : list A) :
  Nat.eqb (length (List.filter f l)) (length l) = true <->
  forall x, In x l -> f x = true.
Proof.
  split.
  - intros E. apply Nat.eqb_eq in E.
    apply filter_length_forallb in E.
    intros x Hx. exact (proj1 (forallb_forall f l) E x Hx).
  - intros H. rewrite (filter_all_pass f l H). apply Nat.eqb_refl.
Qed.

Lemma findIndex_first {A : Type} (test : A -> bool) (before after : list A)
  (x : A) :
  (forall y, In y before -> test y = false) ->
  test x = true ->
  findIndex test (before ++ x :: after) = Some (length before).
Proof.
  induction before as [|y rest IH]; intros Hb Hx; simpl.
  - rewrite Hx. reflexivity.
  - rewrite (Hb y (or_introl eq_refl)).
    rewrite IH; [reflexivity | | exact Hx].
    intros z Hz. apply Hb. right. exact Hz.
Qed.

Lemma findIndex_none {A : Type} (test : A -> bool) (l : list A) :
  (forall y, In y l -> test y = false) -> findIndex test l = None.
Proof.
  induction l as [|y rest IH]; intros H; [reflexivity|].
  cbn [findIndex]. rewrite (H y (or_introl eq_refl)).
  rewrite IH; [reflexivity|]. intros z Hz. apply H. right. exact Hz.
Qed.

(** X15. [addHolding] refuses a holding whose code is already held: it
    throws and leaves the store as it is.  Otherwise it returns the holding
    with the new id and the time of the update, and (when the store can be
    written) the store holds the old holdings followed by it.  Either way,
    holdings that had distinct codes still have distinct codes. *)
Theorem addHolding_keeps_codes_distinct (setItem_throws : bool)
  (newId today : string) (now : Z) (item : Item (list StoredHolding))
  (holding : StoredHolding) :
  let r := addHolding setItem_throws newId today now item holding in
  (In (code (sh_holding holding)) (storedCodes (getHoldings item)) ->
   r = (Exn, item)) /\
  (~ In (code (sh_holding holding)) (storedCodes (getHoldings item)) ->
   exists added,
     fst r = Val added /\
     code (sh_holding added) = code (sh_holding holding) /\
     hid (sh_holding added) = newId /\
     sh_lastUpdate added = Some now /\
     (setItem_throws = false ->
      getHoldings (snd r) = getHoldings item ++ [added]) /\
     (setItem_throws = true -> snd r = item)) /\
  (NoDup (storedCodes (getHoldings item)) ->
   NoDup (storedCodes (getHoldings (snd r)))).
Proof.
  intros r. subst r. unfold addHolding.
  destruct (find _ (getHoldings item)) as [existing|] eqn:F.
  - apply find_some in F. destruct F as [Hin E]. apply String.eqb_eq in E.
    assert (Held : In (code (sh_holding holding)) (storedCodes (getHoldings item))).
    { unfold storedCodes. apply in_map_iff. exists existing. split; assumption. }
    split; [reflexivity|]. split; [contradiction|]. cbn [snd]. tauto.
  - pose proof (find_none _ _ F) as Hfree.
    assert (Free : ~ In (code (sh_holding holding)) (storedCodes (getHoldings item))).
    { unfold storedCodes. intros Hin. apply in_map_iff in Hin.
      destruct Hin as (h & Hc & Hh). specialize (Hfree h Hh). cbn in Hfree.
      apply String.eqb_neq in Hfree. contradiction. }
    split; [contradiction|]. split.
    + intros _. eexists. split; [reflexivity|].
      cbn [sh_holding with_id code hid sh_lastUpdate].
      split; [reflexivity|]. split; [reflexivity|]. split; [reflexivity|].
      unfold saveHoldings. split; intros ->; reflexivity.
    + intros Hnd. cbn [snd]. unfold saveHoldings.
      destruct setItem_throws; cbn [snd]; [exact Hnd|].
      cbn [getHoldings getItems]. unfold storedCodes. rewrite map_app.
      apply NoDup_app. split; [exact Hnd|]. split.
      * intros c Hc Hc'. cbn in Hc'.
        apply list_elem_of_In in Hc, Hc'. destruct Hc' as [<-|[]].
        apply Free. exact Hc.
      * cbn. apply NoDup_singleton.
Qed.

Lemma addHolding_keeps_codes_distinct_witness :
  addHolding false "id_9" "2024-01-05" 1700000000000%Z
    (Json [ {| sh_holding := holding_100_at_10; sh_addDate := None;
               sh_lastUpdate := None |} ])
    {| sh_holding := holding_of "000001" 5 2; sh_addDate := None;
       sh_lastUpdate := None |}
  = (Exn, Json [ {| sh_holding := holding_100_at_10; sh_addDate := None;
                    sh_lastUpdate := None |} ]).
Proof.
  apply (proj1 (addHolding_keeps_codes_distinct false "id_9" "2024-01-05"
                  1700000000000%Z _ _)).
  left. reflexivity.
Defined.

(** X16. [deleteHolding] returns [true] exactly when some stored holding has
    the id, also when the store then cannot be written.  When it returns
    [false] the store is as it was; when it returns [true] and the store can
    be written, the store holds the holdings with another id, all of them,
    in their order, and none with the id. *)
Theorem deleteHolding_removes_by_id (setItem_throws : bool)
  (item : Item (list StoredHolding)) (id : string) :
  let r := deleteHolding setItem_throws item id in
  (fst r = true <->
   exists h, In h (getHoldings item) /\ hid (sh_holding h) = id) /\
  (fst r = false -> snd r = item) /\
  (setItem_throws = true -> snd r = item) /\
  (fst r = true -> setItem_throws = false ->
   getHoldings (snd r)
     = List.filter (fun h => negb (String.eqb (hid (sh_holding h)) id))
         (getHoldings item) /\
   forall h, In h (getHoldings (snd r)) -> hid (sh_holding h) <> id).
Proof.
  intros r. subst r. unfold deleteHolding.
  set (keep := fun h => negb (String.eqb (hid (sh_holding h)) id)).
  destruct (Nat.eqb (length (List.filter keep (getHoldings item)))
                    (length (getHoldings item))) eqn:E.
  - pose proof (proj1 (filter_same_length keep _) E) as Hall.
    cbn [fst snd]. split; [|split; [|split]]; try reflexivity; try discriminate.
    split; [discriminate|]. intros (h & Hin & Hid).
    specialize (Hall h Hin). unfold keep in Hall.
    rewrite Hid, String.eqb_refl in Hall. discriminate.
  - cbn [fst snd]. split; [|split; [|split]].
    + split; [intros _|reflexivity].
      destruct (List.existsb (fun h => negb (keep h)) (getHoldings item)) eqn:X.
      * apply existsb_exists in X. destruct X as (h & Hin & Hk).
        exists h. split; [exact Hin|]. unfold keep in Hk.
        rewrite negb_involutive in Hk. apply String.eqb_eq. exact Hk.
      * exfalso. assert (Hall : forall x, In x (getHoldings item) -> keep x = true).
        { intros x Hx. destruct (keep x) eqn:K; [reflexivity|].
          assert (Y : List.existsb (fun h => negb (keep h)) (getHoldings item) = true).
          { apply existsb_exists. exists x. split; [exact Hx|]. rewrite K. reflexivity. }
          rewrite Y in X. discriminate. }
        apply filter_same_length in Hall. rewrite Hall in E. discriminate.
    + discriminate.
    + intros ->. reflexivity.
    + intros _ ->. cbn [saveHoldings snd getHoldings getItems].
      split; [reflexivity|]. intros h Hh. apply filter_In in Hh.
      destruct Hh as [_ Hk]. unfold keep in Hk.
      apply negb_true_iff, String.eqb_neq in Hk. exact Hk.
Qed.

Lemma deleteHolding_removes_by_id_witness :
  getHoldings
    (snd (deleteHolding false
            (Json [ {| sh_holding := holding_100_at_10; sh_addDate := None;
                       sh_lastUpdate := None |} ]) "id_000001"))
  = [].
Proof.
  apply (proj2 (proj2 (proj2 (deleteHolding_removes_by_id false
           (Json [ {| sh_holding := holding_100_at_10; sh_addDate := None;
                      sh_lastUpdate := None |} ]) "id_000001"))));
    reflexivity.
Defined.

(** X17. [updateHolding] changes the first stored holding with the id and
    no other: it returns that holding with the fields of [data] put over its
    own and the time of the update, and (when the store can be written) the
    store holds it in the place of the old one, between the same
    neighbours.  When no holding has the id it throws and the store is as
    it was. *)
Theorem updateHolding_patches_first_match (setItem_throws : bool) (now : Z)
  (item : Item (list StoredHolding)) (id : string) (data : HoldingPatch) :
  let r := updateHolding setItem_throws now item id data in
  (forall before old after,
     getHoldings item = before ++ old :: after ->
     (forall h, In h before -> hid (sh_holding h) <> id) ->
     hid (sh_holding old) = id ->
     fst r = Val (patched old data now) /\
     (setItem_throws = false ->
      getHoldings (snd r) = before ++ patched old data now :: after) /\
     (setItem_throws = true -> snd r = item)) /\
  ((forall h, In h (getHoldings item) -> hid (sh_holding h) <> id) ->
   r = (Exn, item)).
Proof.
  intros r. subst r. unfold updateHolding. split.
  - intros before old after Hsplit Hbefore Hold.
    rewrite Hsplit.
    rewrite (findIndex_first _ before after old).
    + rewrite (list_lookup_middle before after old (length before) eq_refl).
      cbn [fst snd]. split; [reflexivity|]. unfold saveHoldings.
      split; intros ->; cbn [snd]; [|reflexivity].
      cbn [getHoldings getItems].
      rewrite insert_app_r_alt by lia. rewrite Nat.sub_diag. reflexivity.
    + intros h Hh. apply String.eqb_neq. apply Hbefore. exact Hh.
    + apply String.eqb_eq. exact Hold.
  - intros Hnone. rewrite findIndex_none; [reflexivity|].
    intros h Hh. apply String.eqb_neq. apply Hnone. exact Hh.
Qed.

Lemma updateHolding_patches_first_match_witness :
  updateHolding false 1700000000000%Z
    (Json [ {| sh_holding := holding_100_at_10; sh_addDate := None;
               sh_lastUpdate := None |} ])
    "id_missing"
    {| pt_id := None; pt_code := None; pt_name := None;
       pt_shares := Some 150; pt_costPrice := Some 10.6667;
       pt_lastNav := None; pt_dayChange := None; pt_estimateTime := None;
       pt_addDate := None |}
  = (Exn, Json [ {| sh_holding := holding_100_at_10; sh_addDate := None;
                    sh_lastUpdate := None |} ]).
Proof.
  apply (proj2 (updateHolding_patches_first_match false 1700000000000%Z _
                  "id_missing" _)).
  intros h [<-|[]]. discriminate.
Defined.

(** X18. [addTransaction] puts the new transaction in front of the stored
    ones, with the new id and the creation time, its own date when it has
    one and today's date otherwise; it throws, leaving the store as it is,
    when the store cannot be written.  Deleting the transaction by the new
    id, when no older transaction has that id, gives back the stored
    transactions as they were. *)
Theorem addTransaction_puts_newest_first (newId today : string) (now : Z)
  (item : Item (list StoredTransaction)) (transaction : StoredTransaction) :
  addTransaction true newId today now item transaction = (Exn, item) /\
  (exists added,
     addTransaction false newId today now item transaction
       = (Val added, Json (added :: getTransactions item)) /\
     st_transaction added = st_transaction transaction /\
     st_id added = Some newId /\
     st_createTime added = Some now /\
     (st_date transaction = None \/ st_date transaction = Some ""%string ->
      st_date added = Some today) /\
     (forall d, st_date transaction = Some d -> d <> ""%string ->
                st_date added = Some d) /\
     ((forall t, In t (getTransactions item) -> st_id t <> Some newId) ->
      deleteTransaction false (Json (added :: getTransactions item)) newId
        = (true, Json (getTransactions item)))).
Proof.
  split; [reflexivity|].
  eexists. split; [reflexivity|].
  cbn [st_transaction st_id st_createTime st_date].
  split; [reflexivity|]. split; [reflexivity|]. split; [reflexivity|].
  split; [|split].
  - intros [-> | ->]; reflexivity.
  - intros d -> Hd. apply String.eqb_neq in Hd. rewrite Hd. reflexivity.
  - intros Hfresh. unfold deleteTransaction.
    cbn [getTransactions getItems List.filter st_id].
    rewrite bool_decide_true by reflexivity. cbn [negb].
    rewrite filter_all_pass.
    + cbn [length]. rewrite (proj2 (Nat.eqb_neq _ _)) by lia. reflexivity.
    + intros t Ht. rewrite bool_decide_false; [reflexivity|].
      apply Hfresh. exact Ht.
Qed.

Lemma addTransaction_puts_newest_first_witness :
  exists added,
    addTransaction false "id_1" "2024-01-05" 1700000000000%Z Missing
      {| st_transaction := buy_50_for_600; st_id := None; st_date := None;
         st_createTime := None |}
    = (Val added, Json [added]) /\
    deleteTransaction false (Json [added]) "id_1" = (true, Json []).
Proof.
  destruct (proj2 (addTransaction_puts_newest_first "id_1" "2024-01-05"
                     1700000000000%Z Missing
                     {| st_transaction := buy_50_for_600; st_id := None;
                        st_date := None; st_createTime := None |}))
    as (added & Hadd & _ & _ & _ & _ & _ & Hdel).
  exists added. split; [exact Hadd|].
  apply Hdel. intros t [].
Defined.

(** X19. [deleteTransaction] returns [true] only when a stored transaction
    had the id and the store has been written without it: the store then
    holds the transactions with another id, in their order.  When it
    returns [false] (no such transaction, or a store that cannot be
    written) the store is as it was. *)
Theorem deleteTransaction_true_means_removed (setItem_throws : bool)
  (item : Item (list StoredTransaction)) (id : string) :
  let r := deleteTransaction setItem_throws item id in
  (fst r = true <->
   setItem_throws = false /\
   exists t, In t (getTransactions item) /\ st_id t = Some id) /\
  (fst r = true ->
   getTransactions (snd r)
     = List.filter (fun t => negb (bool_decide (st_id t = Some id)))
         (getTransactions item) /\
   forall t, In t (getTransactions (snd r)) -> st_id t <> Some id) /\
  (fst r = false -> snd r = item).
Proof.
  intros r. subst r. unfold deleteTransaction.
  set (keep := fun t => negb (bool_decide (st_id t = Some id))).
  destruct (Nat.eqb (length (List.filter keep (getTransactions item)))
                    (length (getTransactions item))) eqn:E.
  - pose proof (proj1 (filter_same_length keep _) E) as Hall.
    cbn [fst snd]. split; [|split]; try reflexivity; try discriminate.
    split; [discriminate|]. intros (_ & t & Hin & Hid).
    specialize (Hall t Hin). unfold keep in Hall.
    rewrite bool_decide_true in Hall by exact Hid. discriminate.
  - assert (Hex : exists t, In t (getTransactions item) /\ st_id t = Some id).
    { destruct (List.existsb (fun t => negb (keep t)) (getTransactions item)) eqn:X.
      - apply existsb_exists in X. destruct X as (t & Hin & Hk).
        exists t. split; [exact Hin|]. unfold keep in Hk.
        rewrite negb_involutive in Hk. apply bool_decide_eq_true in Hk. exact Hk.
      - exfalso.
        assert (Hall : forall x, In x (getTransactions item) -> keep x = true).
        { intros x Hx. destruct (keep x) eqn:K; [reflexivity|].
          assert (Y : List.existsb (fun t => negb (keep t)) (getTransactions item)
                      = true).
          { apply existsb_exists. exists x. split; [exact Hx|].
            rewrite K. reflexivity. }
          rewrite Y in X. discriminate. }
        apply filter_same_length in Hall. rewrite Hall in E. discriminate. }
    destruct setItem_throws; cbn [fst snd].
    + split; [|split]; try reflexivity; try discriminate.
      split; [discriminate|]. intros [H _]. discriminate H.
    + split; [|split]; try discriminate.
      * split; [intros _; split; [reflexivity | exact Hex] | reflexivity].
      * intros _. cbn [getTransactions getItems]. split; [reflexivity|].
        intros t Ht. apply filter_In in Ht. destruct Ht as [_ Hk].
        unfold keep in Hk. apply negb_true_iff in Hk.
        apply bool_decide_eq_false in Hk. exact Hk.
Qed.

Lemma deleteTransaction_true_means_removed_witness :
  snd (deleteTransaction true
         (Json [ {| st_transaction := buy_50_for_600; st_id := Some "id_1"%string;
                    st_date := None; st_createTime := None |} ]) "id_1")
  = Json [ {| st_transaction := buy_50_for_600; st_id := Some "id_1"%string;
              st_date := None; st_createTime := None |} ].
Proof.
  apply (proj2 (proj2 (deleteTransaction_true_means_removed true
           (Json [ {| st_transaction := buy_50_for_600;
                      st_id := Some "id_1"%string;
                      st_date := None; st_createTime := None |} ]) "id_1"))).
  reflexivity.
Defined.

End StoreFacts.

Section SettingsFacts.

Import Storage.

Context {V : Type}.

(** X20. After a [setSetting] that returned [true], [getSetting] returns the
    value for the key, when the key is not [__proto__], and what it
    returned before for every other key.  For the key [__proto__], on
    settings that have no property of that name, [setSetting] returns
    [true] when the item can be written, yet [getSetting] goes on
    returning the prototype of the settings object, not the value: the
    assignment stored nothing.  A [setSetting] that returned [false] has
    written nothing.  When the settings item does not parse, [setSetting]
    returns [false] and [getSetting] returns [null] for every key. *)
Theorem setting_is_read_back (setItem_throws : bool) (item : Item (gmap string V))
  (key : string) (value : V) :
  let r := setSetting setItem_throws item key value in
  (fst r = true ->
   (key <> "__proto__"%string -> getSetting (snd r) key = SettingValue value) /\
   forall other, other <> key -> getSetting (snd r) other = getSetting item other) /\
  (key = "__proto__"%string ->
   getSetting item key = SettingInherited ->
   fst r = negb setItem_throws /\
   getSetting (snd r) key = SettingInherited) /\
  (fst r = false -> snd r = item) /\
  (item = Garbled ->
   fst r = false /\ forall k, getSetting item k = SettingNull).
Proof.
  intros r. subst r. unfold setSetting.
  destruct (parseSettings item) as [settings|] eqn:Hp.
  - destruct setItem_throws; cbn [fst snd negb].
    + split; [discriminate|]. split; [|split; [reflexivity|]].
      * intros _ H. split; [reflexivity | exact H].
      * intros ->. discriminate Hp.
    + split; [|split; [|split]].
      * intros _. unfold getSetting. rewrite Hp. cbn [parseSettings]. split.
        -- intros Hkey. rewrite assign_lookup_eq by exact Hkey. reflexivity.
        -- intros other Hne. rewrite assign_lookup_ne by exact Hne. reflexivity.
      * intros -> H. split; [reflexivity|].
        unfold getSetting in *. rewrite Hp in H. cbn [parseSettings].
        destruct (settings !! "__proto__"%string) eqn:Hown; [discriminate H|].
        rewrite assign_proto by exact Hown. rewrite Hown. reflexivity.
      * discriminate.
      * intros ->. discriminate Hp.
  - cbn [fst snd]. split; [discriminate|]. split; [|split; [reflexivity|]].
    + intros _ H. unfold getSetting in H. rewrite Hp in H. discriminate H.
    + intros ->. split; [reflexivity|]. intros k. reflexivity.
Qed.

(** X21. Importing what [exportData] returned for a store brings back the
    holdings, the transactions and the settings of that store, whatever the
    store imported into held, provided the three items can be written;
    [importData] then returns [true]. *)
Theorem import_of_export_restores (isoNow : string)
  (ls ls0 : LocalStorage V) (e : ExportData V)
  (setItem_throws : StorageKey -> bool) :
  exportData isoNow ls = Some e ->
  (forall k, setItem_throws k = false) ->
  let r := importData setItem_throws (Some (reparsed e)) ls0 in
  fst r = true /\
  getHoldings (ls_holdings (snd r)) = getHoldings (ls_holdings ls) /\
  getTransactions (ls_transactions (snd r)) = getTransactions (ls_transactions ls) /\
  parseSettings (ls_settings (snd r)) = parseSettings (ls_settings ls).
Proof.
  intros Hex Hok r. subst r. unfold exportData in Hex.
  destruct (parseSettings (ls_settings ls)) as [settings|] eqn:Hp; [|discriminate].
  injection Hex as <-.
  unfold importData, reparsed.
  cbn [im_version im_holdings im_transactions im_settings ex_version
       ex_holdings ex_transactions ex_settings String.eqb Ascii.eqb Bool.eqb].
  rewrite !Hok. unfold saveHoldings.
  cbn [fst snd ls_holdings ls_transactions ls_settings getHoldings
       getTransactions getItems parseSettings].
  repeat split; reflexivity.
Qed.

(** X22. [importData] writes nothing and returns [false] when the data has
    no version.  It is not all-or-nothing: when the holdings are written
    and the transactions then cannot be, it returns [false] with the
    holdings of the store already replaced and the transactions and
    settings as they were. *)
Theorem import_is_not_atomic (setItem_throws : StorageKey -> bool)
  (data : ImportData V) (ls : LocalStorage V) :
  (im_version data = None \/ im_version data = Some ""%string ->
   importData setItem_throws (Some data) ls = (false, ls)) /\
  (forall version holdings transactions,
     im_version data = Some version -> version <> ""%string ->
     im_holdings data = Some holdings ->
     im_transactions data = Some transactions ->
     setItem_throws HOLDINGS = false ->
     setItem_throws TRANSACTIONS = true ->
     importData setItem_throws (Some data) ls
     = (false, {| ls_holdings := Json holdings;
                  ls_transactions := ls_transactions ls;
                  ls_settings := ls_settings ls |})).
Proof.
  split.
  - intros [H|H]; unfold importData; rewrite H; reflexivity.
  - intros version holdings transactions Hv Hne Hh Ht Hok Hfail.
    unfold importData. rewrite Hv, Hh, Ht, Hok, Hfail.
    apply String.eqb_neq in Hne. rewrite Hne. reflexivity.
Qed.

End SettingsFacts.

Lemma setting_is_read_back_witness :
  Storage.getSetting
    (snd (Storage.setSetting false Storage.Missing "theme" "dark"%string))
    "theme"
  = Storage.SettingValue "dark"%string /\
  Storage.setSetting false Storage.Missing "__proto__" "dark"%string
  = (true, Storage.Json ∅) /\
  Storage.getSetting
    (snd (Storage.setSetting false Storage.Missing "__proto__" "dark"%string))
    "__proto__"
  = Storage.SettingInherited.
Proof.
  split; [|split].
  - apply (proj1 (setting_is_read_back false Storage.Missing "theme"
                    "dark"%string)); [reflexivity | discriminate].
  - reflexivity.
  - apply (proj1 (proj2 (setting_is_read_back false Storage.Missing "__proto__"
                           "dark"%string))); reflexivity.
Defined.

Lemma import_of_export_restores_witness :
  let ls := {| Storage.ls_holdings :=
                 Storage.Json [ {| Storage.sh_holding := holding_100_at_10;
                                   Storage.sh_addDate := None;
                                   Storage.sh_lastUpdate := None |} ];
               Storage.ls_transactions := Storage.Missing;
               Storage.ls_settings :=
                 Storage.Json ({[ "theme"%string := "dark"%string ]}) |} in
  let empty := {| Storage.ls_holdings := Storage.Missing;
                  Storage.ls_transactions := Storage.Missing;
                  Storage.ls_settings := Storage.Missing |} in
  let e := {| Storage.ex_holdings :=
                [ {| Storage.sh_holding := holding_100_at_10;
                     Storage.sh_addDate := None;
                     Storage.sh_lastUpdate := None |} ];
              Storage.ex_transactions := [];
              Storage.ex_settings := {[ "theme"%string := "dark"%string ]};
              Storage.ex_exportDate := "2024-01-05T10:00:00.000Z";
              Storage.ex_version := "1.0" |} in
  Storage.exportData "2024-01-05T10:00:00.000Z" ls = Some e /\
  Storage.getHoldings
    (Storage.ls_holdings
       (snd (Storage.importData (fun _ => false)
               (Some (Storage.reparsed e)) empty)))
  = Storage.getHoldings (Storage.ls_holdings ls).
Proof.
  intros ls empty e.
  assert (He : Storage.exportData "2024-01-05T10:00:00.000Z" ls = Some e)
    by reflexivity.
  split; [exact He|].
  apply (import_of_export_restores "2024-01-05T10:00:00.000Z" ls empty e
           (fun _ => false) He).
  reflexivity.
Defined.

Lemma import_is_not_atomic_witness :
  Storage.importData (fun k => match k with
                               | Storage.TRANSACTIONS => true
                               | _ => false
                               end)
    (Some {| Storage.im_version := Some "1.0"%string;
             Storage.im_holdings := Some [];
             Storage.im_transactions := Some [];
             Storage.im_settings := None |})
    {| Storage.ls_holdings := Storage.Missing;
       Storage.ls_transactions := Storage.Missing;
       Storage.ls_settings :=
         Storage.Json ({[ "theme"%string := "dark"%string ]}) |}
  = (false, {| Storage.ls_holdings := Storage.Json [];
               Storage.ls_transactions := Storage.Missing;
               Storage.ls_settings :=
                 Storage.Json ({[ "theme"%string := "dark"%string ]}) |}).
Proof.
  apply (proj2 (import_is_not_atomic
                  (fun k => match k with
                            | Storage.TRANSACTIONS => true
                            | _ => false
                            end)
                  {| Storage.im_version := Some "1.0"%string;
                     Storage.im_holdings := Some [];
                     Storage.im_transactions := Some [];
                     Storage.im_settings := None |}
                  {| Storage.ls_holdings := Storage.Missing;
                     Storage.ls_transactions := Storage.Missing;
                     Storage.ls_settings :=
                       Storage.Json ({[ "theme"%string := "dark"%string ]}) |})
           "1.0"%string [] []);
    reflexivity || discriminate.
Defined.

(* ================================================================== *)
(** * Further properties of the refresh scheduler *)

Section SchedulerMoreFacts.

Lemma settled_requested (env : Env) (p : Pending)
  (results : list (outcome Estimate)) (w : World) :
  requested (snd (refreshNetValues_settled env p results w)) = requested w.
Proof.
  run_statements.
  destruct (mergeResults results (holdings (app w))) as [hs updated].
  destruct updated, hs; every_path; reflexivity.
Qed.

Lemma settled_toasts (env : Env) (p : Pending)
  (results : list (outcome Estimate)) (w : World) :
  toasts (snd (refreshNetValues_settled env p results w))
  = toasts w
    ++ (if display_throws env (fst (mergeResults results (holdings (app w))))
        then [ToastFailed]
        else if snd (mergeResults results (holdings (app w)))
             then [ToastUpdated] else []).
Proof.
  run_statements. unfold display_throws, emptySummary.
  destruct (mergeResults results (holdings (app w))) as [hs updated].
  destruct updated, hs; every_path_in_order;
    rewrite ?app_nil_r; reflexivity.
Qed.

(** X23. A call of [refreshNetValues] made while no refresh is in flight
    and less than the refresh interval after the last successful refresh
    contacts nobody: no request is sent, the global state, the store and the
    toasts are as they were.  It still shows the summary of the holdings in
    memory (unless showing it throws). *)
Theorem refresh_not_due_only_redisplays (env : Env)
  (fetch : string -> outcome Estimate) (now : Z) (w : World) :
  isLoading (app w) = false ->
  lastRefreshTime (app w) <> 0%Z ->
  (now - lastRefreshTime (app w) < refreshInterval (app w))%Z ->
  let w' := snd (refreshNetValues env fetch now w) in
  app w' = app w /\
  requested w' = requested w /\
  stored w' = stored w /\
  toasts w' = toasts w /\
  (updateSummaryCard_throws env (Calculator.calculateSummary (holdings (app w)))
     = false ->
   card w' = Some (Calculator.calculateSummary (holdings (app w)))).
Proof.
  intros Hidle Hlast Hsoon w'. subst w'.
  assert (Hgate : shouldFetch (app w) now = false).
  { unfold shouldFetch.
    rewrite (proj2 (Z.eqb_neq _ _) Hlast), (proj2 (Z.leb_gt _ _) Hsoon).
    reflexivity. }
  run_statements. rewrite Hidle, Hgate. cbn [negb].
  destruct (updateSummaryCard_throws env _); cbn [snd app requested stored toasts card];
    repeat split; try reflexivity; discriminate.
Qed.

Lemma refresh_not_due_only_redisplays_witness :
  requested
    (snd (refreshNetValues env_quiet (FundAPI.getFundEstimate net_A_ok_B_timeout)
            1700000100000%Z
            {| app := {| holdings := holdings_A_B; isLoading := false;
                         lastRefreshTime := 1700000000000;
                         refreshInterval := 300000 |};
               stored := None; card := None; rotating := false;
               toasts := []; requested := [] |}))
  = [].
Proof.
  apply (refresh_not_due_only_redisplays env_quiet
           (FundAPI.getFundEstimate net_A_ok_B_timeout) 1700000100000%Z
           {| app := {| holdings := holdings_A_B; isLoading := false;
                        lastRefreshTime := 1700000000000;
                        refreshInterval := 300000 |};
              stored := None; card := None; rotating := false;
              toasts := []; requested := [] |});
    [reflexivity | discriminate | reflexivity].
Defined.

(** X24. A call of [refreshNetValues] made while no refresh is in flight,
    when a fetch is due (no successful refresh yet, or the interval has
    passed), the summary can be shown and [setRefreshing(true)] does not
    throw, requests the valuation of every holding, once for each holding
    and in their order, and of nothing else; with no holding it requests
    nothing and leaves the global state as it was.  When
    [setRefreshing(true)] throws, no request is sent. *)
Theorem refresh_due_requests_every_holding (env : Env)
  (fetch : string -> outcome Estimate) (now : Z) (w : World) :
  isLoading (app w) = false ->
  lastRefreshTime (app w) = 0%Z
    \/ (refreshInterval (app w) <= now - lastRefreshTime (app w))%Z ->
  updateSummaryCard_throws env (Calculator.calculateSummary (holdings (app w)))
    = false ->
  let w' := snd (refreshNetValues env fetch now w) in
  (setRefreshing_throws env true = false ->
   requested w' = requested w ++ map code (holdings (app w)) /\
   (holdings (app w) = [] -> app w' = app w)) /\
  (setRefreshing_throws env true = true -> requested w' = requested w).
Proof.
  intros Hidle Hdue Hcard w'. subst w'.
  assert (Hgate : shouldFetch (app w) now = true).
  { unfold shouldFetch. destruct Hdue as [-> | H]; [reflexivity|].
    apply Z.leb_le in H. rewrite H. apply orb_true_r. }
  split; intros Hbtn.
  - unfold refreshNetValues, bind at 1.
    destruct (refreshNetValues_call env now w) as [[[p|]|] w1] eqn:Hcall;
      revert Hcall; unfold refreshNetValues_call;
      cbv beta iota zeta delta [bind get_app updateSummaryCard setRefreshing
                                dispatch ret];
      rewrite Hidle, Hcard, Hgate; cbn [negb app holdings]; rewrite Hbtn;
      destruct (holdings (app w)) as [|h rest] eqn:Hhs; cbn [map];
      try destruct (setRefreshing_throws env false);
      intros [= <- <-] || intros [= <-] || intros [=];
      cbn [ret snd requested app]; rewrite ?settled_requested;
      cbn [requested]; rewrite ?app_nil_r;
      (split; [reflexivity|]); try discriminate;
      intros _; destruct w as [[hs l t i] st c r ts rq]; cbn in *; subst;
      reflexivity.
  - run_statements. rewrite Hidle, Hcard, Hgate. cbn [negb]. rewrite Hbtn.
    reflexivity.
Qed.

Lemma refresh_due_requests_every_holding_witness :
  requested
    (snd (refreshNetValues env_quiet (FundAPI.getFundEstimate net_A_ok_B_timeout)
            1700000000000%Z (page_with holdings_A_B)))
  = ["000001"; "000002"]%string /\
  requested
    (snd (refreshNetValues env_no_button
            (FundAPI.getFundEstimate net_A_ok_B_timeout)
            1700000000000%Z (page_with holdings_A_B)))
  = [].
Proof.
  split.
  - apply (refresh_due_requests_every_holding env_quiet
             (FundAPI.getFundEstimate net_A_ok_B_timeout) 1700000000000%Z
             (page_with holdings_A_B));
      [reflexivity | left; reflexivity | reflexivity | reflexivity].
  - apply (refresh_due_requests_every_holding env_no_button
             (FundAPI.getFundEstimate net_A_ok_B_timeout) 1700000000000%Z
             (page_with holdings_A_B));
      [reflexivity | left; reflexivity | reflexivity | reflexivity].
Defined.

(** X25. What the completion handler tells the user: one failure notice
    when showing the result throws, otherwise one success notice when at
    least one holding was updated, and otherwise nothing.  A batch in which
    no fetch succeeded is followed by no notice at all, unless something
    throws. *)
Theorem refresh_notices (env : Env) (p : Pending)
  (results : list (outcome Estimate)) (w : World) :
  let merged := mergeResults results (holdings (app w)) in
  let w' := snd (refreshNetValues_settled env p results w) in
  (display_throws env (fst merged) = true ->
   toasts w' = toasts w ++ [ToastFailed]) /\
  (display_throws env (fst merged) = false -> snd merged = true ->
   toasts w' = toasts w ++ [ToastUpdated]) /\
  (display_throws env (fst merged) = false -> snd merged = false ->
   toasts w' = toasts w).
Proof.
  intros merged w'. subst merged w'. rewrite settled_toasts.
  split; [|split].
  - intros ->. reflexivity.
  - intros -> ->. reflexivity.
  - intros -> ->. apply app_nil_r.
Qed.

Lemma refresh_notices_witness :
  toasts
    (snd (refreshNetValues_settled env_quiet
            {| p_now := 1700000000000%Z; p_codes := ["000002"]%string |}
            [Rejected ErrTimeout]
            (page_loading [holding_of "000002" 200 1.5])))
  = [].
Proof.
  apply (proj2 (proj2 (refresh_notices env_quiet
           {| p_now := 1700000000000%Z; p_codes := ["000002"]%string |}
           [Rejected ErrTimeout]
           (page_loading [holding_of "000002" 200 1.5]))));
    reflexivity.
Defined.

(** X26. Saving is not decisive for a refresh.  When a holding was updated
    and the store can be written, the stored holdings are the holdings in
    memory.  When the store cannot be written, the stored holdings are what
    they were, and yet the holdings in memory are the merged ones and the
    time of the last refresh is the [now] of the call.  When no holding was
    updated nothing is stored. *)
Theorem refresh_save_is_not_decisive (env : Env) (p : Pending)
  (results : list (outcome Estimate)) (w : World) :
  let merged := mergeResults results (holdings (app w)) in
  let w' := snd (refreshNetValues_settled env p results w) in
  holdings (app w') = fst merged /\
  (snd merged = true -> setItem_throws env (fst merged) = false ->
   stored w' = Some (holdings (app w'))) /\
  (snd merged = true -> setItem_throws env (fst merged) = true ->
   stored w' = stored w /\ lastRefreshTime (app w') = p_now p) /\
  (snd merged = false -> stored w' = stored w).
Proof.
  intros merged w'. subst merged w'.
  rewrite settled_stored, settled_app. cbn [holdings lastRefreshTime].
  split; [reflexivity|]. split; [|split].
  - intros -> ->. reflexivity.
  - intros -> ->. split; reflexivity.
  - intros ->. reflexivity.
Qed.

Lemma refresh_save_is_not_decisive_witness :
  stored
    (snd (refreshNetValues_settled env_quiet
            {| p_now := 1700000000000%Z; p_codes := ["000002"]%string |}
            [Rejected ErrTimeout]
            (page_loading [holding_of "000002" 200 1.5])))
  = Some [holding_of "000002" 200 1.5].
Proof.
  apply (proj2 (proj2 (proj2 (refresh_save_is_not_decisive env_quiet
           {| p_now := 1700000000000%Z; p_codes := ["000002"]%string |}
           [Rejected ErrTimeout]
           (page_loading [holding_of "000002" 200 1.5]))))).
  reflexivity.
Defined.

Lemma updateFound_kept_fields (e : Estimate) (hs hs' : list Holding) :
  updateFound e hs = Some hs' -> map kept_fields hs' = map kept_fields hs.
Proof.
  revert hs'. induction hs as [|h rest IH]; intros hs'; cbn [updateFound];
    [discriminate|].
  destruct (String.eqb (code h) (est_code e)).
  - intros [= <-]. reflexivity.
  - destruct (updateFound e rest) as [rest'|]; [|discriminate].
    intros [= <-]. cbn [map]. rewrite (IH rest' eq_refl). reflexivity.
Qed.

Lemma mergeResults_kept_fields (results : list (outcome Estimate)) :
  forall (hs : list Holding) (b : bool),
    map kept_fields (fst (fold_left mergeResult results (hs, b)))
    = map kept_fields hs.
Proof.
  induction results as [|r results IH]; intros hs b; [reflexivity|].
  cbn [fold_left]. destruct r as [e|err]; cbn [mergeResult fst].
  - destruct (updateFound e hs) as [hs'|] eqn:U.
    + rewrite IH. apply (updateFound_kept_fields e hs hs' U).
    + apply IH.
  - apply IH.
Qed.

Lemma fold_totalCost_kept_fields (hs : list Holding) :
  forall hs' acc acc',
    map kept_fields hs = map kept_fields hs' ->
    Calculator.acc_totalCost acc = Calculator.acc_totalCost acc' ->
    Calculator.acc_totalCost (fold_left Calculator.summaryStep hs acc)
    = Calculator.acc_totalCost (fold_left Calculator.summaryStep hs' acc').
Proof.
  induction hs as [|h rest IH]; intros [|h' rest'] acc acc' Hmap Hacc;
    try discriminate Hmap; [exact Hacc|].
  cbn [map] in Hmap. injection Hmap as _ _ _ Hs Hc Hrest.
  cbn [fold_left]. apply IH; [exact Hrest|].
  unfold Calculator.summaryStep, Calculator.calculateProfit.
  cbn [costAmount].
  destruct (dayChange h), (dayChange h'); cbn [Calculator.acc_totalCost];
    rewrite Hacc, Hs, Hc; reflexivity.
Qed.

(** X27. Whatever the results of the batch (any number of them, for any
    codes, in any order), the completion handler adds, removes and reorders
    no holding and changes the id, code, name, shares and cost price of
    none; so the total cost of the summary is the same before and after any
    refresh. *)
Theorem refresh_keeps_what_the_user_entered (env : Env) (p : Pending)
  (results : list (outcome Estimate)) (w : World) :
  let w' := snd (refreshNetValues_settled env p results w) in
  map kept_fields (holdings (app w')) = map kept_fields (holdings (app w)) /\
  length (holdings (app w')) = length (holdings (app w)) /\
  totalCost (Calculator.calculateSummary (holdings (app w')))
  = totalCost (Calculator.calculateSummary (holdings (app w))).
Proof.
  intros w'. subst w'. rewrite settled_app. cbn [holdings].
  assert (K : map kept_fields (fst (mergeResults results (holdings (app w))))
              = map kept_fields (holdings (app w))).
  { apply mergeResults_kept_fields. }
  split; [exact K|]. split.
  - rewrite <- (length_map kept_fields), K. apply length_map.
  - unfold Calculator.calculateSummary. cbn [totalCost]. f_equal.
    apply fold_totalCost_kept_fields; [exact K | reflexivity].
Qed.

Lemma navOrCost_applyEstimate (h : Holding) (e : Estimate) :
  navOrCost (applyEstimate h e) = num_or (netWorth e) (navOrCost h).
Proof.
  unfold navOrCost at 1. cbn [applyEstimate lastNav costPrice].
  destruct (Qeq_bool (num_or (netWorth e) (navOrCost h)) 0) eqn:E; [|reflexivity].
  revert E. destruct (netWorth e) as [|q]; cbn [num_or truthy].
  - unfold navOrCost. destruct (lastNav h) as [l|]; [|reflexivity].
    destruct (Qeq_bool l 0) eqn:El; [reflexivity|].
    intros E. rewrite E in El. discriminate.
  - destruct (Qeq_bool q 0) eqn:Eq; cbn [negb].
    + unfold navOrCost. destruct (lastNav h) as [l|]; [|reflexivity].
      destruct (Qeq_bool l 0) eqn:El; [reflexivity|].
      intros E. rewrite E in El. discriminate.
    + intros E. rewrite E in Eq. discriminate.
Qed.

(** X28. The price the calculator uses for a refreshed holding is the net
    worth of the valuation when that is a number other than 0, and the
    price it used before otherwise: a valuation whose net worth is [NaN] or
    0 leaves the profit figures of the holding as they were. *)
Theorem refresh_without_net_worth_keeps_price (h : Holding) (e : Estimate) :
  navOrCost (applyEstimate h e) = num_or (netWorth e) (navOrCost h) /\
  (forall q, netWorth e = Num q -> ~ q == 0 -> navOrCost (applyEstimate h e) = q) /\
  (truthy (netWorth e) = false ->
   navOrCost (applyEstimate h e) = navOrCost h /\
   Calculator.calculateProfit (applyEstimate h e) (navOrCost (applyEstimate h e))
   = Calculator.calculateProfit h (navOrCost h)).
Proof.
  split; [apply navOrCost_applyEstimate|]. split.
  - intros q Hq Hnz. rewrite navOrCost_applyEstimate, Hq. cbn [num_or truthy].
    destruct (Qeq_bool q 0) eqn:E; [|reflexivity].
    apply Qeq_bool_eq in E. contradiction.
  - intros Hfalsy.
    assert (N : navOrCost (applyEstimate h e) = navOrCost h).
    { rewrite navOrCost_applyEstimate. unfold num_or.
      destruct (netWorth e) as [|q]; [reflexivity|]. rewrite Hfalsy. reflexivity. }
    split; [exact N|]. rewrite N. reflexivity.
Qed.

Lemma refresh_without_net_worth_keeps_price_witness :
  navOrCost
    (applyEstimate holding_100_at_10
       {| est_code := "000001"; est_name := JString "";
          estimateNetWorth := NaN; dayGrowth := NaN; netWorth := NaN;
          time := JString "" |})
  = 10.
Proof.
  apply (proj2 (proj2 (refresh_without_net_worth_keeps_price holding_100_at_10
           {| est_code := "000001"; est_name := JString "";
              estimateNetWorth := NaN; dayGrowth := NaN; netWorth := NaN;
              time := JString "" |}))).
  reflexivity.
Defined.

End SchedulerMoreFacts.

(* ================================================================== *)
(** * Properties of [Utils] *)

Section UtilsFacts.

Import Utils.

Lemma throttled_runs_spaced (interval : Z) (calls : list Z) :
  forall last,
    Sorted (fun a b => (a + interval <= b)%Z) (throttled_runs interval last calls) /\
    HdRel (fun a b => (a + interval <= b)%Z) last
      (throttled_runs interval last calls).
Proof.
  induction calls as [|now rest IH]; intros last; cbn [throttled_runs].
  - split; constructor.
  - unfold throttled_call.
    destruct (interval <=? now - last)%Z eqn:E; cbn [fst snd].
    + destruct (IH now) as [S H]. split.
      * constructor; assumption.
      * constructor. apply Z.leb_le in E. lia.
    + apply IH.
Qed.

Lemma throttled_runs_sublist (interval : Z) (calls : list Z) :
  forall last, sublist (throttled_runs interval last calls) calls.
Proof.
  induction calls as [|now rest IH]; intros last; cbn [throttled_runs].
  - constructor.
  - destruct (fst (throttled_call interval last now)).
    + apply sublist_skip. apply IH.
    + apply sublist_cons. apply IH.
Qed.

Lemma throttled_runs_drop_reason (interval : Z) (calls : list Z) :
  forall last t,
    In t calls ->
    In t (throttled_runs interval last calls) \/
    (t - last < interval)%Z \/
    exists r, In r (throttled_runs interval last calls) /\ (t - r < interval)%Z.
Proof.
  induction calls as [|now rest IH]; intros last t Hin; [destruct Hin|].
  cbn [throttled_runs]. unfold throttled_call.
  destruct (interval <=? now - last)%Z eqn:E; cbn [fst snd].
  - destruct Hin as [<-|Hin]; [left; left; reflexivity|].
    destruct (IH now t Hin) as [H|[H|(r & Hr & H)]].
    + left. right. exact H.
    + right. right. exists now. split; [left; reflexivity | exact H].
    + right. right. exists r. split; [right; exact Hr | exact H].
  - apply Z.leb_gt in E. destruct Hin as [<-|Hin].
    + right. left. exact E.
    + apply IH. exact Hin.
Qed.

(** X29. The function [throttle] returns runs [fn] only at times at which it
    is called, in the order of the calls, and any run comes at least
    [interval] after the run before it and after time 0.  A call is dropped
    only when it comes less than [interval] after time 0 or after a run. *)
Theorem throttle_spaces_the_runs (interval : Z) (calls : list Z) :
  sublist (throttle interval calls) calls /\
  Sorted (fun a b => (a + interval <= b)%Z) (throttle interval calls) /\
  (forall t, hd_error (throttle interval calls) = Some t -> (interval <= t)%Z) /\
  (forall t, In t calls ->
     In t (throttle interval calls) \/
     (t < interval)%Z \/
     exists r, In r (throttle interval calls) /\ (t - r < interval)%Z).
Proof.
  unfold throttle. split; [apply throttled_runs_sublist|].
  destruct (throttled_runs_spaced interval calls 0) as [S H].
  split; [exact S|]. split.
  - intros t Ht. destruct (throttled_runs interval 0 calls) as [|x l];
      [discriminate|]. injection Ht as ->. inversion H; subst. lia.
  - intros t Hin.
    destruct (throttled_runs_drop_reason interval calls 0 t Hin) as [?|[?|?]];
      [left; assumption | right; left; lia | right; right; assumption].
Qed.

Lemma throttle_spaces_the_runs_witness :
  In 1700000000100%Z
     (throttle 300 [1700000000000; 1700000000100; 1700000000400]%Z) \/
  (1700000000100 < 300)%Z \/
  exists r,
    In r (throttle 300 [1700000000000; 1700000000100; 1700000000400]%Z) /\
    (1700000000100 - r < 300)%Z.
Proof.
  apply (proj2 (proj2 (proj2 (throttle_spaces_the_runs 300
           [1700000000000; 1700000000100; 1700000000400]%Z)))).
  right. left. reflexivity.
Defined.

(** X30. [formatRelativeTime] says "just now" for less than a minute (and
    for a date in the future), a number of minutes from 1 to 59, of hours
    from 1 to 23 or of days from 1 to 6 that is the whole number of such
    units elapsed, and falls back to the formatted date from 7 days on. *)
Theorem relative_time_is_in_range (date now : Z) :
  match formatRelativeTime date now with
  | JustNow => (now - date < 60000)%Z
  | MinutesAgo n =>
      (1 <= n <= 59 /\ 60000 * n <= now - date < 60000 * (n + 1))%Z
  | HoursAgo n =>
      (1 <= n <= 23 /\ 3600000 * n <= now - date < 3600000 * (n + 1))%Z
  | DaysAgo n =>
      (1 <= n <= 6 /\ 86400000 * n <= now - date < 86400000 * (n + 1))%Z
  | FormattedDate => (604800000 <= now - date)%Z
  end.
Proof.
  unfold formatRelativeTime. cbv zeta.
  set (diff := (now - date)%Z).
  rewrite !Z.div_div by lia.
  change (1000 * 60)%Z with 60000%Z.
  change (60000 * 60)%Z with 3600000%Z.
  change (3600000 * 24)%Z with 86400000%Z.
  destruct (diff / 1000 <? 60)%Z eqn:E1.
  - apply Z.ltb_lt in E1. Z.to_euclidean_division_equations. lia.
  - apply Z.ltb_ge in E1.
    destruct (diff / 60000 <? 60)%Z eqn:E2.
    + apply Z.ltb_lt in E2. Z.to_euclidean_division_equations. lia.
    + apply Z.ltb_ge in E2.
      destruct (diff / 3600000 <? 24)%Z eqn:E3.
      * apply Z.ltb_lt in E3. Z.to_euclidean_division_equations. lia.
      * apply Z.ltb_ge in E3.
        destruct (diff / 86400000 <? 7)%Z eqn:E4.
        -- apply Z.ltb_lt in E4. Z.to_euclidean_division_equations. lia.
        -- apply Z.ltb_ge in E4. Z.to_euclidean_division_equations. lia.
Qed.

End UtilsFacts.
